(** * Verification of [tools/cice_bry.py] (METROMS)

    A shallow embedding of the CICE boundary-file generator: the boundary
    variable catalogue ([BryVar], [load_bry_vars], [omnibry_var]), the
    accessor methods of [CiceBry] ([get_time_endpoints],
    [verify_variables], [__del__], ...) and the derivation loop of
    [CiceBryHax.write_bry_data].

    Conventions of the embedding:
    - Python [str] is [string]; [dict] with string keys is a [gmap string _];
      a [list] of objects is a [list];
    - numbers held in arrays are exact rationals ([Qc]); comparisons are the
      rational order, products and quotients are exact;
    - a [datetime] is its number of microseconds from the calendar origin
      (an integer), so that [==], [-] and [abs] on dates are those of [Z];
    - a method is a function in the state-and-exception monad [M] over the
      object's attributes: a raised exception keeps the mutations made
      before it, as in Python. *)

From Stdlib Require Import QArith Qcanon Qround Ascii.
From stdpp Require Import gmap strings list fin_maps numbers.

(* ===================================================================== *)
(** ** Python strings *)
(* ===================================================================== *)

Module PyStr.

(** [s.startswith(p)] on character lists. *)
Fixpoint starts_with (p s : list ascii) : bool :=
  match p, s with
  | [], _ => true
  | _ :: _, [] => false
  | a :: p', b :: s' => if decide (a = b) then starts_with p' s' else false
  end.

(** The scan of [str.replace] for a non-empty [old]: left to right, a match
    at the current position emits [new] and skips the matched characters
    ([skip] counts the ones still to drop), otherwise the character is
    copied. *)
Fixpoint replace_go (old new : list ascii) (skip : nat) (s : list ascii)
  : list ascii :=
  match s with
  | [] => []
  | c :: s' =>
      match skip with
      | S k => replace_go old new k s'
      | O =>
          if starts_with old s
          then new ++ replace_go old new (pred (length old)) s'
          else c :: replace_go old new 0 s'
      end
  end.

(** With an empty [old], Python inserts [new] before every character and
    at the end. *)
Fixpoint replace_empty (new s : list ascii) : list ascii :=
  match s with
  | [] => new
  | c :: s' => new ++ c :: replace_empty new s'
  end.

Definition replace_l (old new s : list ascii) : list ascii :=
  match old with
  | [] => replace_empty new s
  | _ :: _ => replace_go old new 0 s
  end.

(** [s.replace(old, new)]. *)
Definition replace (old new s : string) : string :=
  String.string_of_list_ascii
    (replace_l (String.list_ascii_of_string old) (String.list_ascii_of_string new)
               (String.list_ascii_of_string s)).

(** [c in s] for a one-character string [c]. *)
Fixpoint contains_char (c : ascii) (s : string) : bool :=
  match s with
  | EmptyString => false
  | String a s' => if decide (a = c) then true else contains_char c s'
  end.

(** What it means that every occurrence of [old] has been replaced by
    [new]: reading the input from the left, each occurrence met is replaced
    and the reading resumes behind it; a character at which no occurrence
    starts is kept. *)
Inductive Replaced (old new : list ascii) : list ascii -> list ascii -> Prop :=
| Replaced_nil : Replaced old new [] []
| Replaced_hit rest out :
    Replaced old new rest out ->
    Replaced old new (old ++ rest) (new ++ out)
| Replaced_keep c s out :
    starts_with old (c :: s) = false ->
    Replaced old new s out ->
    Replaced old new (c :: s) (c :: out).

Definition StrReplaced (old new s out : string) : Prop :=
  Replaced (String.list_ascii_of_string old) (String.list_ascii_of_string new)
           (String.list_ascii_of_string s) (String.list_ascii_of_string out).

(** [old] occurs in [s] at some position. *)
Definition occurs (old s : list ascii) : Prop :=
  exists p q, s = p ++ old ++ q.

End PyStr.

(* ===================================================================== *)
(** ** Python values and exceptions *)
(* ===================================================================== *)

(** Values an attribute dictionary may hold. *)
Inductive pyval :=
| PStr (s : string)
| PNone
| PNum (q : Qc).

Inductive exn :=
| ValueError (msg : string)
| AttributeError (msg : string)
| TypeError (msg : string)
| IOError (msg : string)
| KeyError (key : string)
| IndexError (msg : string)
| NameError (name : string)
| RuntimeError (msg : string)
| NotImplementedError (msg : string).

Inductive result (A : Type) :=
| Ok (a : A)
| Raise (e : exn).
Arguments Ok {A} a.
Arguments Raise {A} e.

(* ===================================================================== *)
(** ** The boundary variable catalogue *)
(* ===================================================================== *)

Inductive dtype := np_int16 | py_float.

(** [class BryVar]. *)
Record BryVar := mkBryVar {
  name : string;
  dtype_ : dtype;
  dims : list string;
  attrs : gmap string pyval;
}.

Inductive boundary := West | South | East | North.

#[global] Instance boundary_eq_dec : EqDecision boundary.
Proof. solve_decision. Defined.

(** [self.bry_order]. *)
Definition bry_order : list boundary := [West; South; East; North].

Definition bry_letter (b : boundary) : string :=
  match b with West => "W" | South => "S" | East => "E" | North => "N" end.

(** [bry_to_coor] of [omnibry_var]. *)
Definition bry_to_coor (b : boundary) : string :=
  match b with
  | West => "eta_t" | South => "xi_t" | East => "eta_t" | North => "xi_t"
  end.

(** [val.replace(bry_replace, bry)]: only a [str] has the method. *)
Definition val_replace (old new : string) (v : pyval) : result pyval :=
  match v with
  | PStr s => Ok (PStr (PyStr.replace old new s))
  | PNone => Raise (AttributeError "'NoneType' object has no attribute 'replace'")
  | PNum _ => Raise (AttributeError "'float' object has no attribute 'replace'")
  end.

(** The loop [for key, val in attrs.items(): actual_attrs[key] = ...] over
    the copy [actual_attrs]. *)
Definition replace_attrs (old new : string) (attrs0 : gmap string pyval)
  : result (gmap string pyval) :=
  map_fold
    (fun key val acc =>
       match acc with
       | Ok actual =>
           match val_replace old new val with
           | Ok v' => Ok (<[key := v']> actual)
           | Raise e => Raise e
           end
       | Raise e => Raise e
       end)
    (Ok attrs0) attrs0.

(** One turn of the loop of [omnibry_var]. *)
Definition omnibry_one (name0 : string) (dt : dtype) (dims0 : list string)
    (attrs0 : gmap string pyval) (bry_replace : string) (bry : boundary)
  : result BryVar :=
  match replace_attrs bry_replace (bry_letter bry) attrs0 with
  | Raise e => Raise e
  | Ok actual_attrs =>
      let actual_name := PyStr.replace bry_replace (bry_letter bry) name0 in
      let actual_dims :=
        map (PyStr.replace bry_replace (bry_to_coor bry)) dims0 in
      Ok (mkBryVar actual_name dt actual_dims actual_attrs)
  end.

Fixpoint omnibry_loop (name0 : string) (dt : dtype) (dims0 : list string)
    (attrs0 : gmap string pyval) (bry_replace : string)
    (order : list boundary) (bry_vars : list BryVar) : result (list BryVar) :=
  match order with
  | [] => Ok bry_vars
  | bry :: order' =>
      match omnibry_one name0 dt dims0 attrs0 bry_replace bry with
      | Raise e => Raise e
      | Ok v =>
          omnibry_loop name0 dt dims0 attrs0 bry_replace order' (bry_vars ++ [v])
      end
  end.

(** [CiceBry.omnibry_var]. *)
Definition omnibry_var (name0 : string) (dt : dtype) (dims0 : list string)
    (attrs0 : gmap string pyval) (bry_replace : string) : result (list BryVar) :=
  omnibry_loop name0 dt dims0 attrs0 bry_replace bry_order [].

Definition omnibry_var_default name0 dt dims0 attrs0 :=
  omnibry_var name0 dt dims0 attrs0 "BRY".

(** Sequencing in [result]: an exception ends the computation. *)
Definition rbind {A B} (r : result A) (k : A -> result B) : result B :=
  match r with
  | Ok a => k a
  | Raise e => Raise e
  end.

Notation "'let*' x := e 'in' k" := (rbind e (fun x => k))
  (at level 10, x name, e at level 200, k at level 200, only parsing).

Fixpoint rmapM {A B} (f : A -> result B) (l : list A) : result (list B) :=
  match l with
  | [] => Ok []
  | x :: l' =>
      let* y := f x in
      let* ys := rmapM f l' in
      Ok (y :: ys)
  end.

(** [CiceBry.load_bry_vars].  The dimensions of [Time] and [Ice_layers] are
    written [("days")] and [("nkice")] in the source, which are plain strings;
    the dataset library reads a string as a single dimension name, so both are
    the one-element sequences here. *)
Definition load_bry_vars : result (list BryVar) :=
  let bry_vars : list BryVar := [] in
  let bry_vars := bry_vars ++ [mkBryVar "Time" np_int16 ["days"]
    {[ "long_name" := PStr "model time";
       "units" := PStr "days since 2008-01-01 00:00:00" ]}] in
  let bry_vars := bry_vars ++ [mkBryVar "Ice_layers" np_int16 ["nkice"]
    {[ "long_name" := PStr "vertical ice levels"; "units" := PStr "1" ]}] in
  let add (acc : list BryVar) (nm : string) (ds : list string)
          (ats : gmap string pyval) : result (list BryVar) :=
    let* vs := omnibry_var_default nm py_float ds ats in Ok (acc ++ vs) in
  let* bry_vars := add bry_vars "TLON_BRY" ["BRY"]
    {[ "long_name" := PStr "T grid center longitude - BRY boundary";
       "units" := PStr "degrees_east" ]} in
  let* bry_vars := add bry_vars "TLAT_BRY" ["BRY"]
    {[ "long_name" := PStr "T grid center latitude - BRY boundary";
       "units" := PStr "degrees_north" ]} in
  let* bry_vars := add bry_vars "Tsfc_BRY_bry" ["days"; "ice_types"; "BRY"]
    {[ "long_name" := PStr "snow/ice surface temperature - BRY boundary" ]} in
  let* bry_vars := add bry_vars "aicen_BRY_bry" ["days"; "ice_types"; "BRY"]
    {[ "long_name" := PStr "ice area (aggregate) - BRY boundary" ]} in
  let* bry_vars := add bry_vars "vicen_BRY_bry" ["days"; "ice_types"; "BRY"]
    {[ "long_name" := PStr "grid cell mean ice thickness - BRY boundary";
       "units" := PStr "m" ]} in
  let* bry_vars := add bry_vars "vsnon_BRY_bry" ["days"; "ice_types"; "BRY"]
    {[ "long_name" := PStr "grid cell mean snow thickness - BRY boundary";
       "units" := PStr "m" ]} in
  let* bry_vars := add bry_vars "apond_BRY_bry" ["days"; "ice_types"; "BRY"]
    {[ "long_name" := PStr "melt pond fraction - BRY boundary";
       "units" := PStr "1" ]} in
  let* bry_vars := add bry_vars "hpond_BRY_bry" ["days"; "ice_types"; "BRY"]
    {[ "long_name" := PStr "mean melt pond depth - BRY boundary";
       "units" := PStr "m" ]} in
  let* bry_vars := add bry_vars "ipond_BRY_bry" ["days"; "ice_types"; "BRY"]
    {[ "long_name" := PStr "mean melt pond ice thickness - BRY boundary";
       "units" := PStr "m" ]} in
  let* bry_vars := add bry_vars "fbrine_BRY_bry" ["days"; "ice_types"; "BRY"]
    {[ "long_name" :=
         PStr "ratio of brine tracer height to ice thickness - BRY boundary";
       "units" := PStr "1" ]} in
  let* bry_vars := add bry_vars "hbrine_BRY_bry" ["days"; "ice_types"; "BRY"]
    {[ "long_name" :=
         PStr "brine surface height above sea ice base - BRY boundary";
       "units" := PStr "m" ]} in
  let* bry_vars := add bry_vars "iage_BRY_bry" ["days"; "ice_types"; "BRY"]
    {[ "long_name" := PStr "ice age - BRY boundary" ]} in
  let* bry_vars := add bry_vars "alvln_BRY_bry" ["days"; "ice_types"; "BRY"]
    {[ "long_name" := PStr "concentration of level ice - BRY boundary";
       "units" := PStr "1" ]} in
  let* bry_vars := add bry_vars "vlvln_BRY_bry" ["days"; "ice_types"; "BRY"]
    {[ "long_name" :=
         PStr "volume per unit of area of level ice - BRY boundary";
       "units" := PStr "m" ]} in
  let* bry_vars := add bry_vars "Tinz_BRY_bry"
    ["days"; "ice_types"; "nkice"; "BRY"]
    {[ "long_name" := PStr "vertical temperature profile - BRY boundary" ]} in
  let* bry_vars := add bry_vars "Sinz_BRY_bry"
    ["days"; "ice_types"; "nkice"; "BRY"]
    {[ "long_name" := PStr "vertical salinity profile - BRY boundary" ]} in
  Ok bry_vars.

(* ===================================================================== *)
(** ** Arrays and indexing (numpy, netCDF4) *)
(* ===================================================================== *)

(** An N-dimensional array as nested sequences of numbers. *)
Inductive nd :=
| Num (q : Qc)
| Arr (l : list nd).

(** One component of an index tuple: an integer or [slice(None)]. *)
Inductive idx :=
| I (i : Z)
| All.

#[global] Instance idx_eq_dec : EqDecision idx.
Proof. solve_decision. Defined.

#[global] Instance idx_countable : Countable idx :=
  inj_countable'
    (fun i => match i with I z => Some z | All => None end)
    (fun o => match o with Some z => I z | None => All end)
    (fun i => match i with I _ => eq_refl | All => eq_refl end).

(** [l[i]] with Python's negative indices. *)
Definition py_index {A} (l : list A) (i : Z) : option A :=
  if decide (0 <= i)%Z then l !! Z.to_nat i
  else if decide (- Z.of_nat (length l) <= i)%Z
       then l !! Z.to_nat (Z.of_nat (length l) + i)
       else None.

(** [a[ix]] for an index tuple [ix] of integers and full slices: an integer
    selects along the axis, a full slice keeps it. *)
Fixpoint getitem (ix : list idx) (a : nd) : result nd :=
  match ix with
  | [] => Ok a
  | I i :: ix' =>
      match a with
      | Arr l =>
          match py_index l i with
          | Some x => getitem ix' x
          | None => Raise (IndexError "index out of bounds")
          end
      | Num _ => Raise (IndexError "too many indices for array")
      end
  | All :: ix' =>
      match a with
      | Arr l => let* l' := rmapM (getitem ix') l in Ok (Arr l')
      | Num _ => Raise (IndexError "too many indices for array")
      end
  end.

(** A one-dimensional array of numbers. *)
Definition as_num (a : nd) : result Qc :=
  match a with
  | Num q => Ok q
  | Arr _ => Raise (ValueError "setting an array element with a sequence.")
  end.

Definition as_vec (a : nd) : result (list Qc) :=
  match a with
  | Arr l => rmapM as_num l
  | Num _ => Raise (TypeError "iteration over a 0-d array")
  end.

Definition of_vec (v : list Qc) : nd := Arr (map Num v).
Definition of_mat (m : list (list Qc)) : nd := Arr (map of_vec m).

(** Elementwise combination of two one-dimensional arrays: equal lengths, or
    one of them of length one, which is then repeated; other shapes do not
    broadcast. *)
Definition broadcast2 {A B C} (f : A -> B -> C) (xs : list A) (ys : list B)
  : result (list C) :=
  if decide (length xs = length ys) then Ok (zip_with f xs ys)
  else match xs, ys with
       | [x], _ => Ok (map (f x) ys)
       | _, [y] => Ok (map (fun x => f x y) xs)
       | _, _ => Raise (ValueError "operands could not be broadcast together")
       end.

(** The same, of every row of a two-dimensional array with a one-dimensional
    one (the trailing axes are aligned). *)
Definition broadcast_rows {A B C} (f : A -> B -> C) (m : list (list A))
    (ys : list B) : result (list (list C)) :=
  rmapM (fun row => broadcast2 f row ys) m.

Definition np_gt (xs : list Qc) (c : Qc) : list bool :=
  map (fun x => bool_decide (c < x)%Qc) xs.
Definition np_lt (xs : list Qc) (c : Qc) : list bool :=
  map (fun x => bool_decide (x < c)%Qc) xs.
Definition np_logical_and (a b : list bool) : result (list bool) :=
  broadcast2 andb a b.
Definition np_mul (xs ys : list Qc) : result (list Qc) :=
  broadcast2 Qcmult xs ys.
Definition np_sub (xs ys : list Qc) : result (list Qc) :=
  broadcast2 Qcminus xs ys.
Definition np_scale (c : Qc) (xs : list Qc) : list Qc := map (Qcmult c) xs.
Definition np_abs (xs : list Qc) : list Qc :=
  map (fun x => if bool_decide (x < 0)%Qc then (- x)%Qc else x) xs.

(** [np.where(mask, xs, c)] with a scalar [c]. *)
Definition np_where_s (mask : list bool) (xs : list Qc) (c : Qc)
  : result (list Qc) :=
  broadcast2 (fun (b : bool) x => if b then x else c) mask xs.

(** [np.where(mask, xs, ys)]. *)
Definition np_where (mask : list bool) (xs ys : list Qc) : result (list Qc) :=
  let* pairs := broadcast2 pair xs ys in
  broadcast2 (fun (b : bool) (p : Qc * Qc) => if b then p.1 else p.2) mask pairs.

(** [np.linspace(start, stop, num)]: [num] evenly spaced samples, the
    first at [start]; the step is the distance divided by [num - 1], and
    sample [k] lies [k] steps from [start]. *)
Definition Qc_of_nat (k : nat) : Qc := Q2Qc (inject_Z (Z.of_nat k)).

Definition linspace_at (start stop : Qc) (num k : nat) : Qc :=
  let step := ((stop - start) / Qc_of_nat (num - 1))%Qc in
  (start + Qc_of_nat k * step)%Qc.

(** With arrays as end points the samples run along a new first axis: row
    [k] holds the [k]-th sample of every pair of end points. *)
Definition np_linspace (start stop : list Qc) (num : nat)
  : result (list (list Qc)) :=
  let* pairs := broadcast2 pair start stop in
  Ok (map (fun k : nat =>
             map (fun p : Qc * Qc => linspace_at p.1 p.2 num k) pairs)
          (seq 0 num)).

(** [np.argmin] of a one-dimensional integer array: the first index of the
    minimum. *)
Fixpoint argmin_from (best : Z) (besti : nat) (i : nat) (l : list Z) : nat :=
  match l with
  | [] => besti
  | x :: l' =>
      if decide (x < best)%Z then argmin_from x i (Datatypes.S i) l'
      else argmin_from best besti (Datatypes.S i) l'
  end.

Definition np_argmin (l : list Z) : result nat :=
  match l with
  | [] => Raise (ValueError "attempt to get argmin of an empty sequence")
  | x :: l' => Ok (argmin_from x 0 1 l')
  end.

(** [np.where(time == d)[0]]: the indices at which [d] occurs. *)
Fixpoint where_eq_from (i : nat) (d : Z) (l : list Z) : list nat :=
  match l with
  | [] => []
  | x :: l' =>
      if decide (x = d) then i :: where_eq_from (Datatypes.S i) d l'
      else where_eq_from (Datatypes.S i) d l'
  end.

Definition np_where_eq (l : list Z) (d : Z) : list nat := where_eq_from 0 d l.

(* ===================================================================== *)
(** ** Datasets *)
(* ===================================================================== *)

(** A source dataset opened for reading (grid, climatology, atmosphere):
    its path, whether the handle is open, its variables and their [units]
    attributes. *)
Record SrcFile := mkSrc {
  src_path : string;
  src_open : bool;
  src_vars : gmap string nd;
  src_units : gmap string string;
}.

(** The boundary dataset.  [f_vars] are the variable names in the order of
    creation, which is the order of [variables.keys()].  The data are kept per
    variable and index tuple assigned to; the generator reads back only index
    tuples it has assigned before, any other read is outside this model and
    is reported as an error. *)
Record BryFile := mkBry {
  f_open : bool;
  f_dims : gmap string Z;
  f_vars : list string;
  f_gattrs : gmap string pyval;
  f_vattrs : gmap (string * string) pyval;
  f_data : gmap (string * list idx) nd;
}.

Definition empty_bry : BryFile := mkBry true ∅ [] ∅ ∅ ∅.

(** The files that exist when the object is built; [sorted_glob p] are the
    paths a wildcard pattern [p] matches, in sorted order. *)
Record World := mkWorld {
  bry_files : gmap string BryFile;
  src_files : gmap string SrcFile;
  sorted_glob : string -> list string;
}.

(** The calendar functions of the dataset library: decoding a stored time
    value under a units string, encoding a date, and printing a date. *)
Class Calendar := {
  num2date : Qc -> string -> Z;
  date2num : Z -> string -> Qc;
  str_date : Z -> string;
}.

(* ===================================================================== *)
(** ** The object and its methods *)
(* ===================================================================== *)

(** The attributes of a [CiceBryHax] object.  For the dataset handles the
    outer [option] tells whether the attribute has been set at all
    ([hasattr]); for [grid], [clm] and [atm] the inner one is Python's
    [None]. *)
Record CiceBryHax := mkObj {
  mode : string;
  bry_file : string;
  dim_sizes : option (gmap string Z);
  bry_vars : list BryVar;
  start_date : option Z;
  end_date : option Z;
  time_units : option string;
  bry : option BryFile;
  grid_file : option string;
  grid : option (option SrcFile);
  clm_file : option string;
  clm : option (option SrcFile);
  atm_file : option string;
  atm : option (option SrcFile);
  cice_file : option (list string);
  cice_files : option (list string);
  cice : option (list SrcFile);
}.

(** [self.dims], [self.cat_lims]. *)
Definition self_dims : gmap string string :=
  {[ "t" := "days"; "cat" := "ice_types"; "z" := "nkice";
     "x" := "xi_t"; "y" := "eta_t" ]}.

Definition cat_lims : list Qc :=
  [Q2Qc 0; Q2Qc 0.6445072; Q2Qc 1.391433; Q2Qc 2.470179; Q2Qc 4.567288;
   Q2Qc 1e8].

(** An object on which no constructor has run yet. *)
Definition blank : CiceBryHax :=
  mkObj "" "" None [] None None None None None None None None None None
        None None None.

Definition with_bry (o : CiceBryHax) (b : option BryFile) : CiceBryHax :=
  mkObj (mode o) (bry_file o) (dim_sizes o) (bry_vars o) (start_date o)
        (end_date o) (time_units o) b (grid_file o) (grid o) (clm_file o)
        (clm o) (atm_file o) (atm o) (cice_file o) (cice_files o) (cice o).

Definition with_bry_vars (o : CiceBryHax) (vs : list BryVar) : CiceBryHax :=
  mkObj (mode o) (bry_file o) (dim_sizes o) vs (start_date o) (end_date o)
        (time_units o) (bry o) (grid_file o) (grid o) (clm_file o) (clm o)
        (atm_file o) (atm o) (cice_file o) (cice_files o) (cice o).

Definition with_dim_sizes (o : CiceBryHax) (d : option (gmap string Z)) : CiceBryHax :=
  mkObj (mode o) (bry_file o) d (bry_vars o) (start_date o) (end_date o)
        (time_units o) (bry o) (grid_file o) (grid o) (clm_file o) (clm o)
        (atm_file o) (atm o) (cice_file o) (cice_files o) (cice o).

Definition with_dates (o : CiceBryHax) (sd ed : option Z) (u : option string) : CiceBryHax :=
  mkObj (mode o) (bry_file o) (dim_sizes o) (bry_vars o) sd ed u (bry o)
        (grid_file o) (grid o) (clm_file o) (clm o) (atm_file o) (atm o)
        (cice_file o) (cice_files o) (cice o).

Definition with_grid (o : CiceBryHax) (fn : option string) (g : option (option SrcFile)) : CiceBryHax :=
  mkObj (mode o) (bry_file o) (dim_sizes o) (bry_vars o) (start_date o)
        (end_date o) (time_units o) (bry o) fn g (clm_file o) (clm o)
        (atm_file o) (atm o) (cice_file o) (cice_files o) (cice o).

Definition with_clm (o : CiceBryHax) (fn : option string) (c : option (option SrcFile)) : CiceBryHax :=
  mkObj (mode o) (bry_file o) (dim_sizes o) (bry_vars o) (start_date o)
        (end_date o) (time_units o) (bry o) (grid_file o) (grid o) fn c
        (atm_file o) (atm o) (cice_file o) (cice_files o) (cice o).

Definition with_atm (o : CiceBryHax) (fn : option string) (a : option (option SrcFile)) : CiceBryHax :=
  mkObj (mode o) (bry_file o) (dim_sizes o) (bry_vars o) (start_date o)
        (end_date o) (time_units o) (bry o) (grid_file o) (grid o)
        (clm_file o) (clm o) fn a (cice_file o) (cice_files o) (cice o).

Definition with_cice_file (o : CiceBryHax) (fn : option (list string)) : CiceBryHax :=
  mkObj (mode o) (bry_file o) (dim_sizes o) (bry_vars o) (start_date o)
        (end_date o) (time_units o) (bry o) (grid_file o) (grid o)
        (clm_file o) (clm o) (atm_file o) (atm o) fn (cice_files o) (cice o).

Definition with_cice_files (o : CiceBryHax) (fns : option (list string)) : CiceBryHax :=
  mkObj (mode o) (bry_file o) (dim_sizes o) (bry_vars o) (start_date o)
        (end_date o) (time_units o) (bry o) (grid_file o) (grid o)
        (clm_file o) (clm o) (atm_file o) (atm o) (cice_file o) fns (cice o).

Definition with_cice (o : CiceBryHax) (c : option (list SrcFile)) : CiceBryHax :=
  mkObj (mode o) (bry_file o) (dim_sizes o) (bry_vars o) (start_date o)
        (end_date o) (time_units o) (bry o) (grid_file o) (grid o)
        (clm_file o) (clm o) (atm_file o) (atm o) (cice_file o)
        (cice_files o) c.

Definition with_mode (o : CiceBryHax) (m f : string) : CiceBryHax :=
  mkObj m f (dim_sizes o) (bry_vars o) (start_date o) (end_date o)
        (time_units o) (bry o) (grid_file o) (grid o) (clm_file o) (clm o)
        (atm_file o) (atm o) (cice_file o) (cice_files o) (cice o).

(** A method: it reads and updates the object and returns or raises. *)
Definition M (A : Type) : Type := CiceBryHax -> result A * CiceBryHax.

Definition ret {A} (a : A) : M A := fun o => (Ok a, o).
Definition raise {A} (e : exn) : M A := fun o => (Raise e, o).
Definition bind {A B} (m : M A) (k : A -> M B) : M B :=
  fun o => match m o with
           | (Ok a, o') => k a o'
           | (Raise e, o') => (Raise e, o')
           end.
Definition get : M CiceBryHax := fun o => (Ok o, o).
Definition put (o' : CiceBryHax) : M unit := fun _ => (Ok tt, o').
Definition lift {A} (r : result A) : M A := fun o => (r, o).

Notation "'do' x <- e ; k" := (bind e (fun x => k))
  (at level 10, x name, e at level 200, k at level 200, only parsing).
Notation "e ;; k" := (bind e (fun _ => k))
  (at level 100, k at level 200, right associativity, only parsing).

(** [for x in l: body(x)]. *)
Fixpoint for_each {A} (l : list A) (body : A -> M unit) : M unit :=
  match l with
  | [] => ret tt
  | x :: l' => body x ;; for_each l' body
  end.

(** [d[k]] on a dictionary and [l[i]] on a list. *)
Definition dict_get {V} (d : gmap string V) (k : string) : result V :=
  match d !! k with
  | Some v => Ok v
  | None => Raise (KeyError k)
  end.

Definition list_get {A} (l : list A) (i : Z) : result A :=
  match py_index l i with
  | Some x => Ok x
  | None => Raise (IndexError "list index out of range")
  end.

(** [self.bry], [self.grid], [self.clm], [self.atm] as attribute reads. *)
Definition get_bry : M BryFile :=
  fun o => match bry o with
           | Some f => (Ok f, o)
           | None =>
               (Raise (AttributeError "'CiceBryHax' object has no attribute 'bry'"), o)
           end.

Definition put_bry (f : BryFile) : M unit :=
  fun o => (Ok tt, with_bry o (Some f)).

(** *** Operations of the dataset library on the boundary file *)

Definition bry_set_open (f : BryFile) (b : bool) : BryFile :=
  mkBry b (f_dims f) (f_vars f) (f_gattrs f) (f_vattrs f) (f_data f).
Definition bry_set_dims (f : BryFile) (d : gmap string Z) : BryFile :=
  mkBry (f_open f) d (f_vars f) (f_gattrs f) (f_vattrs f) (f_data f).
Definition bry_set_vars (f : BryFile) (vs : list string) : BryFile :=
  mkBry (f_open f) (f_dims f) vs (f_gattrs f) (f_vattrs f) (f_data f).
Definition bry_set_vattrs (f : BryFile) (a : gmap (string * string) pyval)
  : BryFile :=
  mkBry (f_open f) (f_dims f) (f_vars f) (f_gattrs f) a (f_data f).
Definition bry_set_data (f : BryFile) (d : gmap (string * list idx) nd)
  : BryFile :=
  mkBry (f_open f) (f_dims f) (f_vars f) (f_gattrs f) (f_vattrs f) d.

Definition src_set_open (f : SrcFile) (b : bool) : SrcFile :=
  mkSrc (src_path f) b (src_vars f) (src_units f).

(** [Dataset.close()]: closing a handle that is not open is an error of the
    library. *)
Definition bry_close (f : BryFile) : result BryFile :=
  if f_open f then Ok (bry_set_open f false)
  else Raise (RuntimeError "NetCDF: Not a valid ID").

Definition src_close (f : SrcFile) : result SrcFile :=
  if src_open f then Ok (src_set_open f false)
  else Raise (RuntimeError "NetCDF: Not a valid ID").

(** [self.bry.createDimension(name, size)]. *)
Definition createDimension (nm : string) (size : Z) : M unit :=
  do f <- get_bry;
  match f_dims f !! nm with
  | Some _ => raise (RuntimeError "NetCDF: String match to name in use")
  | None => put_bry (bry_set_dims f (<[nm := size]> (f_dims f)))
  end.

(** [self.bry.createVariable(name, dtype, dims)]: the dimensions must
    exist and the name must be new. *)
Definition createVariable (nm : string) (dt : dtype) (ds : list string)
  : M unit :=
  do f <- get_bry;
  match list_find (fun d => f_dims f !! d = None) ds with
  | Some (_, d) => raise (ValueError ("cannot find dimension " +:+ d))
  | None =>
      if decide (nm ∈ f_vars f)
      then raise (RuntimeError "NetCDF: String match to name in use")
      else put_bry (bry_set_vars f (f_vars f ++ [nm]))
  end.

(** [setattr(self.bry.variables[vname], attr_name, attr_val)]: a value that
    is neither text nor a number is not a legal attribute. *)
Definition var_setattr (vname attr_name : string) (attr_val : pyval) : M unit :=
  do f <- get_bry;
  if decide (vname ∈ f_vars f)
  then match attr_val with
       | PNone => raise (TypeError "illegal data type for attribute")
       | _ => put_bry (bry_set_vattrs f
                         (<[(vname, attr_name) := attr_val]> (f_vattrs f)))
       end
  else raise (KeyError vname).

(** [self.bry.variables[vname][ix] = value]. *)
Definition bry_setitem (vname : string) (ix : list idx) (value : nd) : M unit :=
  do f <- get_bry;
  if decide (vname ∈ f_vars f)
  then put_bry (bry_set_data f (<[(vname, ix) := value]> (f_data f)))
  else raise (KeyError vname).

(** [self.bry.variables[vname][ix]]. *)
Definition bry_getitem (vname : string) (ix : list idx) : M nd :=
  do f <- get_bry;
  if decide (vname ∈ f_vars f)
  then match f_data f !! (vname, ix) with
       | Some a => ret a
       | None => raise (RuntimeError "index tuple never assigned")
       end
  else raise (KeyError vname).

(** [nc_file.variables[name]]. *)
Definition src_var (f : SrcFile) (nm : string) : result nd :=
  dict_get (src_vars f) nm.

(** *** [CiceBry] *)

(** [CiceBry.__init__]. *)
Definition CiceBry_init (w : World) (bry_file0 : string) (mode0 : string)
    (fmt : string) (overwrite : bool) : M unit :=
  (fun o => (Ok tt, with_mode o mode0 bry_file0)) ;;
  (fun o => (Ok tt, with_dim_sizes o None)) ;;
  do vs <- lift load_bry_vars;
  (fun o => (Ok tt, with_bry_vars o vs)) ;;
  (fun o => (Ok tt, with_dates o None None None)) ;;
  if decide (mode0 = "r") then
    match bry_files w !! bry_file0 with
    | Some f => put_bry (bry_set_open f true)
    | None => raise (IOError ("No such file or directory: " +:+ bry_file0))
    end
  else if decide (mode0 = "w") then
    if bool_decide (is_Some (bry_files w !! bry_file0)) && negb overwrite
    then raise (IOError ("File " +:+ bry_file0 +:+
                         " exists! Change <bry_file>, <mode> or <overwrite>"))
    else put_bry empty_bry
  else raise (ValueError ("Invalid value " +:+ mode0 +:+
                          " for keyword 'mode'")).

(** [CiceBry.set_dates]. *)
Definition set_dates (sd ed : option Z) (units : option string) : M unit :=
  fun o => (Ok tt, with_dates o sd ed units).

(** [CiceBry.set_dims]; sizes are integers, so the type test of the source
    always passes. *)
Definition set_dims (auto_time : bool) (sizes : gmap string Z) : M unit :=
  let allowed := (map_to_list self_dims).*2 in
  match list_find (fun kv : string * Z => kv.1 ∉ allowed) (map_to_list sizes) with
  | Some (_, kv) =>
      raise (ValueError ("Invalid dimension " +:+ kv.1 +:+
        ". Must be dict_values(['days', 'ice_types', 'nkice', 'xi_t', 'eta_t'])!"))
  | None =>
      (fun o => (Ok tt, with_dim_sizes o (Some sizes))) ;;
      (if auto_time then
         do o <- get;
         match start_date o, end_date o with
         | Some sd, Some ed =>
             let days := ((ed - sd) `div` 86400000000)%Z in
             put (with_dim_sizes o (Some (<["days" := (days + 1)%Z]> sizes)))
         | _, _ =>
             raise (ValueError
               "Both self.start_date and self.end_date must be non-None!")
         end
       else ret tt) ;;
      do o <- get;
      let ds := default ∅ (dim_sizes o) in
      if forallb (fun dn => bool_decide (is_Some (ds !! dn))) allowed
      then ret tt
      else raise (ValueError
        "Required dimensions are dict_values(['days', 'ice_types', 'nkice', 'xi_t', 'eta_t'])!")
  end.

(** [CiceBry.write_var_attrs]. *)
Definition write_var_attrs : M unit :=
  do o <- get;
  for_each (bry_vars o) (fun var =>
    for_each (map_to_list (attrs var)) (fun kv =>
      var_setattr (name var) kv.1 kv.2)).

(** [[v.name for v in self.bry_vars].index(var_name)]. *)
Definition index_of (var_name : string) (names : list string) : result nat :=
  match list_find (fun n => n = var_name) names with
  | Some (i, _) => Ok i
  | None => Raise (ValueError (var_name +:+ " is not in list"))
  end.

(** [CiceBry.set_var_attr]: the attribute dictionary of the catalogue entry
    is updated in place. *)
Definition set_var_attr (var_name attr_name : string) (attr_val : pyval)
    (update_file : bool) : M unit :=
  do o <- get;
  do i <- lift (index_of var_name (map name (bry_vars o)));
  put (with_bry_vars o
         (alter (fun v => mkBryVar (name v) (dtype_ v) (dims v)
                            (<[attr_name := attr_val]> (attrs v)))
                i (bry_vars o))) ;;
  if update_file then write_var_attrs else ret tt.


(** [CiceBry.write_dims]. *)
Definition write_dims : M unit :=
  do o <- get;
  match dim_sizes o with
  | None =>
      raise (AttributeError "dim_sizes attribute is not set! Use self.set_dims()")
  | Some ds =>
      for_each (map_to_list ds) (fun kv => createDimension kv.1 kv.2)
  end.

(** [CiceBry.write_vars]. *)
Definition write_vars : M unit :=
  do o <- get;
  for_each (bry_vars o) (fun var =>
    createVariable (name var) (dtype_ var) (dims var)).

(** [CiceBry.write_bry_data] of the abstract class. *)
Definition CiceBry_write_bry_data : M unit :=
  raise (NotImplementedError "This method should be overwritten by a subclass!").

Section WithCalendar.
Context `{Calendar}.

(** The [return_type] argument of [get_time_array]. *)
Inductive return_type := rt_float | rt_datetime | rt_other (nm : string).

Inductive time_array :=
| TFloat (l : list Qc)
| TDate (l : list Z).

(** [CiceBry.get_time_array]. *)
Definition get_time_array (nc_file : SrcFile) (time_name : string)
    (rt : return_type) : result time_array :=
  let* time_var := src_var nc_file time_name in
  match rt with
  | rt_float =>
      let* a := getitem [All] time_var in
      let* v := as_vec a in
      Ok (TFloat v)
  | rt_datetime =>
      let* a := getitem [All] time_var in
      let* v := as_vec a in
      match src_units nc_file !! time_name with
      | Some units => Ok (TDate (map (fun x => num2date x units) v))
      | None => Raise (AttributeError "units")
      end
  | rt_other nm =>
      Raise (TypeError ("Invalid type " +:+ nm +:+
                        " for keyword return_type!"))
  end.

Definition get_dates (nc_file : SrcFile) (time_name : string)
  : result (list Z) :=
  let* t := get_time_array nc_file time_name rt_datetime in
  match t with
  | TDate l => Ok l
  | TFloat _ => Raise (TypeError "not a date array")
  end.

(** [CiceBry.get_time_endpoints]. *)
Definition get_time_endpoints (nc_file : SrcFile) (time_name : string)
  : M (nat * nat) :=
  do o <- get;
  match start_date o, end_date o with
  | Some sd, Some ed =>
      do time <- lift (get_dates nc_file time_name);
      let start_idx := np_where_eq time sd in
      let end_idx := np_where_eq time ed in
      match start_idx with
      | [] => raise (ValueError ("Start date " +:+ str_date sd +:+ " not in "
                                 +:+ src_path nc_file +:+ "!"))
      | s0 :: _ =>
          match end_idx with
          | [] => raise (ValueError ("End date " +:+ str_date ed +:+
                                     " not in " +:+ src_path nc_file +:+ "!"))
          | e0 :: _ => ret (s0, e0)
          end
      end
  | _, _ =>
      raise (ValueError
        "Both self.start_date and self.end_date must be non-None!")
  end.

(** [CiceBry.compute_bry_time]. *)
Definition compute_bry_time (nc_file : SrcFile) (time_name : string)
  : M (list Qc) :=
  do input_time <- lift (get_dates nc_file time_name);
  do se <- get_time_endpoints nc_file time_name;
  do o <- get;
  match time_units o with
  | None =>
      raise (AttributeError "'NoneType' object has no attribute 'split'")
  | Some units =>
      let nums := map (fun d => date2num d units) input_time in
      ret (take (Datatypes.S se.2 - se.1) (drop se.1 nums))
  end.

End WithCalendar.

(** The local functions of [CiceBry._get_bry_slice]. *)
Definition clm_slice_3d (t_idx : Z) (b : boundary) : list idx :=
  match b with
  | West => [I t_idx; All; I 0]
  | South => [I t_idx; I 0; All]
  | East => [I t_idx; All; I (-1)]
  | North => [I t_idx; I (-1); All]
  end.

Definition clm_slice_4d (t_idx : Z) (b : boundary) (s_idx : Z) : list idx :=
  match b with
  | West => [I t_idx; I s_idx; All; I 0]
  | South => [I t_idx; I s_idx; I 0; All]
  | East => [I t_idx; I s_idx; All; I (-1)]
  | North => [I t_idx; I s_idx; I (-1); All]
  end.

Definition grid_slice_2d (b : boundary) : list idx :=
  match b with
  | West => [All; I 0]
  | South => [I 0; All]
  | East => [All; I (-1)]
  | North => [I (-1); All]
  end.

(** The keyword arguments of [_get_bry_slice]. *)
Record slice_kwargs := mkKw {
  kw_t_idx : option Z;
  kw_bry : option boundary;
  kw_s_idx : option Z;
}.

(** [CiceBry._get_bry_slice]. *)
Definition _get_bry_slice (slice_type : string) (kw : slice_kwargs)
  : result (list idx) :=
  if decide (slice_type = "clm_3d") then
    match kw with
    | mkKw (Some t) (Some b) None => Ok (clm_slice_3d t b)
    | _ => Raise (TypeError "clm_slice_3d() got unexpected arguments")
    end
  else if decide (slice_type = "clm_4d") then
    match kw with
    | mkKw (Some t) (Some b) (Some s) => Ok (clm_slice_4d t b s)
    | _ => Raise (TypeError "clm_slice_4d() got unexpected arguments")
    end
  else if decide (slice_type = "grid_2d") then
    match kw with
    | mkKw None (Some b) None => Ok (grid_slice_2d b)
    | _ => Raise (TypeError "grid_slice_2d() got unexpected arguments")
    end
  else Raise (ValueError ("Invalid slice_type " +:+ slice_type)).

(** [var.name = key] where [var] refers to the [i]-th entry of
    [self.bry_vars]: the entry itself is updated, since [var] and the list
    share the object. *)
Definition set_name_at (i : nat) (key : string) : M unit :=
  fun o =>
    (Ok tt,
     with_bry_vars o
       (alter (fun v => mkBryVar key (dtype_ v) (dims v) (attrs v)) i
              (bry_vars o))).

(** The first loop of [verify_variables].  The loop variable [var] is kept
    as the position in [self.bry_vars] of the entry it is bound to. *)
Fixpoint verify_missing (i : nat) (vars0 : list BryVar) (var : option nat)
  : M (option nat) :=
  match vars0 with
  | [] => ret var
  | v :: rest =>
      do o <- get;
      do f <- get_bry;
      if decide (name v ∈ f_vars f)
      then verify_missing (Datatypes.S i) rest (Some i)
      else raise (ValueError ("Variable " +:+ name v +:+ " not in file " +:+
                              bry_file o +:+ "!"))
  end.

(** The second loop, [for var.name in self.bry.variables.keys()]: each key
    is assigned to the attribute [name] of the object [var] is bound to. *)
Fixpoint verify_extra (keys : list string) (var : option nat)
    (necessary_vars : list string) : M unit :=
  match keys with
  | [] => ret tt
  | key :: rest =>
      match var with
      | None => raise (NameError "var")
      | Some i =>
          set_name_at i key ;;
          if decide (key ∈ necessary_vars)
          then verify_extra rest var necessary_vars
          else raise (ValueError ("Variable " +:+ key +:+
                                  " is not needed in CICE bry file!"))
      end
  end.

(** [CiceBry.verify_variables]. *)
Definition verify_variables : M bool :=
  do vs <- lift load_bry_vars;
  let necessary_vars := map name vs in
  do o <- get;
  do var <- verify_missing 0 (bry_vars o) None;
  do f <- get_bry;
  verify_extra (f_vars f) var necessary_vars ;;
  ret true.

(** [CiceBry.__del__]. *)
Definition CiceBry_del : M unit :=
  fun o =>
    match bry o with
    | Some f =>
        if f_open f
        then match bry_close f with
             | Ok f' => (Ok tt, with_bry o (Some f'))
             | Raise e => (Raise e, o)
             end
        else (Ok tt, o)
    | None => (Ok tt, o)
    end.

(** *** [CiceBryHax] *)

(** [CiceBryHax.__init__]. *)
Definition CiceBryHax_init (w : World) (bry_file0 : string) (mode0 : string)
    (fmt : string) (overwrite : bool) : M unit :=
  CiceBry_init w bry_file0 mode0 fmt overwrite ;;
  (fun o => (Ok tt, with_grid o None (Some None))) ;;
  (fun o => (Ok tt, with_clm o None (Some None))) ;;
  (fun o => (Ok tt, with_atm o None (Some None))) ;;
  (fun o => (Ok tt, with_cice_file o None)) ;;
  (fun o => (Ok tt, with_cice o None)).

(** [netCDF4.Dataset(fn, mode="r")] on a source file. *)
Definition open_src (w : World) (fn : string) : result SrcFile :=
  match src_files w !! fn with
  | Some f => Ok (src_set_open f true)
  | None => Raise (IOError ("No such file or directory: " +:+ fn))
  end.

(** [CiceBryHax.set_grid], [set_clm], [set_atm]. *)
Definition set_grid (w : World) (grid_file0 : string) : M unit :=
  (fun o => (Ok tt, with_grid o (Some grid_file0) (grid o))) ;;
  do g <- lift (open_src w grid_file0);
  fun o => (Ok tt, with_grid o (grid_file o) (Some (Some g))).

Definition set_clm (w : World) (clm_file0 : string) : M unit :=
  (fun o => (Ok tt, with_clm o (Some clm_file0) (clm o))) ;;
  do c <- lift (open_src w clm_file0);
  fun o => (Ok tt, with_clm o (clm_file o) (Some (Some c))).

Definition set_atm (w : World) (atm_file0 : string) : M unit :=
  (fun o => (Ok tt, with_atm o (Some atm_file0) (atm o))) ;;
  do a <- lift (open_src w atm_file0);
  fun o => (Ok tt, with_atm o (atm_file o) (Some (Some a))).

(** What a name is bound to. *)
Inductive binding :=
| BModule
| BClass
| BBuiltin
| BSelf
| BStr (s : string)
| BStrList (l : list string).

(** The names bound at module level: the four imports and the three
    classes. *)
Definition module_globals : gmap string binding :=
  {[ "os" := BModule; "netCDF4" := BModule; "np" := BModule; "dt" := BModule;
     "BryVar" := BClass; "CiceBry" := BClass; "CiceBryHax" := BClass ]}.

(** The builtins the module uses. *)
Definition builtins : gmap string binding :=
  list_to_map ((fun nm : string => (nm, BBuiltin)) <$>
    ["any"; "all"; "sorted"; "list"; "range"; "len"; "tuple"; "print";
     "type"; "hasattr"; "setattr"; "super"; "float"; "int"; "dict"; "slice";
     "object"; "True"; "False"; "None"; "IOError"; "ValueError"; "TypeError";
     "AttributeError"; "NotImplementedError"]).

(** Reading a name: the local scope, then the module's, then the builtins. *)
Definition resolve (locals : gmap string binding) (nm : string) : M binding :=
  match locals !! nm with
  | Some b => ret b
  | None =>
      match module_globals !! nm with
      | Some b => ret b
      | None =>
          match builtins !! nm with
          | Some b => ret b
          | None => raise (NameError nm)
          end
      end
  end.

(** [CiceBryHax.set_cice_rst]. *)
Definition set_cice_rst (w : World) (cice_file0 : string) : M unit :=
  let locals : gmap string binding :=
    {[ "self" := BSelf; "cice_file" := BStr cice_file0 ]} in
  (if existsb (fun c => PyStr.contains_char c cice_file0) ["*"; "?"]%char
   then
     do _ <- resolve locals "sorted";
     do g <- resolve locals "glob";
     match g with
     | BModule =>
         fun o => (Ok tt, with_cice_files o (Some (sorted_glob w cice_file0)))
     | _ => raise (AttributeError "glob")
     end
   else
     fun o => (Ok tt, with_cice_file o (Some [cice_file0]))) ;;
  do fns <- resolve locals "cice_files";
  match fns with
  | BStrList l =>
      do _ <- resolve locals "netCDF4";
      do ds <- lift (rmapM (open_src w) l);
      fun o => (Ok tt, with_cice o (Some ds))
  | _ => raise (TypeError "object is not iterable")
  end.

(** [CiceBryHax.__del__]. *)
Definition close_if_open (h : option (option SrcFile))
  : result (option (option SrcFile)) :=
  match h with
  | Some (Some f) =>
      if src_open f
      then let* f' := src_close f in Ok (Some (Some f'))
      else Ok h
  | _ => Ok h
  end.

Definition CiceBryHax_del : M unit :=
  (fun o => match close_if_open (grid o) with
            | Ok g => (Ok tt, with_grid o (grid_file o) g)
            | Raise e => (Raise e, o)
            end) ;;
  (fun o => match close_if_open (clm o) with
            | Ok c => (Ok tt, with_clm o (clm_file o) c)
            | Raise e => (Raise e, o)
            end) ;;
  (fun o => match close_if_open (atm o) with
            | Ok a => (Ok tt, with_atm o (atm_file o) a)
            | Raise e => (Raise e, o)
            end) ;;
  CiceBry_del.

(** [a[ix]] as a one-dimensional array. *)
Definition read1 (a : nd) (ix : list idx) : result (list Qc) :=
  let* x := getitem ix a in as_vec x.

(** [self.dim_sizes[self.dims["z"]]]. *)
Definition get_nz : M Z :=
  do o <- get;
  do z <- lift (dict_get self_dims "z");
  match dim_sizes o with
  | None => raise (TypeError "'NoneType' object is not subscriptable")
  | Some ds => lift (dict_get ds z)
  end.

(** [np.linspace(start, stop, self.dim_sizes[self.dims["z"]])]. *)
Definition linspace_z (start stop : list Qc) : M (list (list Qc)) :=
  do nz <- get_nz;
  if decide (nz < 0)%Z
  then raise (ValueError "Number of samples must be non-negative.")
  else lift (np_linspace start stop (Z.to_nat nz)).

(** ["<stem>_{}_bry".format(bry)]. *)
Definition bry_name (stem : string) (b : boundary) : string :=
  stem +:+ "_" +:+ bry_letter b +:+ "_bry".

Definition zero_vars_3d : list string :=
  ["iage_BRY_bry"; "apond_BRY_bry"; "hpond_BRY_bry"; "ipond_BRY_bry";
   "fbrine_BRY_bry"; "hbrine_BRY_bry"; "alvln_BRY_bry"; "vlvln_BRY_bry"].

(** The category mask of [write_bry_data]:
    [np.logical_and(hice > cat_lims[n], hice < cat_lims[n+1])]. *)
Definition cat_mask_of (hice_c : list Qc) (n : nat) : result (list bool) :=
  let* lo := list_get cat_lims (Z.of_nat n) in
  let* hi := list_get cat_lims (Z.of_nat (n + 1)) in
  np_logical_and (np_gt hice_c lo) (np_lt hice_c hi).

(** The body of the innermost loop of [write_bry_data]: category [n] on
    boundary [b], for the climatology time index [clm_idx], the atmosphere
    time index [atm_idx] and the boundary time index [bry_idx]. *)
Definition write_bry_transect (aice hice tair toce salt land_mask : nd)
    (clm_idx atm_idx bry_idx : nat) (n : nat) (b : boundary) : M unit :=
  do cslice <- lift (_get_bry_slice "clm_3d"
                       (mkKw (Some (Z.of_nat clm_idx)) (Some b) None));
  do aslice <- lift (_get_bry_slice "clm_3d"
                       (mkKw (Some (Z.of_nat atm_idx)) (Some b) None));
  let bslice := [I (Z.of_nat bry_idx); I (Z.of_nat n); All] in
  (* masking out all other ice categories except category n *)
  do hice_c <- lift (read1 hice cslice);
  do cat_mask <- lift (cat_mask_of hice_c n);
  (* ice concentration *)
  do aice_c <- lift (read1 aice cslice);
  do w <- lift (np_where_s cat_mask aice_c 0);
  do land <- lift (read1 land_mask (tail cslice));
  do v <- lift (np_mul w land);
  bry_setitem (bry_name "aicen" b) bslice (of_vec v) ;;
  (* ice volume *)
  do ha <- lift (np_mul hice_c aice_c);
  do w <- lift (np_where_s cat_mask ha 0);
  do v <- lift (np_mul w land);
  bry_setitem (bry_name "vicen" b) bslice (of_vec v) ;;
  (* snow volume, from the ice volume in the file *)
  do vicen_b <- bry_getitem (bry_name "vicen" b) bslice;
  do vicen_v <- lift (as_vec vicen_b);
  do w <- lift (np_where_s cat_mask (np_scale (Q2Qc 0.2) vicen_v) 0);
  do v <- lift (np_mul w land);
  bry_setitem (bry_name "vsnon" b) bslice (of_vec v) ;;
  (* surface temperature *)
  do tair_a <- lift (read1 tair aslice);
  do w <- lift (np_where_s cat_mask tair_a 0);
  do v <- lift (np_mul w land);
  bry_setitem (bry_name "Tsfc" b) bslice (of_vec v) ;;
  (* slices needed for the 4d variables *)
  do cslice_4d <- lift (_get_bry_slice "clm_4d"
                          (mkKw (Some (Z.of_nat clm_idx)) (Some b) (Some (-1)%Z)));
  let bslice_4d := [I (Z.of_nat bry_idx); I (Z.of_nat n); All; All] in
  (* vertical profile of salinity *)
  do salt_c <- lift (read1 salt cslice_4d);
  do salt_interp <- linspace_z salt_c (np_scale (Q2Qc 0.2) salt_c);
  do w <- lift (rmapM (fun row => np_where_s cat_mask row (Q2Qc 5)) salt_interp);
  do v <- lift (broadcast_rows Qcmult w land);
  bry_setitem (bry_name "Sinz" b) bslice_4d (of_mat v) ;;
  (* vertical profile of temperature *)
  do vsnon_b <- bry_getitem (bry_name "vsnon" b) bslice;
  do vsnon_v <- lift (as_vec vsnon_b);
  let snow_mask := np_gt vsnon_v (Q2Qc 0.01) in
  do toce_c <- lift (read1 toce cslice_4d);
  do temp_interp_ice <- linspace_z toce_c tair_a;
  do diff <- lift (np_sub toce_c tair_a);
  do target <- lift (np_sub toce_c (np_scale (Q2Qc 0.2) (np_abs diff)));
  do temp_interp_sno <- linspace_z toce_c target;
  do temp_interp <- lift (rmapM (fun rows : list Qc * list Qc =>
                                   np_where snow_mask rows.1 rows.2)
                                (zip temp_interp_sno temp_interp_ice));
  do w <- lift (rmapM (fun row => np_where_s cat_mask row (Q2Qc (-5)))
                      temp_interp);
  do v <- lift (broadcast_rows Qcmult w land);
  bry_setitem (bry_name "Tinz" b) bslice_4d (of_mat v) ;;
  (* all variables that are set to zero *)
  for_each zero_vars_3d (fun var =>
    bry_setitem (PyStr.replace "BRY" (bry_letter b) var) bslice (Num 0)).

Section WriteBryData.
Context `{Calendar}.

(** The body of the loop over the climatology time indices. *)
Definition write_bry_day (aice hice tair toce salt land_mask : nd)
    (bry_time : list Qc) (clm_dates atm_dates : list Z) (t0c_idx : nat)
    (clm_idx : nat) : M unit :=
  let bry_idx := (clm_idx - t0c_idx)%nat in
  do today <- lift (list_get clm_dates (Z.of_nat clm_idx));
  do atm_idx <- lift (np_argmin
                        (map (fun d => Z.abs (d - today)) atm_dates));
  do now <- lift (list_get bry_time (Z.of_nat bry_idx));
  bry_setitem "Time" [I (Z.of_nat bry_idx)] (Num now) ;;
  for_each (seq 0 (length (tail cat_lims))) (fun n =>
    for_each bry_order (fun b =>
      write_bry_transect aice hice tair toce salt land_mask
                         clm_idx atm_idx bry_idx n b)).

(** [CiceBryHax.write_bry_data]. *)
Definition write_bry_data : M unit :=
  do o <- get;
  match grid o with
  | None => raise (AttributeError "'CiceBryHax' object has no attribute 'grid'")
  | Some None =>
      raise (AttributeError "No grid file has been set! Use self.set_grid().")
  | Some (Some grid_ds) =>
  match clm o with
  | None => raise (AttributeError "'CiceBryHax' object has no attribute 'clm'")
  | Some None =>
      raise (AttributeError "No clm file has been set! Use self.set_clm().")
  | Some (Some clm_ds) =>
  match atm o with
  | None => raise (AttributeError "'CiceBryHax' object has no attribute 'atm'")
  | Some None =>
      raise (AttributeError "No atm file has been set! Use self.set_atm().")
  | Some (Some atm_ds) =>
      (* time arrays needed for the loop below *)
      set_var_attr "Time" "units"
        (match time_units o with Some u => PStr u | None => PNone end)
        true ;;
      do bry_time <- compute_bry_time clm_ds "clim_time";
      do clm_dates <- lift (get_dates clm_ds "clim_time");
      do atm_dates <- lift (get_dates atm_ds "time");
      do t01 <- get_time_endpoints clm_ds "clim_time";
      let t0c_idx := t01.1 in
      let t1c_idx := t01.2 in
      (* the variables of the climatology and atmosphere files *)
      do aice <- lift (src_var clm_ds "aice");
      do hice <- lift (src_var clm_ds "hice");
      do hsno <- lift (src_var clm_ds "snow_thick");
      do tair <- lift (src_var atm_ds "Tair");
      do toce <- lift (src_var clm_ds "temp");
      do salt <- lift (src_var clm_ds "salt");
      do land_mask <- lift (src_var grid_ds "mask_rho");
      (* time-independent data *)
      do nz <- get_nz;
      bry_setitem "Ice_layers" [All]
        (of_vec (map Qc_of_nat (seq 0 (Z.to_nat nz)))) ;;
      for_each bry_order (fun b =>
        do grid_slice <- lift (_get_bry_slice "grid_2d"
                                 (mkKw None (Some b) None));
        do lon <- lift (src_var grid_ds "lon_rho");
        do lon_b <- lift (getitem grid_slice lon);
        bry_setitem ("TLON_" +:+ bry_letter b) [All] lon_b ;;
        do lat <- lift (src_var grid_ds "lat_rho");
        do lat_b <- lift (getitem grid_slice lat);
        bry_setitem ("TLAT_" +:+ bry_letter b) [All] lat_b) ;;
      (* one time index at a time *)
      for_each (seq t0c_idx (Datatypes.S t1c_idx - t0c_idx)) (fun clm_idx =>
        write_bry_day aice hice tair toce salt land_mask bry_time
                      clm_dates atm_dates t0c_idx clm_idx)
  end end end.

End WriteBryData.

(* ===================================================================== *)
(** ** Definitions used to state the properties *)
(* ===================================================================== *)

(** The coordinate axis that runs along a boundary: the western and eastern
    boundaries run along [eta_t], the southern and northern along [xi_t]. *)
Definition coordinate_axis (b : boundary) : string :=
  match b with
  | West | East => "eta_t"
  | South | North => "xi_t"
  end.

(** The substitution on an attribute value that is a string. *)
Definition str_replace_val (old new : string) (v : pyval) : pyval :=
  match v with
  | PStr s => PStr (PyStr.replace old new s)
  | _ => v
  end.

(** All values of an attribute dictionary are strings. *)
Definition all_text (m : gmap string pyval) : Prop :=
  forall k v, m !! k = Some v -> exists s, v = PStr s.

(** [v] is the expansion of the template for boundary [b]: the token is
    replaced by the boundary's letter in the name and in every attribute
    value, and by the boundary's coordinate axis in every dimension name. *)
Definition expands_to (tok name0 : string) (dt : dtype) (dims0 : list string)
    (attrs0 : gmap string pyval) (b : boundary) (v : BryVar) : Prop :=
  PyStr.StrReplaced tok (bry_letter b) name0 (name v) /\
  dtype_ v = dt /\
  Forall2 (PyStr.StrReplaced tok (coordinate_axis b)) dims0 (dims v) /\
  (forall k, attrs v !! k = None <-> attrs0 !! k = None) /\
  (forall k s, attrs0 !! k = Some (PStr s) ->
     exists s', attrs v !! k = Some (PStr s') /\
                PyStr.StrReplaced tok (bry_letter b) s s').

(** The first of [names] that is not among [present]. *)
Fixpoint first_absent (names present : list string) : option string :=
  match names with
  | [] => None
  | n :: rest =>
      if decide (n ∈ present) then first_absent rest present else Some n
  end.

Definition set_name (key : string) (v : BryVar) : BryVar :=
  mkBryVar key (dtype_ v) (dims v) (attrs v).

(** The object after [var.name = key] on its [i]-th catalogue entry. *)
Definition rename_at (i : nat) (key : string) (o : CiceBryHax) : CiceBryHax :=
  with_bry_vars o (alter (set_name key) i (bry_vars o)).

(** The names of the catalogue of [load_bry_vars], in its order. *)
Definition catalog_names : list string :=
  ["Time"; "Ice_layers"; "TLON_W"; "TLON_S"; "TLON_E"; "TLON_N"; "TLAT_W";
   "TLAT_S"; "TLAT_E"; "TLAT_N"; "Tsfc_W_bry"; "Tsfc_S_bry"; "Tsfc_E_bry";
   "Tsfc_N_bry"; "aicen_W_bry"; "aicen_S_bry"; "aicen_E_bry"; "aicen_N_bry";
   "vicen_W_bry"; "vicen_S_bry"; "vicen_E_bry"; "vicen_N_bry"; "vsnon_W_bry";
   "vsnon_S_bry"; "vsnon_E_bry"; "vsnon_N_bry"; "apond_W_bry"; "apond_S_bry";
   "apond_E_bry"; "apond_N_bry"; "hpond_W_bry"; "hpond_S_bry"; "hpond_E_bry";
   "hpond_N_bry"; "ipond_W_bry"; "ipond_S_bry"; "ipond_E_bry"; "ipond_N_bry";
   "fbrine_W_bry"; "fbrine_S_bry"; "fbrine_E_bry"; "fbrine_N_bry";
   "hbrine_W_bry"; "hbrine_S_bry"; "hbrine_E_bry"; "hbrine_N_bry";
   "iage_W_bry"; "iage_S_bry"; "iage_E_bry"; "iage_N_bry"; "alvln_W_bry";
   "alvln_S_bry"; "alvln_E_bry"; "alvln_N_bry"; "vlvln_W_bry"; "vlvln_S_bry";
   "vlvln_E_bry"; "vlvln_N_bry"; "Tinz_W_bry"; "Tinz_S_bry"; "Tinz_E_bry";
   "Tinz_N_bry"; "Sinz_W_bry"; "Sinz_S_bry"; "Sinz_E_bry"; "Sinz_N_bry"].

(** The five dimensions with their sizes, as passed to [set_dims]. *)
Definition dim_names : list string :=
  ["days"; "ice_types"; "nkice"; "xi_t"; "eta_t"].

Definition five_dims (nt nc nz nx ny : Z) : gmap string Z :=
  {[ "days" := nt; "ice_types" := nc; "nkice" := nz; "xi_t" := nx;
     "eta_t" := ny ]}.

(** The calls that write the metadata of a new boundary file: construction
    in write mode, the dimensions, the variables and their attributes. *)
Definition write_catalog (w : World) (bry_file0 fmt : string)
    (sizes : gmap string Z) : M unit :=
  CiceBryHax_init w bry_file0 "w" fmt true ;;
  set_dims false sizes ;;
  write_dims ;;
  write_vars ;;
  write_var_attrs.

Definition is_text (v : pyval) : bool :=
  match v with PStr _ => true | _ => false end.

(** What makes a catalogue writable: distinct names, known dimensions,
    textual attribute values. *)
Definition catalog_ok (vs : list BryVar) : bool :=
  bool_decide (NoDup (map name vs)) &&
  forallb (fun v =>
             forallb (fun d => bool_decide (d ∈ dim_names)) (dims v) &&
             forallb is_text (map_to_list (attrs v)).*2) vs.

(** What [write_var_attrs] leaves as it is. *)
Definition same_but_vattrs (o o' : CiceBryHax) : Prop :=
  bry_vars o' = bry_vars o /\ bry_file o' = bry_file o /\
  exists f f', bry o = Some f /\ bry o' = Some f' /\ f_vars f' = f_vars f.

(** The message of the configuration error for a source that is not
    attached, and the attribute that holds the source. *)
Definition no_source_msg (src : string) : string :=
  "No " +:+ src +:+ " file has been set! Use self.set_" +:+ src +:+ "().".

Definition source_attr (src : string) (o : CiceBryHax)
  : option (option SrcFile) :=
  if decide (src = "grid") then grid o
  else if decide (src = "clm") then clm o
  else if decide (src = "atm") then atm o
  else None.

(** A wildcard character occurs in the string. *)
Definition has_wildcard (s : string) : Prop :=
  "*"%char ∈ String.list_ascii_of_string s \/
  "?"%char ∈ String.list_ascii_of_string s.

(** A handle after disposal: closed if there is one. *)
Definition closed_src (h : option (option SrcFile)) : option (option SrcFile) :=
  match h with
  | Some (Some f) => Some (Some (src_set_open f false))
  | _ => h
  end.

Definition closed_bry (h : option BryFile) : option BryFile :=
  match h with
  | Some f => Some (bry_set_open f false)
  | None => None
  end.

(** The object after disposal. *)
Definition disposed (o : CiceBryHax) : CiceBryHax :=
  with_bry
    (with_atm
       (with_clm (with_grid o (grid_file o) (closed_src (grid o)))
                 (clm_file o) (closed_src (clm o)))
       (atm_file o) (closed_src (atm o)))
    (closed_bry (bry o)).

(** No handle of the object is open. *)
Definition nothing_open (o : CiceBryHax) : Prop :=
  (forall f, bry o = Some f -> f_open f = false) /\
  (forall f, grid o = Some (Some f) -> src_open f = false) /\
  (forall f, clm o = Some (Some f) -> src_open f = false) /\
  (forall f, atm o = Some (Some f) -> src_open f = false).

(** A boundary file on disk that holds exactly the catalogue's variables,
    [Time] having been created last, and the world that holds it. *)
Definition reordered_file : BryFile :=
  mkBry false ∅ (tail catalog_names ++ ["Time"]) ∅ ∅ ∅.

Definition reordered_world : World :=
  mkWorld {[ "bry.nc" := reordered_file ]} ∅ (fun _ => []).

(** A calendar for the examples: time values count days from the origin. *)
Definition day_calendar : Calendar := {|
  num2date x _ := Qfloor (x * Q2Qc 86400000000)%Qc;
  date2num d _ := (Q2Qc (inject_Z d) / Q2Qc 86400000000)%Qc;
  str_date d := "day";
|}.

(** The values [write_bry_data] derives for one category on one boundary,
    as functions of the transects read from the sources. *)
Definition sel (c : Qc) (b : bool) (x : Qc) : Qc := if b then x else c.

(** [np.where(mask, xs, c) * land]. *)
Definition masked (mask : list bool) (xs : list Qc) (c : Qc) (land : list Qc)
  : list Qc :=
  zip_with Qcmult (zip_with (sel c) mask xs) land.

(** The rows of [np.linspace(start, stop, nz)]. *)
Definition profile (nz : nat) (start stop : list Qc) : list (list Qc) :=
  map (fun k : nat => zip_with (fun s e => linspace_at s e nz k) start stop)
      (seq 0 nz).

Definition choose (mask : list bool) (xs ys : list Qc) : list Qc :=
  zip_with (fun (b : bool) (p : Qc * Qc) => if b then p.1 else p.2) mask
           (zip_with pair xs ys).


(** The variables one turn of the innermost loop assigns to. *)
Definition transect_vars (b : boundary) : list string :=
  [bry_name "aicen" b; bry_name "vicen" b; bry_name "vsnon" b;
   bry_name "Tsfc" b; bry_name "Sinz" b; bry_name "Tinz" b] ++
  map (PyStr.replace "BRY" (bry_letter b)) zero_vars_3d.

Definition zero_data (b : boundary) (bslice : list idx)
    (d : gmap (string * list idx) nd) : gmap (string * list idx) nd :=
  foldl (fun d var => <[(PyStr.replace "BRY" (bry_letter b) var, bslice) := Num 0]> d)
        d zero_vars_3d.

Definition mask_of (lo hi : Qc) (hice_c : list Qc) : list bool :=
  map (fun h => bool_decide (lo < h)%Qc && bool_decide (h < hi)%Qc) hice_c.

Definition aicen_of (mask : list bool) (aice_c land : list Qc) : list Qc :=
  masked mask aice_c 0 land.

Definition vicen_of (mask : list bool) (hice_c aice_c land : list Qc)
  : list Qc :=
  masked mask (zip_with Qcmult hice_c aice_c) 0 land.

Definition vsnon_of (mask : list bool) (vicen land : list Qc) : list Qc :=
  masked mask (np_scale (Q2Qc 0.2) vicen) 0 land.

Definition tsfc_of (mask : list bool) (tair_a land : list Qc) : list Qc :=
  masked mask tair_a 0 land.

Definition sinz_of (nz : nat) (mask : list bool) (salt_c land : list Qc)
  : list (list Qc) :=
  map (fun row => masked mask row (Q2Qc 5) land)
      (profile nz salt_c (np_scale (Q2Qc 0.2) salt_c)).

(** The lower end of the temperature profile under snow. *)
Definition snow_target (toce_c tair_a : list Qc) : list Qc :=
  zip_with Qcminus toce_c
    (np_scale (Q2Qc 0.2) (np_abs (zip_with Qcminus toce_c tair_a))).

Definition tinz_of (nz : nat) (mask : list bool)
    (vsnon toce_c tair_a land : list Qc) : list (list Qc) :=
  map (fun row => masked mask row (Q2Qc (-5)) land)
      (map (fun rows : list Qc * list Qc =>
              choose (np_gt vsnon (Q2Qc 0.01)) rows.1 rows.2)
           (zip (profile nz toce_c (snow_target toce_c tair_a))
                (profile nz toce_c tair_a))).

(** The data of the boundary file after one turn of the innermost loop. *)
Definition transect_data (d : gmap (string * list idx) nd) (b : boundary)
    (bry_idx n nz : nat) (lo hi : Qc)
    (hice_c aice_c land tair_a salt_c toce_c : list Qc)
  : gmap (string * list idx) nd :=
  let bslice := [I (Z.of_nat bry_idx); I (Z.of_nat n); All] in
  let bslice_4d := [I (Z.of_nat bry_idx); I (Z.of_nat n); All; All] in
  let mask := mask_of lo hi hice_c in
  let vicen := vicen_of mask hice_c aice_c land in
  let vsnon := vsnon_of mask vicen land in
  zero_data b bslice
    (<[(bry_name "Tinz" b, bslice_4d) :=
         of_mat (tinz_of nz mask vsnon toce_c tair_a land)]>
    (<[(bry_name "Sinz" b, bslice_4d) := of_mat (sinz_of nz mask salt_c land)]>
    (<[(bry_name "Tsfc" b, bslice) := of_vec (tsfc_of mask tair_a land)]>
    (<[(bry_name "vsnon" b, bslice) := of_vec vsnon]>
    (<[(bry_name "vicen" b, bslice) := of_vec vicen]>
    (<[(bry_name "aicen" b, bslice) := of_vec (aicen_of mask aice_c land)]>
       d)))))).

(** Example data: a grid of two rows and two columns, one time index, one
    ocean level, and a boundary file that holds the variables of the western
    boundary. *)
Definition ex_hice : nd :=
  Arr [Arr [Arr [Num (Q2Qc 1.0); Num (Q2Qc 9)];
            Arr [Num (Q2Qc 0.3); Num (Q2Qc 9)]]].
Definition ex_aice : nd :=
  Arr [Arr [Arr [Num (Q2Qc 0.9); Num (Q2Qc 0)];
            Arr [Num (Q2Qc 0.8); Num (Q2Qc 0)]]].
Definition ex_land_mask : nd :=
  Arr [Arr [Num (Q2Qc 1); Num (Q2Qc 1)]; Arr [Num (Q2Qc 1); Num (Q2Qc 1)]].
Definition ex_tair : nd :=
  Arr [Arr [Arr [Num (Q2Qc (-20)); Num (Q2Qc 0)];
            Arr [Num (Q2Qc (-22)); Num (Q2Qc 0)]]].
Definition ex_toce : nd :=
  Arr [Arr [Arr [Arr [Num (Q2Qc (-1)); Num (Q2Qc 0)];
                 Arr [Num (Q2Qc (-1.5)); Num (Q2Qc 0)]]]].
Definition ex_salt : nd :=
  Arr [Arr [Arr [Arr [Num (Q2Qc 30); Num (Q2Qc 0)];
                 Arr [Num (Q2Qc 31); Num (Q2Qc 0)]]]].

Definition ex_file : BryFile := mkBry true ∅ (transect_vars West) ∅ ∅ ∅.

Definition ex_obj : CiceBryHax :=
  with_dim_sizes (with_bry blank (Some ex_file)) (Some (five_dims 1 5 3 2 2)).

Definition ex_clm : SrcFile :=
  mkSrc "clm.nc" true
        {[ "clim_time" := of_vec [Q2Qc 0; Q2Qc 1; Q2Qc 2] ]}
        {[ "clim_time" := "days since 2008-01-01 00:00:00" ]}.

Definition ex_dated : CiceBryHax :=
  with_dates blank (Some 86400000000%Z) (Some 172800000000%Z) None.

(** What a method leaves as it is, apart from the data of the boundary file
    at the keys in [W]: the dates, the dimension sizes, the variables of the
    boundary file and its data at every other key. *)
Definition same_frame (W : string * list idx -> Prop) (o o' : CiceBryHax)
  : Prop :=
  dim_sizes o' = dim_sizes o /\
  start_date o' = start_date o /\
  end_date o' = end_date o /\
  match bry o, bry o' with
  | Some f, Some f' =>
      f_vars f' = f_vars f /\
      forall K, ~ W K -> f_data f' !! K = f_data f !! K
  | None, None => True
  | _, _ => False
  end.

Definition framed {A} (W : string * list idx -> Prop) (m : M A) : Prop :=
  forall o r o', m o = (r, o') -> same_frame W o o'.

(** The keys one turn of the innermost loop may assign to. *)
Definition owned (bry_idx n : nat) (b : boundary) (K : string * list idx)
  : Prop :=
  K.1 ∈ transect_vars b /\
  (K.2 = [I (Z.of_nat bry_idx); I (Z.of_nat n); All] \/
   K.2 = [I (Z.of_nat bry_idx); I (Z.of_nat n); All; All]).

(** The keys the loop body of one day may assign to. *)
Definition owned_day (bry_idx : nat) (K : string * list idx) : Prop :=
  K = ("Time", [I (Z.of_nat bry_idx)]) \/ exists n b, owned bry_idx n b K.

(** The arrays and dates [write_bry_data] takes from the sources. *)
Record sources := mkSources {
  s_aice : nd;
  s_hice : nd;
  s_tair : nd;
  s_toce : nd;
  s_salt : nd;
  s_land_mask : nd;
  s_clm_dates : list Z;
  s_atm_dates : list Z;
}.

Section SourcesOf.
Context `{Calendar}.

Definition sources_of (g c a : SrcFile) (S : sources) : Prop :=
  src_var c "aice" = Ok (s_aice S) /\
  src_var c "hice" = Ok (s_hice S) /\
  src_var a "Tair" = Ok (s_tair S) /\
  src_var c "temp" = Ok (s_toce S) /\
  src_var c "salt" = Ok (s_salt S) /\
  src_var g "mask_rho" = Ok (s_land_mask S) /\
  get_dates c "clim_time" = Ok (s_clm_dates S) /\
  get_dates a "time" = Ok (s_atm_dates S).

End SourcesOf.

(** The transects along one boundary at one day: ice thickness, ice
    concentration, land mask, air temperature, ocean salinity and ocean
    temperature. *)
Record transects := mkTransects {
  tr_hice : list Qc;
  tr_aice : list Qc;
  tr_land : list Qc;
  tr_tair : list Qc;
  tr_salt : list Qc;
  tr_toce : list Qc;
}.

(** [T] holds the transects that [write_bry_data] reads for the climatology
    time index [clm_idx] on boundary [b], the air temperature being taken at
    the atmosphere time index nearest to the day, and all six have the same
    length. *)
Definition day_transects (S : sources) (clm_idx : nat) (b : boundary)
    (T : transects) : Prop :=
  exists (today : Z) (atm_idx : nat),
    s_clm_dates S !! clm_idx = Some today /\
    np_argmin (map (fun d => Z.abs (d - today)) (s_atm_dates S)) = Ok atm_idx /\
    read1 (s_hice S) (clm_slice_3d (Z.of_nat clm_idx) b) = Ok (tr_hice T) /\
    read1 (s_aice S) (clm_slice_3d (Z.of_nat clm_idx) b) = Ok (tr_aice T) /\
    read1 (s_land_mask S) (tail (clm_slice_3d (Z.of_nat clm_idx) b))
      = Ok (tr_land T) /\
    read1 (s_tair S) (clm_slice_3d (Z.of_nat atm_idx) b) = Ok (tr_tair T) /\
    read1 (s_salt S) (clm_slice_4d (Z.of_nat clm_idx) b (-1)) = Ok (tr_salt T) /\
    read1 (s_toce S) (clm_slice_4d (Z.of_nat clm_idx) b (-1)) = Ok (tr_toce T) /\
    length (tr_aice T) = length (tr_hice T) /\
    length (tr_land T) = length (tr_hice T) /\
    length (tr_tair T) = length (tr_hice T) /\
    length (tr_salt T) = length (tr_hice T) /\
    length (tr_toce T) = length (tr_hice T).

(** Example of a whole run: a grid of two rows and two columns with one land
    point, three climatology days of which the middle one is asked for,
    three atmosphere times, three ice layers. *)
Definition qn (x : Q) : nd := Num (Q2Qc x).

Definition field (x00 x01 x10 x11 : Q) : nd :=
  Arr [Arr [qn x00; qn x01]; Arr [qn x10; qn x11]].

Definition ex_run_grid : SrcFile :=
  mkSrc "grid.nc" true
    {[ "lon_rho" := field 1 2 3 4; "lat_rho" := field 5 6 7 8;
       "mask_rho" := field 1 1 0 1 ]} ∅.

Definition ex_run_clm : SrcFile :=
  mkSrc "clm.nc" true
    {[ "clim_time" := Arr [qn 0; qn 1; qn 2];
       "aice" := Arr [field 0.5 0.5 0.5 0.5; field 0.9 0.8 0.7 0.6;
                      field 1 1 1 1];
       "hice" := Arr [field 0.5 0.5 0.5 0.5; field 1.0 0.3 2 5;
                      field 1 1 1 1];
       "snow_thick" := Arr [field 0 0 0 0; field 0 0 0 0; field 0 0 0 0];
       "temp" := Arr [Arr [field 0 0 0 0]; Arr [field (-1) (-1.5) (-1) (-1)];
                      Arr [field 0 0 0 0]];
       "salt" := Arr [Arr [field 30 30 30 30]; Arr [field 30 31 32 33];
                      Arr [field 0 0 0 0]] ]}
    {[ "clim_time" := "days" ]}.

Definition ex_run_atm : SrcFile :=
  mkSrc "atm.nc" true
    {[ "time" := Arr [qn 0.4; qn 1.5; qn 0.5];
       "Tair" := Arr [field (-10) (-11) (-12) (-13);
                      field (-20) (-21) (-22) (-23);
                      field (-30) (-31) (-32) (-33)] ]}
    {[ "time" := "days" ]}.

Definition ex_run_file : BryFile := mkBry true ∅ catalog_names ∅ ∅ ∅.

Definition ex_run_obj : CiceBryHax :=
  mkObj "w" "bry.nc" (Some (five_dims 1 5 3 2 2))
        [mkBryVar "Time" np_int16 ["days"] ∅]
        (Some 86400000000%Z) (Some 86400000000%Z) (Some "days")
        (Some ex_run_file) None (Some (Some ex_run_grid))
        None (Some (Some ex_run_clm)) None (Some (Some ex_run_atm))
        None None None.

(** The variable attributes of the file after the attributes of one
    catalogue entry, and of a whole catalogue, have been assigned. *)
Definition setattrs (v : BryVar) (m : gmap (string * string) pyval)
  : gmap (string * string) pyval :=
  foldl (fun m (kv : string * pyval) => <[(name v, kv.1) := kv.2]> m) m
        (map_to_list (attrs v)).

Definition attrs_written (vs : list BryVar) (m : gmap (string * string) pyval)
  : gmap (string * string) pyval :=
  foldl (fun m v => setattrs v m) m vs.

(** The values a variable attribute of the file may take. *)
Definition legal_attrs (v : BryVar) : Prop :=
  forall k x, attrs v !! k = Some x -> x <> PNone.

(** The catalogue entry with one attribute set. *)
Definition set_attr (attr_name : string) (attr_val : pyval) (v : BryVar)
  : BryVar :=
  mkBryVar (name v) (dtype_ v) (dims v) (<[attr_name := attr_val]> (attrs v)).


(** A two-dimensional field of [eta] rows and [xi] columns. *)
Definition rect (eta xi : nat) (m : list (list Qc)) : Prop :=
  length m = eta /\ forall row, row ∈ m -> length row = xi.

(** The values of a field along a boundary: the first column in the west,
    the last in the east, the first row in the south, the last in the
    north. *)
Definition edge (b : boundary) (m : list (list Qc)) : option (list Qc) :=
  match b with
  | West => mapM head m
  | East => mapM list.last m
  | South => head m
  | North => list.last m
  end.

(** The number of points along a boundary of a field of [eta] rows and [xi]
    columns. *)
Definition edge_length (b : boundary) (eta xi : nat) : nat :=
  match b with
  | West | East => eta
  | South | North => xi
  end.

(** Three- and four-dimensional variables as nested arrays: time, then (for
    four dimensions) level, then rows and columns. *)
Definition of_fields (fs : list (list (list Qc))) : nd := Arr (map of_mat fs).

Definition of_levels (ls : list (list (list (list Qc)))) : nd :=
  Arr (map of_fields ls).

(** The token occurs in the string. *)
Definition str_occurs (tok s : string) : Prop :=
  PyStr.occurs (String.list_ascii_of_string tok) (String.list_ascii_of_string s).

(** An attribute value that is not text. *)
Definition not_text (v : pyval) : Prop :=
  match v with PStr _ => False | _ => True end.

(** A method leaves a part of the object, given by a projection, as it is,
    whether it returns or raises. *)
Definition preserves {A X} (proj : CiceBryHax -> X) (m : M A) : Prop :=
  forall o r o', m o = (r, o') -> proj o' = proj o.

(** What writing data and attributes does not concern: the mode and path,
    the dimension sizes, the dates and units, the sources, the names of the
    catalogue, and of the boundary file whether it is open, its dimensions,
    its variables and its global attributes. *)
Definition config_of (o : CiceBryHax) :=
  (mode o, bry_file o, dim_sizes o,
   (start_date o, end_date o, time_units o),
   (grid_file o, grid o), (clm_file o, clm o), (atm_file o, atm o),
   (cice_file o, cice_files o, cice o),
   map name (bry_vars o),
   (fun f => (f_open f, f_dims f, f_vars f, f_gattrs f)) <$> bry o).


(* ===================================================================== *)
(** * Properties *)
(* ===================================================================== *)

Local Open Scope nat_scope.

(** ** The monad and the loops *)

Lemma bind_ok {A B} (m : M A) (k : A -> M B) o a o' :
  m o = (Ok a, o') -> bind m k o = k a o'.
Proof. intros Hm. unfold bind. by rewrite Hm. Qed.

Lemma bind_raise {A B} (m : M A) (k : A -> M B) o e o' :
  m o = (Raise e, o') -> bind m k o = (Raise e, o').
Proof. intros Hm. unfold bind. by rewrite Hm. Qed.

(** A loop whose body keeps an invariant and does not raise keeps the
    invariant and does not raise. *)
Lemma for_each_inv {A} (Inv : CiceBryHax -> Prop) (l : list A)
    (body : A -> M unit) :
  (forall x o, x ∈ l -> Inv o -> exists o', body x o = (Ok tt, o') /\ Inv o') ->
  forall o, Inv o -> exists o', for_each l body o = (Ok tt, o') /\ Inv o'.
Proof.
  induction l as [|x l IH]; intros Hbody o Ho.
  - exists o. done.
  - destruct (Hbody x o) as (o1 & Hrun & Ho1); [by left|done|].
    destruct (IH (fun y o Hy => Hbody y o (list_elem_of_further _ _ _ Hy)) o1 Ho1)
      as (o2 & Hrun2 & Ho2).
    exists o2. split; [|done]. cbn [for_each]. by rewrite (bind_ok _ _ _ _ _ Hrun).
Qed.

(** ** Arrays *)

Lemma rmapM_Ok {A} (l : list A) : rmapM (fun a => Ok a) l = Ok l.
Proof. induction l as [|x l IH]; simpl; [done|]. by rewrite IH. Qed.

Lemma rmapM_as_num v : rmapM as_num (map Num v) = Ok v.
Proof. induction v as [|x v IH]; simpl; [done|]. by rewrite IH. Qed.

Lemma as_vec_of_vec v : as_vec (of_vec v) = Ok v.
Proof. apply rmapM_as_num. Qed.

Lemma getitem_All_Arr l : getitem [All] (Arr l) = Ok (Arr l).
Proof. simpl. by rewrite rmapM_Ok. Qed.

Lemma broadcast2_same_length {A B C} (f : A -> B -> C) xs ys :
  length xs = length ys -> broadcast2 f xs ys = Ok (zip_with f xs ys).
Proof. intros Hl. unfold broadcast2. by rewrite decide_True. Qed.

(** ** The category mask *)

Lemma cat_mask_of_run (hice_c : list Qc) (n : nat) (lo hi : Qc) :
  cat_lims !! n = Some lo ->
  cat_lims !! Datatypes.S n = Some hi ->
  cat_mask_of hice_c n =
    Ok (map (fun h => bool_decide (lo < h)%Qc && bool_decide (h < hi)%Qc) hice_c).
Proof.
  intros Hlo Hhi. unfold cat_mask_of, list_get, py_index.
  rewrite decide_True by lia. rewrite Nat2Z.id, Hlo. simpl.
  rewrite decide_True by lia. rewrite Nat2Z.id, Nat.add_1_r, Hhi. simpl.
  unfold np_logical_and, np_gt, np_lt.
  rewrite broadcast2_same_length by (by rewrite !length_map).
  f_equal. by rewrite zip_with_fmap_l, zip_with_fmap_r, zip_with_diag.
Qed.

Lemma cat_lims_lookup (n : nat) :
  n < 5 ->
  exists lo hi, cat_lims !! n = Some lo /\ cat_lims !! Datatypes.S n = Some hi.
Proof.
  intros Hn. do 5 (destruct n as [|n]; [simpl; eauto|]). lia.
Qed.

(** C1. For every thickness array and every category [n] below 5 the mask of
    [write_bry_data] is computed, has the length of the array, and is true at
    a point exactly when the thickness there lies strictly between
    [cat_lims[n]] and [cat_lims[n+1]].  Hence a thickness of 1.0 is in the
    mask of category 1 only, and a thickness equal to one of the six
    thresholds is in no mask. *)
Theorem cat_mask_strict (hice_c : list Qc) (n : nat) :
  n < 5 ->
  exists mask lo hi,
    cat_lims !! n = Some lo /\ cat_lims !! Datatypes.S n = Some hi /\
    cat_mask_of hice_c n = Ok mask /\
    length mask = length hice_c /\
    (forall i h, hice_c !! i = Some h ->
       exists b, mask !! i = Some b /\
                 (b = true <-> (lo < h)%Qc /\ (h < hi)%Qc)) /\
    (forall i, hice_c !! i = Some (Q2Qc 1.0) ->
       mask !! i = Some (bool_decide (n = 1))) /\
    (forall i h, hice_c !! i = Some h -> h ∈ cat_lims ->
       mask !! i = Some false).
Proof.
  intros Hn. destruct (cat_lims_lookup n Hn) as (lo & hi & Hlo & Hhi).
  eexists _, lo, hi. split; [done|]. split; [done|].
  split; [by apply cat_mask_of_run|].
  split; [by rewrite length_map|].
  split; [|split].
  - intros i h Hi. eexists. rewrite list_lookup_fmap, Hi. split; [done|].
    rewrite andb_true_iff, !bool_decide_eq_true. done.
  - intros i Hi. rewrite list_lookup_fmap, Hi. simpl. f_equal.
    do 5 (destruct n as [|n];
          [simpl in Hlo, Hhi; simplify_eq; by vm_compute|]).
    lia.
  - intros i h Hi Hh. rewrite list_lookup_fmap, Hi. simpl. f_equal.
    unfold cat_lims in Hh. rewrite !elem_of_cons in Hh. rewrite elem_of_nil in Hh.
    do 5 (destruct n as [|n];
          [simpl in Hlo, Hhi; simplify_eq;
           destruct Hh as [->|[->|[->|[->|[->|[->|[]]]]]]]; by vm_compute|]).
    lia.
Qed.

Lemma cat_mask_strict_witness :
  1 < 5 /\
  exists mask lo hi,
    cat_lims !! 1 = Some lo /\ cat_lims !! 2 = Some hi /\
    cat_mask_of [Q2Qc 1.0; Q2Qc 0.6445072; Q2Qc 3] 1 = Ok mask /\
    length mask = length [Q2Qc 1.0; Q2Qc 0.6445072; Q2Qc 3] /\
    (forall i h, [Q2Qc 1.0; Q2Qc 0.6445072; Q2Qc 3] !! i = Some h ->
       exists b, mask !! i = Some b /\
                 (b = true <-> (lo < h)%Qc /\ (h < hi)%Qc)) /\
    (forall i, [Q2Qc 1.0; Q2Qc 0.6445072; Q2Qc 3] !! i = Some (Q2Qc 1.0) ->
       mask !! i = Some (bool_decide (1 = 1))) /\
    (forall i h, [Q2Qc 1.0; Q2Qc 0.6445072; Q2Qc 3] !! i = Some h ->
       h ∈ cat_lims -> mask !! i = Some false).
Proof.
  split; [lia|].
  apply (cat_mask_strict [Q2Qc 1.0; Q2Qc 0.6445072; Q2Qc 3] 1). lia.
Defined.

(** ** One turn of the innermost loop of [write_bry_data] *)

Lemma bind_lift_ok {A B} (a : A) (k : A -> M B) (o : CiceBryHax) :
  bind (lift (Ok a)) k o = k a o.
Proof. reflexivity. Qed.

Lemma rmapM_map {A B} (f : A -> result B) (g : A -> B) (l : list A) :
  (forall x, x ∈ l -> f x = Ok (g x)) -> rmapM f l = Ok (map g l).
Proof.
  induction l as [|x l IH]; intros Hf; simpl; [done|].
  rewrite Hf by by left. simpl. rewrite IH; [done|].
  intros y Hy. apply Hf. by right.
Qed.

Lemma map_zip_with_pair {A B C} (g : A -> B -> C) (xs : list A) (ys : list B) :
  map (fun p : A * B => g p.1 p.2) (zip_with pair xs ys) = zip_with g xs ys.
Proof.
  revert ys. induction xs as [|x xs IH]; intros [|y ys]; simpl; [done..|].
  by rewrite IH.
Qed.

Lemma bry_setitem_run (o : CiceBryHax) (f : BryFile) (v : string)
    (ix : list idx) (x : nd) :
  bry o = Some f -> v ∈ f_vars f ->
  bry_setitem v ix x o =
    (Ok tt, with_bry o (Some (bry_set_data f (<[(v, ix) := x]> (f_data f))))).
Proof.
  intros Hf Hv. unfold bry_setitem, bind, get_bry. rewrite Hf.
  by rewrite decide_True.
Qed.

Lemma bry_getitem_run (o : CiceBryHax) (f : BryFile) (v : string)
    (ix : list idx) (x : nd) :
  bry o = Some f -> v ∈ f_vars f -> f_data f !! (v, ix) = Some x ->
  bry_getitem v ix o = (Ok x, o).
Proof.
  intros Hf Hv Hx. unfold bry_getitem, bind, get_bry. rewrite Hf.
  rewrite decide_True by done. by rewrite Hx.
Qed.

Lemma linspace_z_run (o : CiceBryHax) (ds : gmap string Z) (nz : nat)
    (start stop : list Qc) :
  dim_sizes o = Some ds -> ds !! "nkice" = Some (Z.of_nat nz) ->
  length start = length stop ->
  linspace_z start stop o = (Ok (profile nz start stop), o).
Proof.
  intros Hds Hnz Hlen. unfold linspace_z, get_nz, bind, get, lift.
  change (dict_get self_dims "z") with (@Ok string "nkice").
  rewrite Hds. unfold dict_get. rewrite Hnz.
  rewrite decide_False by lia. rewrite Nat2Z.id.
  unfold np_linspace. rewrite broadcast2_same_length by done. cbn [rbind].
  unfold profile.
  match goal with |- (Ok ?x, _) = (Ok ?y, _) => assert (x = y) as ->; [|done] end.
  apply map_ext. intros k.
  apply (map_zip_with_pair (fun s e => linspace_at s e nz k)).
Qed.

Lemma zero_loop_run (o : CiceBryHax) (f : BryFile) (b : boundary)
    (bslice : list idx) (vars0 : list string) :
  bry o = Some f ->
  (forall var, var ∈ vars0 ->
     PyStr.replace "BRY" (bry_letter b) var ∈ f_vars f) ->
  for_each vars0 (fun var =>
    bry_setitem (PyStr.replace "BRY" (bry_letter b) var) bslice (Num 0)) o =
  (Ok tt,
   with_bry o (Some (bry_set_data f
     (foldl (fun d var =>
               <[(PyStr.replace "BRY" (bry_letter b) var, bslice) := Num 0]> d)
            (f_data f) vars0)))).
Proof.
  revert o f. induction vars0 as [|var rest IH]; intros o f Hf Hin.
  - cbn [for_each foldl]. unfold ret. f_equal.
    destruct o, f; simpl in *; by subst.
  - cbn [for_each foldl].
    assert (Hvar : var ∈ var :: rest) by by left.
    rewrite (bind_ok _ _ _ _ _
               (bry_setitem_run o f _ bslice (Num 0) Hf (Hin var Hvar))).
    set (f1 := bry_set_data f _).
    rewrite (IH (with_bry o (Some f1)) f1); [reflexivity|reflexivity|].
    intros var' Hvar'. cbn. apply Hin. by right.
Qed.


Lemma profile_rows (nz : nat) (start stop : list Qc) (row : list Qc) :
  length start = length stop -> row ∈ profile nz start stop ->
  length row = length start.
Proof.
  intros Hlen Hrow. unfold profile in Hrow.
  apply list_elem_of_fmap in Hrow as (k & -> & _).
  rewrite length_zip_with. lia.
Qed.

Lemma where_rows_run (mask : list bool) (c : Qc) (m : list (list Qc)) :
  (forall row, row ∈ m -> length row = length mask) ->
  rmapM (fun row => np_where_s mask row c) m =
    Ok (map (fun row => zip_with (sel c) mask row) m).
Proof.
  intros Hrows. apply rmapM_map. intros row Hrow. unfold np_where_s.
  rewrite broadcast2_same_length by (symmetry; by apply Hrows). done.
Qed.

Lemma mul_rows_run (m : list (list Qc)) (land : list Qc) :
  (forall row, row ∈ m -> length row = length land) ->
  broadcast_rows Qcmult m land =
    Ok (map (fun row => zip_with Qcmult row land) m).
Proof.
  intros Hrows. apply rmapM_map. intros row Hrow.
  by rewrite broadcast2_same_length by (by apply Hrows).
Qed.

Lemma choose_rows_run (mask : list bool) (m : list (list Qc * list Qc)) :
  (forall rows, rows ∈ m ->
     length rows.1 = length mask /\ length rows.2 = length mask) ->
  rmapM (fun rows : list Qc * list Qc => np_where mask rows.1 rows.2) m =
    Ok (map (fun rows : list Qc * list Qc => choose mask rows.1 rows.2) m).
Proof.
  intros Hrows. apply rmapM_map. intros rows Hin.
  destruct (Hrows rows Hin) as [H1 H2]. unfold np_where, choose.
  rewrite broadcast2_same_length by congruence. cbn [rbind].
  rewrite broadcast2_same_length; [done|].
  rewrite length_zip_with. lia.
Qed.










Section TransectData.
Context (d : gmap (string * list idx) nd) (b : boundary).
Context (bry_idx n nz : nat) (lo hi : Qc).
Context (hice_c aice_c land tair_a salt_c toce_c : list Qc).




End TransectData.

Section Transect.
Context (aice hice tair toce salt land_mask : nd).
Context (clm_idx atm_idx bry_idx n : nat) (b : boundary).
Context (hice_c aice_c land tair_a salt_c toce_c : list Qc).
Context (o : CiceBryHax) (f : BryFile) (ds : gmap string Z) (nz : nat).
Context (lo hi : Qc).

Context (Hhice : read1 hice (clm_slice_3d (Z.of_nat clm_idx) b) = Ok hice_c).
Context (Haice : read1 aice (clm_slice_3d (Z.of_nat clm_idx) b) = Ok aice_c).
Context (Hland : read1 land_mask (tail (clm_slice_3d (Z.of_nat clm_idx) b))
                 = Ok land).
Context (Htair : read1 tair (clm_slice_3d (Z.of_nat atm_idx) b) = Ok tair_a).
Context (Hsalt : read1 salt (clm_slice_4d (Z.of_nat clm_idx) b (-1)) = Ok salt_c).
Context (Htoce : read1 toce (clm_slice_4d (Z.of_nat clm_idx) b (-1)) = Ok toce_c).
Context (Hlen_a : length aice_c = length hice_c).
Context (Hlen_l : length land = length hice_c).
Context (Hlen_t : length tair_a = length hice_c).
Context (Hlen_s : length salt_c = length hice_c).
Context (Hlen_o : length toce_c = length hice_c).
Context (Hlo : cat_lims !! n = Some lo).
Context (Hhi : cat_lims !! Datatypes.S n = Some hi).
Context (Hds : dim_sizes o = Some ds).
Context (Hnz : ds !! "nkice" = Some (Z.of_nat nz)).
Context (Hf : bry o = Some f).
Context (Hvars : forall v, v ∈ transect_vars b -> v ∈ f_vars f).

Lemma write_bry_transect_run :
  write_bry_transect aice hice tair toce salt land_mask
                     clm_idx atm_idx bry_idx n b o =
    (Ok tt,
     with_bry o (Some (bry_set_data f
       (transect_data (f_data f) b bry_idx n nz lo hi
                      hice_c aice_c land tair_a salt_c toce_c)))).
Proof.
  assert (Hv : forall stem,
            stem ∈ ["aicen"; "vicen"; "vsnon"; "Tsfc"; "Sinz"; "Tinz"] ->
            bry_name stem b ∈ f_vars f).
  { intros stem Hstem. apply Hvars. unfold transect_vars.
    apply elem_of_app. left. rewrite !elem_of_cons in Hstem.
    rewrite elem_of_nil in Hstem. rewrite !elem_of_cons.
    destruct Hstem as [->|[->|[->|[->|[->|[->|[]]]]]]]; tauto. }
  assert (Hzero : forall var, var ∈ zero_vars_3d ->
            PyStr.replace "BRY" (bry_letter b) var ∈ f_vars f).
  { intros var Hvar. apply Hvars. unfold transect_vars.
    apply elem_of_app. right. by apply list_elem_of_fmap_2. }
  unfold write_bry_transect.
  change (_get_bry_slice "clm_3d" (mkKw (Some (Z.of_nat clm_idx)) (Some b) None))
    with (@Ok (list idx) (clm_slice_3d (Z.of_nat clm_idx) b)).
  rewrite bind_lift_ok.
  change (_get_bry_slice "clm_3d" (mkKw (Some (Z.of_nat atm_idx)) (Some b) None))
    with (@Ok (list idx) (clm_slice_3d (Z.of_nat atm_idx) b)).
  rewrite bind_lift_ok. cbv zeta.
  set (bslice := [I (Z.of_nat bry_idx); I (Z.of_nat n); All]).
  set (bslice_4d := [I (Z.of_nat bry_idx); I (Z.of_nat n); All; All]).
  rewrite Hhice, bind_lift_ok.
  rewrite (cat_mask_of_run hice_c n lo hi Hlo Hhi), bind_lift_ok.
  fold (mask_of lo hi hice_c). set (mask := mask_of lo hi hice_c).
  assert (Hlen_m : length mask = length hice_c) by apply length_map.
  (* ice concentration *)
  rewrite Haice, bind_lift_ok.
  unfold np_where_s at 1. rewrite broadcast2_same_length by congruence.
  rewrite bind_lift_ok, Hland, bind_lift_ok.
  unfold np_mul at 1.
  rewrite broadcast2_same_length by (rewrite length_zip_with; lia).
  rewrite bind_lift_ok.
  fold (sel 0%Qc). fold (masked mask aice_c 0%Qc land).
  fold (aicen_of mask aice_c land).
  rewrite (bind_ok _ _ _ _ _
    (bry_setitem_run o f (bry_name "aicen" b) bslice _ Hf
       (Hv "aicen" ltac:(rewrite !elem_of_cons; tauto)))).
  set (f1 := bry_set_data f _). set (o1 := with_bry o (Some f1)).
  (* ice volume *)
  unfold np_mul at 1. rewrite broadcast2_same_length by congruence.
  rewrite bind_lift_ok.
  unfold np_where_s at 1.
  rewrite broadcast2_same_length by (rewrite length_zip_with; lia).
  rewrite bind_lift_ok.
  unfold np_mul at 1.
  rewrite broadcast2_same_length by (rewrite !length_zip_with; lia).
  rewrite bind_lift_ok.
  fold (sel 0%Qc). fold (masked mask (zip_with Qcmult hice_c aice_c) 0%Qc land).
  fold (vicen_of mask hice_c aice_c land).
  set (vicen := vicen_of mask hice_c aice_c land).
  assert (Hlen_v : length vicen = length hice_c).
  { unfold vicen, vicen_of, masked. rewrite !length_zip_with. lia. }
  rewrite (bind_ok _ _ _ _ _
    (bry_setitem_run o1 f1 (bry_name "vicen" b) bslice _ eq_refl
       (Hv "vicen" ltac:(rewrite !elem_of_cons; tauto)))).
  set (f2 := bry_set_data f1 _). set (o2 := with_bry o1 (Some f2)).
  (* snow volume *)
  rewrite (bind_ok _ _ _ _ _
    (bry_getitem_run o2 f2 (bry_name "vicen" b) bslice (of_vec vicen) eq_refl
       (Hv "vicen" ltac:(rewrite !elem_of_cons; tauto))
       (lookup_insert_eq _ _ _))).
  rewrite as_vec_of_vec, bind_lift_ok.
  unfold np_where_s at 1.
  rewrite broadcast2_same_length by (unfold np_scale; rewrite length_map; lia).
  rewrite bind_lift_ok.
  unfold np_mul at 1.
  rewrite broadcast2_same_length
    by (unfold np_scale; rewrite !length_zip_with, length_map; lia).
  rewrite bind_lift_ok.
  fold (sel 0%Qc). fold (masked mask (np_scale (Q2Qc 0.2) vicen) 0%Qc land).
  fold (vsnon_of mask vicen land). set (vsnon := vsnon_of mask vicen land).
  rewrite (bind_ok _ _ _ _ _
    (bry_setitem_run o2 f2 (bry_name "vsnon" b) bslice _ eq_refl
       (Hv "vsnon" ltac:(rewrite !elem_of_cons; tauto)))).
  set (f3 := bry_set_data f2 _). set (o3 := with_bry o2 (Some f3)).
  (* surface temperature *)
  rewrite Htair, bind_lift_ok.
  unfold np_where_s at 1. rewrite broadcast2_same_length by congruence.
  rewrite bind_lift_ok.
  unfold np_mul at 1.
  rewrite broadcast2_same_length by (rewrite !length_zip_with; lia).
  rewrite bind_lift_ok.
  fold (sel 0%Qc). fold (masked mask tair_a 0%Qc land).
  fold (tsfc_of mask tair_a land).
  rewrite (bind_ok _ _ _ _ _
    (bry_setitem_run o3 f3 (bry_name "Tsfc" b) bslice _ eq_refl
       (Hv "Tsfc" ltac:(rewrite !elem_of_cons; tauto)))).
  set (f4 := bry_set_data f3 _). set (o4 := with_bry o3 (Some f4)).
  (* vertical profile of salinity *)
  change (_get_bry_slice "clm_4d"
            (mkKw (Some (Z.of_nat clm_idx)) (Some b) (Some (-1)%Z)))
    with (@Ok (list idx) (clm_slice_4d (Z.of_nat clm_idx) b (-1))).
  rewrite bind_lift_ok, Hsalt, bind_lift_ok.
  rewrite (bind_ok _ _ _ _ _
    (linspace_z_run o4 ds nz salt_c (np_scale (Q2Qc 0.2) salt_c) Hds Hnz
       ltac:(unfold np_scale; by rewrite length_map))).
  rewrite where_rows_run.
  2:{ intros row Hrow. apply profile_rows in Hrow;
        [lia|unfold np_scale; by rewrite length_map]. }
  rewrite bind_lift_ok, mul_rows_run.
  2:{ intros row [r [-> Hr]]%list_elem_of_fmap.
      apply profile_rows in Hr; [|unfold np_scale; by rewrite length_map].
      rewrite length_zip_with. lia. }
  rewrite bind_lift_ok, map_map.
  fold (sel (Q2Qc 5)).
  change (map (fun row => zip_with Qcmult (zip_with (sel (Q2Qc 5)) mask row) land)
              (profile nz salt_c (np_scale (Q2Qc 0.2) salt_c)))
    with (sinz_of nz mask salt_c land).
  rewrite (bind_ok _ _ _ _ _
    (bry_setitem_run o4 f4 (bry_name "Sinz" b) bslice_4d _ eq_refl
       (Hv "Sinz" ltac:(rewrite !elem_of_cons; tauto)))).
  set (f5 := bry_set_data f4 _). set (o5 := with_bry o4 (Some f5)).
  (* vertical profile of temperature *)
  assert (Hne : (bry_name "Sinz" b, bslice_4d) <> (bry_name "vsnon" b, bslice))
    by (intros [= _ ?]; discriminate).
  assert (Hne' : (bry_name "Tsfc" b, bslice) <> (bry_name "vsnon" b, bslice))
    by (destruct b; discriminate).
  rewrite (bind_ok _ _ _ _ _
    (bry_getitem_run o5 f5 (bry_name "vsnon" b) bslice (of_vec vsnon) eq_refl
       (Hv "vsnon" ltac:(rewrite !elem_of_cons; tauto))
       ltac:(cbn; rewrite lookup_insert_ne by exact Hne;
             rewrite lookup_insert_ne by exact Hne';
             apply lookup_insert_eq))).
  rewrite as_vec_of_vec, bind_lift_ok, Htoce, bind_lift_ok.
  assert (Hlen_sn : length vsnon = length hice_c).
  { unfold vsnon, vsnon_of, masked, np_scale.
    rewrite !length_zip_with, length_map. lia. }
  rewrite (bind_ok _ _ _ _ _
    (linspace_z_run o5 ds nz toce_c tair_a Hds Hnz ltac:(congruence))).
  unfold np_sub at 1. rewrite broadcast2_same_length by congruence.
  rewrite bind_lift_ok.
  unfold np_sub at 1.
  rewrite broadcast2_same_length
    by (unfold np_scale, np_abs; rewrite !length_map, length_zip_with; lia).
  rewrite bind_lift_ok. fold (snow_target toce_c tair_a).
  assert (Hlen_g : length (snow_target toce_c tair_a) = length toce_c).
  { unfold snow_target, np_scale, np_abs.
    rewrite !length_zip_with, !length_map, length_zip_with. lia. }
  rewrite (bind_ok _ _ _ _ _
    (linspace_z_run o5 ds nz toce_c (snow_target toce_c tair_a) Hds Hnz
       ltac:(by rewrite Hlen_g))).
  rewrite choose_rows_run.
  2:{ intros [r1 r2] Hr. cbn [fst snd]. unfold np_gt. rewrite length_map.
      apply elem_of_zip_l in Hr as H1. apply elem_of_zip_r in Hr as H2.
      cbn [fst snd] in H1, H2.
      apply profile_rows in H1; [|by rewrite Hlen_g].
      apply profile_rows in H2; [|congruence]. lia. }
  rewrite bind_lift_ok, where_rows_run.
  2:{ intros row [[r1 r2] [-> Hr]]%list_elem_of_fmap. cbn [fst snd].
      apply elem_of_zip_l in Hr as H1. cbn [fst snd] in H1.
      apply profile_rows in H1; [|by rewrite Hlen_g].
      unfold choose, np_gt. rewrite !length_zip_with, length_map.
      apply elem_of_zip_r in Hr as H2. cbn [fst snd] in H2.
      apply profile_rows in H2; [|congruence]. lia. }
  rewrite bind_lift_ok, mul_rows_run.
  2:{ intros row [r [-> Hr]]%list_elem_of_fmap.
      apply list_elem_of_fmap in Hr as [[r1 r2] [-> Hr]]. cbn [fst snd].
      apply elem_of_zip_l in Hr as H1. cbn [fst snd] in H1.
      apply profile_rows in H1; [|by rewrite Hlen_g].
      apply elem_of_zip_r in Hr as H2. cbn [fst snd] in H2.
      apply profile_rows in H2; [|congruence].
      unfold choose, np_gt. rewrite !length_zip_with, length_map. lia. }
  rewrite bind_lift_ok, map_map.
  fold (sel (Q2Qc (-5))).
  match goal with
  | |- context [of_mat ?m] =>
      change m with (tinz_of nz mask vsnon toce_c tair_a land)
  end.
  rewrite (bind_ok _ _ _ _ _
    (bry_setitem_run o5 f5 (bry_name "Tinz" b) bslice_4d _ eq_refl
       (Hv "Tinz" ltac:(rewrite !elem_of_cons; tauto)))).
  set (f6 := bry_set_data f5 _). set (o6 := with_bry o5 (Some f6)).
  (* the variables that are set to zero *)
  rewrite (zero_loop_run o6 f6 b bslice zero_vars_3d eq_refl Hzero).
  reflexivity.
Qed.

End Transect.

(** ** The values one turn assigns, point by point *)

Section TransectFormulas.
Context (mask : list bool) (hice_c aice_c land tair_a toce_c : list Qc).
Context (nz : nat).
Context (Hlen_m : length mask = length hice_c).
Context (Hlen_a : length aice_c = length hice_c).
Context (Hlen_l : length land = length hice_c).







End TransectFormulas.

(** ** What the turns of the loops leave untouched *)

Lemma same_frame_refl (W : string * list idx -> Prop) (o : CiceBryHax) :
  same_frame W o o.
Proof. unfold same_frame. destruct (bry o); auto. Qed.

Lemma same_frame_trans (W : string * list idx -> Prop) (o1 o2 o3 : CiceBryHax) :
  same_frame W o1 o2 -> same_frame W o2 o3 -> same_frame W o1 o3.
Proof.
  unfold same_frame. intros (Hd1 & Hs1 & He1 & Hb1) (Hd2 & Hs2 & He2 & Hb2).
  split; [congruence|]. split; [congruence|]. split; [congruence|].
  destruct (bry o1), (bry o2), (bry o3); try done.
  destruct Hb1 as [Hv1 Hk1], Hb2 as [Hv2 Hk2]. split; [congruence|].
  intros K HK. rewrite Hk2, Hk1 by done. done.
Qed.

Lemma same_frame_mono (W W' : string * list idx -> Prop) (o o' : CiceBryHax) :
  (forall K, W K -> W' K) -> same_frame W o o' -> same_frame W' o o'.
Proof.
  unfold same_frame. intros Hsub (Hd & Hs & He & Hb). repeat split; try done.
  destruct (bry o), (bry o'); try done. destruct Hb as [Hv Hk].
  split; [done|]. intros K HK. apply Hk. intros HW. by apply HK, Hsub.
Qed.

Lemma framed_mono {A} (W W' : string * list idx -> Prop) (m : M A) :
  (forall K, W K -> W' K) -> framed W m -> framed W' m.
Proof.
  intros Hsub Hm o r o' Hrun. eapply same_frame_mono; [exact Hsub|].
  by eapply Hm.
Qed.

Lemma framed_ret {A} W (a : A) : framed W (ret a).
Proof. intros o r o' [= <- <-]. apply same_frame_refl. Qed.

Lemma framed_raise {A} W (e : exn) : framed W (@raise A e).
Proof. intros o r o' [= <- <-]. apply same_frame_refl. Qed.

Lemma framed_lift {A} W (x : result A) : framed W (lift x).
Proof. intros o r o' [= <- <-]. apply same_frame_refl. Qed.

Lemma framed_get W : framed W get.
Proof. intros o r o' [= <- <-]. apply same_frame_refl. Qed.

Lemma framed_bind {A B} W (m : M A) (k : A -> M B) :
  framed W m -> (forall a, framed W (k a)) -> framed W (bind m k).
Proof.
  intros Hm Hk o r o' Hrun. unfold bind in Hrun.
  destruct (m o) as [[a|e] o1] eqn:Hmo.
  - eapply same_frame_trans; [by eapply Hm|by eapply Hk].
  - injection Hrun as <- <-. by eapply Hm.
Qed.

Lemma framed_for_each {A} W (l : list A) (body : A -> M unit) :
  (forall x, x ∈ l -> framed W (body x)) -> framed W (for_each l body).
Proof.
  induction l as [|x l IH]; intros Hbody; cbn [for_each].
  - apply framed_ret.
  - apply framed_bind; [apply Hbody; by left|]. intros _. apply IH.
    intros y Hy. apply Hbody. by right.
Qed.

Lemma framed_get_bry W : framed W get_bry.
Proof.
  intros o r o' Hrun. unfold get_bry in Hrun.
  destruct (bry o); injection Hrun as <- <-; apply same_frame_refl.
Qed.

Lemma framed_put_data W (f : BryFile) (K : string * list idx) (x : nd)
    (o : CiceBryHax) :
  bry o = Some f -> W K ->
  same_frame W o (with_bry o (Some (bry_set_data f (<[K := x]> (f_data f))))).
Proof.
  intros Hf HK. unfold same_frame. rewrite Hf. cbn.
  repeat split; try done. intros K' HK'. apply lookup_insert_ne. congruence.
Qed.

Lemma framed_setitem W (v : string) (ix : list idx) (x : nd) :
  W (v, ix) -> framed W (bry_setitem v ix x).
Proof.
  intros HK o r o' Hrun. unfold bry_setitem, bind, get_bry in Hrun.
  destruct (bry o) as [f|] eqn:Hf.
  - case_decide; injection Hrun as <- <-.
    + by apply framed_put_data.
    + apply same_frame_refl.
  - injection Hrun as <- <-. apply same_frame_refl.
Qed.

Lemma framed_getitem W (v : string) (ix : list idx) :
  framed W (bry_getitem v ix).
Proof.
  unfold bry_getitem. apply framed_bind; [apply framed_get_bry|]. intros f.
  case_decide; [|apply framed_raise].
  destruct (f_data f !! (v, ix)); [apply framed_ret|apply framed_raise].
Qed.

Lemma framed_get_nz W : framed W get_nz.
Proof.
  unfold get_nz. apply framed_bind; [apply framed_get|]. intros o.
  apply framed_bind; [apply framed_lift|]. intros z.
  destruct (dim_sizes o); [apply framed_lift|apply framed_raise].
Qed.

Lemma framed_linspace_z W (start stop : list Qc) :
  framed W (linspace_z start stop).
Proof.
  unfold linspace_z. apply framed_bind; [apply framed_get_nz|]. intros nz.
  case_decide; [apply framed_raise|apply framed_lift].
Qed.

Lemma owned_key (bry_idx n : nat) (b : boundary) (stem : string) :
  stem ∈ ["aicen"; "vicen"; "vsnon"; "Tsfc"] ->
  owned bry_idx n b
        (bry_name stem b, [I (Z.of_nat bry_idx); I (Z.of_nat n); All]).
Proof.
  intros Hstem. split; [|by left]. cbn [fst]. unfold transect_vars.
  apply elem_of_app. left. rewrite !elem_of_cons, elem_of_nil in Hstem.
  rewrite !elem_of_cons. destruct Hstem as [->|[->|[->|[->|[]]]]]; tauto.
Qed.

Lemma owned_key_4d (bry_idx n : nat) (b : boundary) (stem : string) :
  stem ∈ ["Sinz"; "Tinz"] ->
  owned bry_idx n b
        (bry_name stem b, [I (Z.of_nat bry_idx); I (Z.of_nat n); All; All]).
Proof.
  intros Hstem. split; [|by right]. cbn [fst]. unfold transect_vars.
  apply elem_of_app. left. rewrite !elem_of_cons, elem_of_nil in Hstem.
  rewrite !elem_of_cons. destruct Hstem as [->|[->|[]]]; tauto.
Qed.

(** The proof that a method built from the operations above is framed. *)
Ltac framed_steps side :=
  repeat first
    [ apply framed_lift | apply framed_ret | apply framed_raise
    | apply framed_get | apply framed_get_bry | apply framed_getitem
    | apply framed_get_nz | apply framed_linspace_z
    | apply framed_setitem; side
    | apply framed_for_each; intros ? ?
    | apply framed_bind; [|intros ?] ].

Lemma framed_transect (aice hice tair toce salt land_mask : nd)
    (clm_idx atm_idx bry_idx n : nat) (b : boundary) :
  framed (owned bry_idx n b)
    (write_bry_transect aice hice tair toce salt land_mask
                        clm_idx atm_idx bry_idx n b).
Proof.
  unfold write_bry_transect. cbv zeta.
  framed_steps ltac:(first
    [ apply owned_key; rewrite !elem_of_cons; tauto
    | apply owned_key_4d; rewrite !elem_of_cons; tauto
    | split; [|by left]; cbn [fst]; unfold transect_vars;
      apply elem_of_app; right; by apply list_elem_of_fmap_2 ]).
Qed.

Lemma bind_inv {A B} (m : M A) (k : A -> M B) (o o' : CiceBryHax) (b : B) :
  bind m k o = (Ok b, o') ->
  exists a o1, m o = (Ok a, o1) /\ k a o1 = (Ok b, o').
Proof.
  unfold bind. destruct (m o) as [[a|e] o1]; [|done]. intros Hk. eauto.
Qed.

Lemma lift_inv {A} (r : result A) (o o' : CiceBryHax) (a : A) :
  lift r o = (Ok a, o') -> r = Ok a /\ o' = o.
Proof. by intros [= -> ->]. Qed.

Lemma for_each_split {A} (l1 l2 : list A) (x : A) (body : A -> M unit)
    (o o' : CiceBryHax) :
  for_each (l1 ++ x :: l2) body o = (Ok tt, o') ->
  exists oa ob,
    for_each l1 body o = (Ok tt, oa) /\ body x oa = (Ok tt, ob) /\
    for_each l2 body ob = (Ok tt, o').
Proof.
  revert o. induction l1 as [|y l1 IH]; intros o Hrun.
  - cbn [app for_each] in Hrun. apply bind_inv in Hrun as ([] & ob & Hx & Hrest).
    exists o, ob. done.
  - cbn [app for_each] in Hrun. apply bind_inv in Hrun as ([] & o1 & Hy & Hrest).
    destruct (IH o1 Hrest) as (oa & ob & H1 & Hx & H2).
    exists oa, ob. split; [|done]. cbn [for_each]. by rewrite (bind_ok _ _ _ _ _ Hy).
Qed.

(** In a completed loop over distinct elements the turn of [x] has run,
    between states that differ from the first and the last only by what the
    other turns may assign. *)
Lemma for_each_reach {A} (W : A -> string * list idx -> Prop) (l : list A)
    (body : A -> M unit) (o o' : CiceBryHax) (x : A) :
  NoDup l -> x ∈ l ->
  (forall y, framed (W y) (body y)) ->
  for_each l body o = (Ok tt, o') ->
  exists oa ob,
    same_frame (fun K => exists y, y ∈ l /\ y <> x /\ W y K) o oa /\
    body x oa = (Ok tt, ob) /\
    same_frame (fun K => exists y, y ∈ l /\ y <> x /\ W y K) ob o'.
Proof.
  intros Hnd Hx Hbody Hrun.
  apply list_elem_of_split in Hx as (l1 & l2 & ->).
  apply for_each_split in Hrun as (oa & ob & H1 & Hxrun & H2).
  apply list.NoDup_app in Hnd as (_ & Hdisj & Hnd2).
  apply list.NoDup_cons in Hnd2 as [Hx2 _].
  set (Wx := fun K => exists y, y ∈ l1 ++ x :: l2 /\ y <> x /\ W y K).
  assert (HF1 : framed Wx (for_each l1 body)).
  { apply framed_for_each. intros y Hy.
    eapply framed_mono; [|apply Hbody]. intros K HK.
    exists y. split; [apply elem_of_app; by left|]. split; [|done].
    intros ->. apply (Hdisj x Hy). by left. }
  assert (HF2 : framed Wx (for_each l2 body)).
  { apply framed_for_each. intros y Hy.
    eapply framed_mono; [|apply Hbody]. intros K HK.
    exists y. split; [apply elem_of_app; right; by right|]. split; [|done].
    by intros ->. }
  exists oa, ob. split; [exact (HF1 _ _ _ H1)|]. split; [done|].
  exact (HF2 _ _ _ H2).
Qed.

Lemma same_frame_kept (W : string * list idx -> Prop) (o o' : CiceBryHax)
    (f : BryFile) (K : string * list idx) :
  same_frame W o o' -> bry o = Some f -> ~ W K ->
  exists f', bry o' = Some f' /\ f_vars f' = f_vars f /\
             f_data f' !! K = f_data f !! K.
Proof.
  intros (_ & _ & _ & Hb) Hf HK. rewrite Hf in Hb.
  destruct (bry o') as [f'|]; [|done]. destruct Hb as [Hv Hk].
  exists f'. auto.
Qed.

Lemma same_frame_file (W : string * list idx -> Prop) (o o' : CiceBryHax)
    (f : BryFile) :
  same_frame W o o' -> bry o = Some f ->
  exists f', bry o' = Some f' /\ f_vars f' = f_vars f /\
             dim_sizes o' = dim_sizes o.
Proof.
  intros (Hd & _ & _ & Hb) Hf. rewrite Hf in Hb.
  destruct (bry o') as [f'|]; [|done]. destruct Hb as [Hv Hk].
  exists f'. auto.
Qed.

(** The variables of different boundaries are different. *)
Lemma transect_vars_disjoint (b b' : boundary) (v : string) :
  v ∈ transect_vars b -> v ∈ transect_vars b' -> b = b'.
Proof.
  intros Hv Hv'. destruct (decide (b = b')) as [|Hne]; [done|]. exfalso.
  assert (Hdisj : forallb (fun x => bool_decide (x ∉ transect_vars b'))
                          (transect_vars b) = true)
    by (destruct b, b'; try done; by vm_compute).
  rewrite forallb_forall in Hdisj. apply list_elem_of_In in Hv.
  specialize (Hdisj v Hv). by apply bool_decide_eq_true in Hdisj.
Qed.

Lemma owned_disjoint (bi n bi' n' : nat) (b b' : boundary)
    (K : string * list idx) :
  owned bi n b K -> owned bi' n' b' K -> bi = bi' /\ n = n' /\ b = b'.
Proof.
  intros [Hv Hix] [Hv' Hix'].
  pose proof (transect_vars_disjoint b b' _ Hv Hv') as Hb.
  destruct Hix as [Hix|Hix], Hix' as [Hix'|Hix'];
    rewrite Hix in Hix'; simplify_eq; split; (lia || split; (lia || done)).
Qed.

Lemma Time_not_transect (b : boundary) : "Time" ∉ transect_vars b.
Proof. destruct b; apply (bool_decide_unpack _); by vm_compute. Qed.

Section DayLoop.
Context `{Calendar}.
Context (aice hice tair toce salt land_mask : nd).
Context (bry_time : list Qc) (clm_dates atm_dates : list Z) (t0c_idx : nat).

Lemma framed_day (clm_idx : nat) :
  framed (owned_day (clm_idx - t0c_idx))
    (write_bry_day aice hice tair toce salt land_mask bry_time
                   clm_dates atm_dates t0c_idx clm_idx).
Proof.
  unfold write_bry_day. cbv zeta.
  apply framed_bind; [apply framed_lift|]. intros today.
  apply framed_bind; [apply framed_lift|]. intros atm_idx.
  apply framed_bind; [apply framed_lift|]. intros now.
  apply framed_bind; [apply framed_setitem; by left|]. intros _.
  apply framed_for_each. intros n _.
  apply framed_for_each. intros b _.
  eapply framed_mono; [|apply framed_transect].
  intros K HK. right. by exists n, b.
Qed.


Context (o_pre o_end : CiceBryHax) (f_pre : BryFile) (ds : gmap string Z).
Context (nz len : nat).
Context (Hrun : for_each (seq t0c_idx len)
                  (write_bry_day aice hice tair toce salt land_mask bry_time
                                 clm_dates atm_dates t0c_idx) o_pre
                = (Ok tt, o_end)).
Context (Hf_pre : bry o_pre = Some f_pre).
Context (Hvars_pre : forall b v, v ∈ transect_vars b -> v ∈ f_vars f_pre).
Context (Hds_pre : dim_sizes o_pre = Some ds).
Context (Hnz_pre : ds !! "nkice" = Some (Z.of_nat nz)).

Context (clm_idx atm_idx n : nat) (b : boundary) (today : Z).
Context (hice_c aice_c land tair_a salt_c toce_c : list Qc) (lo hi : Qc).
Context (Hrange : t0c_idx <= clm_idx < t0c_idx + len).
Context (Htoday : clm_dates !! clm_idx = Some today).
Context (Hargmin : np_argmin (map (fun d => Z.abs (d - today)) atm_dates)
                   = Ok atm_idx).
Context (Hhice : read1 hice (clm_slice_3d (Z.of_nat clm_idx) b) = Ok hice_c).
Context (Haice : read1 aice (clm_slice_3d (Z.of_nat clm_idx) b) = Ok aice_c).
Context (Hland : read1 land_mask (tail (clm_slice_3d (Z.of_nat clm_idx) b))
                 = Ok land).
Context (Htair : read1 tair (clm_slice_3d (Z.of_nat atm_idx) b) = Ok tair_a).
Context (Hsalt : read1 salt (clm_slice_4d (Z.of_nat clm_idx) b (-1)) = Ok salt_c).
Context (Htoce : read1 toce (clm_slice_4d (Z.of_nat clm_idx) b (-1)) = Ok toce_c).
Context (Hlen_a : length aice_c = length hice_c).
Context (Hlen_l : length land = length hice_c).
Context (Hlen_t : length tair_a = length hice_c).
Context (Hlen_s : length salt_c = length hice_c).
Context (Hlen_o : length toce_c = length hice_c).
Context (Hlo : cat_lims !! n = Some lo).
Context (Hhi : cat_lims !! Datatypes.S n = Some hi).


End DayLoop.

Lemma framed_var_setattr W (vname attr_name : string) (attr_val : pyval) :
  framed W (var_setattr vname attr_name attr_val).
Proof.
  intros o r o' Hrun. unfold var_setattr, bind, get_bry in Hrun.
  destruct (bry o) as [f|] eqn:Hf.
  - case_decide.
    + destruct attr_val; injection Hrun as <- <-;
        try apply same_frame_refl;
        (unfold same_frame; rewrite Hf; cbn; by repeat split).
    + injection Hrun as <- <-. apply same_frame_refl.
  - injection Hrun as <- <-. apply same_frame_refl.
Qed.

Lemma framed_write_var_attrs W : framed W write_var_attrs.
Proof.
  unfold write_var_attrs. apply framed_bind; [apply framed_get|]. intros o.
  apply framed_for_each. intros var _. apply framed_for_each. intros kv _.
  apply framed_var_setattr.
Qed.


(** ** The steps of [write_bry_data] before the loop over the days *)

Lemma framed_set_var_attr W (var_name attr_name : string) (attr_val : pyval)
    (update_file : bool) :
  framed W (set_var_attr var_name attr_name attr_val update_file).
Proof.
  intros o r o' Hrun. unfold set_var_attr in Hrun.
  unfold bind at 1, get in Hrun.
  unfold bind at 1, lift in Hrun.
  destruct (index_of var_name (map name (bry_vars o))) as [i|e];
    [|injection Hrun as <- <-; apply same_frame_refl].
  unfold bind at 1, put in Hrun.
  eapply same_frame_trans.
  2:{ destruct update_file.
      - eapply framed_write_var_attrs, Hrun.
      - eapply framed_ret, Hrun. }
  unfold same_frame. cbn. destruct (bry o); done.
Qed.

Section Prefix.
Context `{Calendar}.

Lemma framed_get_time_endpoints W (nc_file : SrcFile) (time_name : string) :
  framed W (get_time_endpoints nc_file time_name).
Proof.
  intros o r o' Hrun. unfold get_time_endpoints, bind, get, lift in Hrun.
  destruct (start_date o), (end_date o);
    try (injection Hrun as <- <-; apply same_frame_refl).
  destruct (get_dates nc_file time_name) as [time|e];
    [|injection Hrun as <- <-; apply same_frame_refl].
  destruct (np_where_eq time z), (np_where_eq time z0);
    injection Hrun as <- <-; apply same_frame_refl.
Qed.

Lemma framed_compute_bry_time W (nc_file : SrcFile) (time_name : string) :
  framed W (compute_bry_time nc_file time_name).
Proof.
  unfold compute_bry_time.
  apply framed_bind; [apply framed_lift|]. intros input_time.
  apply framed_bind; [apply framed_get_time_endpoints|]. intros se.
  intros o r o' Hrun. unfold bind, get in Hrun.
  destruct (time_units o); injection Hrun as <- <-; apply same_frame_refl.
Qed.

(** The endpoints depend on the object through its two dates only. *)
Lemma get_time_endpoints_dates (nc_file : SrcFile) (time_name : string)
    (o o' : CiceBryHax) :
  start_date o' = start_date o -> end_date o' = end_date o ->
  (get_time_endpoints nc_file time_name o').1
  = (get_time_endpoints nc_file time_name o).1.
Proof.
  intros Hs He. unfold get_time_endpoints, bind, get, lift.
  rewrite Hs, He.
  destruct (start_date o), (end_date o); try done.
  destruct (get_dates nc_file time_name) as [time|e]; [|done].
  by destruct (np_where_eq time z), (np_where_eq time z0).
Qed.

End Prefix.

Lemma transect_vars_catalog (b : boundary) (v : string) :
  v ∈ transect_vars b -> v ∈ catalog_names.
Proof.
  intros Hv.
  assert (Hall : forallb (fun v => bool_decide (v ∈ catalog_names))
                   (transect_vars b) = true)
    by (destruct b; vm_compute; reflexivity).
  rewrite forallb_forall in Hall.
  apply (bool_decide_unpack _). apply Is_true_true, Hall.
  by apply list_elem_of_In.
Qed.

Section Run.
Context `{Calendar}.
Context (o : CiceBryHax) (g c a : SrcFile) (f : BryFile).
Context (ds : gmap string Z) (nz : nat).
Context (Hg : grid o = Some (Some g)).
Context (Hc : clm o = Some (Some c)).
Context (Ha : atm o = Some (Some a)).
Context (Hf : bry o = Some f).
Context (Hcat : forall v, v ∈ catalog_names -> v ∈ f_vars f).
Context (Hds : dim_sizes o = Some ds).
Context (Hnz : ds !! "nkice" = Some (Z.of_nat nz)).
Context (Hrun : (write_bry_data o).1 = Ok tt).

(** A completed run has read the sources, found the endpoints, and run the
    loop over the days from a state with the variables and the dimension
    sizes of the first. *)
Lemma write_bry_data_inv :
  exists (S : sources) (t0 t1 : nat) (bry_time : list Qc)
         (o_pre : CiceBryHax) (f_pre : BryFile),
    sources_of g c a S /\
    (get_time_endpoints c "clim_time" o).1 = Ok (t0, t1) /\
    bry o_pre = Some f_pre /\ f_vars f_pre = f_vars f /\
    dim_sizes o_pre = Some ds /\
    for_each (seq t0 (Datatypes.S t1 - t0))
      (write_bry_day (s_aice S) (s_hice S) (s_tair S) (s_toce S) (s_salt S)
                     (s_land_mask S) bry_time (s_clm_dates S) (s_atm_dates S)
                     t0) o_pre
    = (Ok tt, (write_bry_data o).2).
Proof.
  destruct (write_bry_data o) as [r o'] eqn:Hw. cbn [fst] in Hrun. subst r.
  cbn [snd]. unfold write_bry_data in Hw. unfold bind at 1, get in Hw.
  rewrite Hg, Hc, Ha in Hw.
  set (W1 := fun _ : string * list idx => True).
  apply bind_inv in Hw as ([] & o1 & H1 & Hw).
  pose proof (framed_set_var_attr W1 _ _ _ _ _ _ _ H1) as F1.
  apply bind_inv in Hw as (bry_time & o2 & H2 & Hw).
  pose proof (framed_compute_bry_time W1 _ _ _ _ _ H2) as F2.
  apply bind_inv in Hw as (clm_dates & ? & [Hcd ->]%lift_inv & Hw).
  apply bind_inv in Hw as (atm_dates & ? & [Had ->]%lift_inv & Hw).
  apply bind_inv in Hw as ([t0 t1] & o3 & H3 & Hw).
  pose proof (framed_get_time_endpoints W1 _ _ _ _ _ H3) as F3.
  cbn [fst snd] in Hw.
  apply bind_inv in Hw as (aice & ? & [Haice ->]%lift_inv & Hw).
  apply bind_inv in Hw as (hice & ? & [Hhice ->]%lift_inv & Hw).
  apply bind_inv in Hw as (hsno & ? & [Hhsno ->]%lift_inv & Hw).
  apply bind_inv in Hw as (tair & ? & [Htair ->]%lift_inv & Hw).
  apply bind_inv in Hw as (toce & ? & [Htoce ->]%lift_inv & Hw).
  apply bind_inv in Hw as (salt & ? & [Hsalt ->]%lift_inv & Hw).
  apply bind_inv in Hw as (land_mask & ? & [Hland ->]%lift_inv & Hw).
  apply bind_inv in Hw as (nz' & o4 & H4 & Hw).
  pose proof (framed_get_nz W1 _ _ _ H4) as F4.
  apply bind_inv in Hw as ([] & o5 & H5 & Hw).
  pose proof (framed_setitem W1 _ _ _ Logic.I _ _ _ H5) as F5.
  apply bind_inv in Hw as ([] & o6 & H6 & Hw).
  assert (F6 : same_frame W1 o5 o6).
  { revert H6. apply framed_for_each. intros b _.
    repeat first
      [ apply framed_lift
      | apply framed_setitem; exact Logic.I
      | apply framed_bind; [|intros ?] ]. }
  assert (F : same_frame W1 o o6).
  { repeat (eapply same_frame_trans; [eassumption|]). apply same_frame_refl. }
  destruct (same_frame_file _ _ _ _ F Hf) as (f_pre & Hf_pre & Hv_pre & Hd_pre).
  exists (mkSources aice hice tair toce salt land_mask clm_dates atm_dates),
         t0, t1, bry_time, o6, f_pre.
  split; [by repeat split|].
  split.
  { rewrite <- (get_time_endpoints_dates c "clim_time" o o2).
    - by rewrite H3.
    - destruct (same_frame_trans _ _ _ _ F1 F2) as (_ & Hs & _). exact Hs.
    - destruct (same_frame_trans _ _ _ _ F1 F2) as (_ & _ & He & _). exact He. }
  split; [done|]. split; [done|]. split; [by rewrite Hd_pre|].
  exact Hw.
Qed.




End Run.

Lemma ex_run_completes : (@write_bry_data day_calendar ex_run_obj).1 = Ok tt.
Proof. vm_compute. reflexivity. Defined.



(** ** Replacing the placeholder *)

Import PyStr.

Lemma starts_with_app old rest : starts_with old (old ++ rest) = true.
Proof. induction old as [|a p IH]; simpl; [done|]. by rewrite decide_True. Qed.

Lemma starts_with_inv p s :
  starts_with p s = true -> exists rest, s = p ++ rest.
Proof.
  revert s. induction p as [|a p IH]; intros s Hs; simpl in *; [by eexists|].
  destruct s as [|b s]; [done|]. case_decide; [|done]. subst.
  destruct (IH _ Hs) as [rest ->]. by eexists.
Qed.

Lemma replace_go_skip old new p s :
  replace_go old new (length p) (p ++ s) = replace_go old new 0 s.
Proof.
  induction p as [|a p IH]; simpl; [|done].
  destruct s; done.
Qed.

Lemma replace_go_hit old new rest :
  old <> [] ->
  replace_go old new 0 (old ++ rest) = new ++ replace_go old new 0 rest.
Proof.
  intros Hne. pose proof (starts_with_app old rest) as Hs.
  destruct old as [|a p]; [done|].
  change ((a :: p) ++ rest) with (a :: (p ++ rest)) in *.
  cbn [replace_go]. rewrite Hs. simpl. by rewrite replace_go_skip.
Qed.

Lemma replace_go_keep old new c s :
  starts_with old (c :: s) = false ->
  replace_go old new 0 (c :: s) = c :: replace_go old new 0 s.
Proof. intros Hs. cbn [replace_go]. by rewrite Hs. Qed.

Lemma replace_go_Replaced old new s :
  old <> [] -> Replaced old new s (replace_go old new 0 s).
Proof.
  intros Hne. remember (length s) as n eqn:Hn.
  revert s Hn. induction n as [n IH] using lt_wf_ind. intros s ->.
  destruct s as [|c s]; [constructor|].
  destruct (starts_with old (c :: s)) eqn:Hs.
  - destruct (starts_with_inv _ _ Hs) as [rest Hrest]. rewrite Hrest.
    rewrite replace_go_hit by done. constructor.
    apply (IH (length rest)); [|done].
    apply (f_equal length) in Hrest. rewrite length_app in Hrest. simpl in *.
    destruct old; [done|]. simpl in *. lia.
  - rewrite replace_go_keep by done. constructor; [done|].
    apply (IH (length s)); simpl; [lia|done].
Qed.

Lemma Replaced_functional old new s out1 out2 :
  old <> [] ->
  Replaced old new s out1 -> Replaced old new s out2 -> out1 = out2.
Proof.
  intros Hne H1. revert out2.
  induction H1 as [|rest out H1 IH|c s out Hs H1 IH]; intros out2 H2.
  - inversion H2 as [|rest2 o2 H2' Heq|]; [done|].
    destruct old; [done|]. done.
  - remember (old ++ rest) as s eqn:Es.
    destruct H2 as [|rest2 o2 H2'|c s o2 Hs2 H2'].
    + destruct old; done.
    + apply app_inv_head in Es. subst. f_equal. by apply IH.
    + rewrite Es, starts_with_app in Hs2. done.
  - remember (c :: s) as s0 eqn:Es.
    destruct H2 as [|rest2 o2 H2'|c2 s2 o2 Hs2 H2'].
    + done.
    + rewrite starts_with_app in Hs. done.
    + simplify_eq. f_equal. by apply IH.
Qed.

(** Nothing of [old] is left when [new] shares no character with it. *)
Lemma replace_go_head old new s q :
  new <> [] -> (forall c, c ∈ new -> c ∉ q) ->
  q `prefix_of` replace_go old new 0 s -> q `prefix_of` s.
Proof.
  intros Hnew Hdisj. remember (length s) as n eqn:Hn.
  revert s q Hn Hdisj. induction n as [n IH] using lt_wf_ind. intros s q -> Hdisj Hp.
  destruct q as [|a q]; [apply prefix_nil|].
  destruct s as [|c s]; [simpl in Hp; by apply prefix_nil_inv in Hp|].
  destruct (starts_with old (c :: s)) eqn:Hs.
  - exfalso. cbn [replace_go] in Hp. rewrite Hs in Hp.
    destruct new as [|b new']; [done|]. simpl in Hp.
    destruct Hp as [k Hk]. simplify_eq/=.
    apply (Hdisj a); set_solver.
  - rewrite replace_go_keep in Hp by done.
    destruct Hp as [k Hk]. simplify_eq/=.
    apply prefix_cons. apply (IH (length s)); [simpl; lia|done| |].
    + intros c' Hc' Hin. apply (Hdisj c' Hc'). set_solver.
    + by eexists.
Qed.

Lemma starts_with_prefix p s : starts_with p s = true <-> p `prefix_of` s.
Proof.
  split.
  - intros [rest ->]%starts_with_inv. by eexists.
  - intros [rest ->]. apply starts_with_app.
Qed.

Lemma app_occurrence_split {A} (new r p q : list A) (a : A) (o : list A) :
  new ++ r = p ++ (a :: o) ++ q ->
  a ∈ new \/ exists p', r = p' ++ (a :: o) ++ q.
Proof.
  revert p. induction new as [|b new' IH]; intros p Heq.
  - right. by exists p.
  - destruct p as [|x p]; simplify_eq/=.
    + left. set_solver.
    + destruct (IH p) as [Hin|Hex]; [done| |by right]. left. set_solver.
Qed.

Lemma replace_go_no_occurrence old new s :
  old <> [] -> new <> [] -> (forall c, c ∈ new -> c ∉ old) ->
  ~ occurs old (replace_go old new 0 s).
Proof.
  intros Hold Hnew Hdisj. remember (length s) as n eqn:Hn.
  revert s Hn. induction n as [n IH] using lt_wf_ind. intros s -> (p & q & Hocc).
  destruct s as [|c s]; [simpl in Hocc; destruct p, old; done|].
  destruct (starts_with old (c :: s)) eqn:Hs.
  - destruct (starts_with_inv _ _ Hs) as [rest Hrest]. rewrite Hrest in Hocc.
    rewrite replace_go_hit in Hocc by done.
    assert (Hlen : length rest < length (c :: s)).
    { apply (f_equal length) in Hrest. rewrite length_app in Hrest.
      destruct old; [done|]. simpl in *. lia. }
    destruct old as [|a o] eqn:Ho; [done|].
    destruct (app_occurrence_split _ _ _ _ _ _ Hocc) as [Hin|[p' Hp']].
    + apply (Hdisj a Hin). set_solver.
    + apply (IH (length rest) Hlen rest eq_refl). by exists p', q.
  - rewrite replace_go_keep in Hocc by done.
    destruct p as [|a p].
    + simpl in Hocc.
      assert (Hp : old `prefix_of` (c :: s)).
      { apply (replace_go_head old new (c :: s) old Hnew Hdisj).
        rewrite replace_go_keep by done. rewrite Hocc. by eexists. }
      apply starts_with_prefix in Hp. congruence.
    + simplify_eq/=. apply (IH (length s)) with (s := s); [lia|done|].
      by exists p, q.
Qed.

Lemma str_replaced old new s :
  old <> "" -> StrReplaced old new s (PyStr.replace old new s).
Proof.
  intros Hne. unfold StrReplaced, PyStr.replace.
  rewrite String.list_ascii_of_string_of_list_ascii.
  unfold replace_l. destruct (String.list_ascii_of_string old) eqn:Ho.
  - destruct old; done.
  - rewrite <- Ho. apply replace_go_Replaced. by rewrite Ho.
Qed.

Lemma replace_attrs_fold old new (m init : gmap string pyval) :
  all_text m ->
  map_fold
    (fun key val acc =>
       match acc with
       | Ok actual =>
           match val_replace old new val with
           | Ok v' => Ok (<[key := v']> actual)
           | Raise e => Raise e
           end
       | Raise e => Raise e
       end)
    (Ok init) m
  = Ok ((str_replace_val old new <$> m) ∪ init).
Proof.
  apply (map_fold_weak_ind (fun r m => all_text m -> r = Ok ((str_replace_val old new <$> m) ∪ init))).
  - intros _. by rewrite fmap_empty, (left_id_L ∅ (∪)).
  - intros k v m' r Hk IH Hall.
    rewrite IH.
    + destruct (Hall k v) as [s ->]; [by rewrite lookup_insert_eq|].
      simpl. by rewrite fmap_insert, insert_union_l.
    + intros k' v' Hk'. apply (Hall k'). rewrite lookup_insert_ne; [done|].
      intros ->. congruence.
Qed.

Lemma replace_attrs_text old new (m : gmap string pyval) :
  all_text m -> replace_attrs old new m = Ok (str_replace_val old new <$> m).
Proof.
  intros Hall. unfold replace_attrs. rewrite replace_attrs_fold by done.
  f_equal. apply map_eq. intros k. rewrite lookup_union, lookup_fmap.
  destruct (m !! k); done.
Qed.

Lemma omnibry_one_text name0 dt dims0 attrs0 tok b :
  all_text attrs0 ->
  omnibry_one name0 dt dims0 attrs0 tok b =
    Ok (mkBryVar (PyStr.replace tok (bry_letter b) name0) dt
          (map (PyStr.replace tok (bry_to_coor b)) dims0)
          (str_replace_val tok (bry_letter b) <$> attrs0)).
Proof. intros Hall. unfold omnibry_one. by rewrite replace_attrs_text. Qed.

Lemma expands_to_intro tok name0 dt dims0 attrs0 b :
  tok <> "" ->
  expands_to tok name0 dt dims0 attrs0 b
    (mkBryVar (PyStr.replace tok (bry_letter b) name0) dt
       (map (PyStr.replace tok (bry_to_coor b)) dims0)
       (str_replace_val tok (bry_letter b) <$> attrs0)).
Proof.
  intros Hne. unfold expands_to. simpl. repeat split.
  - by apply str_replaced.
  - replace (coordinate_axis b) with (bry_to_coor b) by by destruct b.
    induction dims0; constructor; [by apply str_replaced|done].
  - rewrite lookup_fmap. by destruct (attrs0 !! k).
  - rewrite lookup_fmap. by destruct (attrs0 !! k).
  - intros k s Hk. eexists. rewrite lookup_fmap, Hk. simpl. split; [done|].
    by apply str_replaced.
Qed.

(** C4. For a template whose attribute values are strings and a non-empty
    placeholder token, [omnibry_var] returns four variables, for the western,
    southern, eastern and northern boundary in this order; in each the token
    is replaced everywhere by the boundary's letter in the name and in the
    attribute values, and by the boundary's coordinate axis ([eta_t] for west
    and east, [xi_t] for south and north) in the dimension names. *)
Theorem omnibry_var_expands (name0 : string) (dt : dtype) (dims0 : list string)
    (attrs0 : gmap string pyval) (tok : string) :
  tok <> "" ->
  (forall k v, attrs0 !! k = Some v -> exists s, v = PStr s) ->
  exists vW vS vE vN,
    omnibry_var name0 dt dims0 attrs0 tok = Ok [vW; vS; vE; vN] /\
    expands_to tok name0 dt dims0 attrs0 West vW /\
    expands_to tok name0 dt dims0 attrs0 South vS /\
    expands_to tok name0 dt dims0 attrs0 East vE /\
    expands_to tok name0 dt dims0 attrs0 North vN.
Proof.
  intros Hne Hall. unfold omnibry_var, bry_order. cbn [omnibry_loop].
  rewrite !omnibry_one_text by done. cbn [app].
  do 4 eexists. split; [reflexivity|].
  repeat split; by apply expands_to_intro.
Qed.

Lemma omnibry_var_expands_witness :
  "BRY" <> "" /\
  (forall k v,
     ({[ "long_name" := PStr "ice age - BRY boundary" ]} : gmap string pyval)
       !! k = Some v -> exists s, v = PStr s) /\
  exists vW vS vE vN,
    omnibry_var "iage_BRY_bry" py_float ["days"; "ice_types"; "BRY"]
      {[ "long_name" := PStr "ice age - BRY boundary" ]} "BRY"
      = Ok [vW; vS; vE; vN] /\
    expands_to "BRY" "iage_BRY_bry" py_float ["days"; "ice_types"; "BRY"]
      {[ "long_name" := PStr "ice age - BRY boundary" ]} West vW /\
    expands_to "BRY" "iage_BRY_bry" py_float ["days"; "ice_types"; "BRY"]
      {[ "long_name" := PStr "ice age - BRY boundary" ]} South vS /\
    expands_to "BRY" "iage_BRY_bry" py_float ["days"; "ice_types"; "BRY"]
      {[ "long_name" := PStr "ice age - BRY boundary" ]} East vE /\
    expands_to "BRY" "iage_BRY_bry" py_float ["days"; "ice_types"; "BRY"]
      {[ "long_name" := PStr "ice age - BRY boundary" ]} North vN.
Proof.
  assert (H1 : "BRY" <> "") by discriminate.
  assert (H2 : forall k v,
     ({[ "long_name" := PStr "ice age - BRY boundary" ]} : gmap string pyval)
       !! k = Some v -> exists s, v = PStr s).
  { intros k v [_ <-]%lookup_singleton_Some. by eexists. }
  split; [exact H1|]. split; [exact H2|].
  exact (omnibry_var_expands "iage_BRY_bry" py_float ["days"; "ice_types"; "BRY"]
           {[ "long_name" := PStr "ice age - BRY boundary" ]} "BRY" H1 H2).
Defined.

(** ** Locating the date range *)

Lemma where_eq_from_spec (d : Z) (l : list Z) (k : nat) :
  match where_eq_from k d l with
  | [] => d ∉ l
  | i :: _ =>
      k <= i /\ l !! (i - k) = Some d /\
      forall j, j < i - k -> l !! j <> Some d
  end.
Proof.
  revert k. induction l as [|x l IH]; intros k; simpl.
  - apply not_elem_of_nil.
  - case_decide as Hx.
    + subst. split; [lia|]. rewrite Nat.sub_diag. split; [done|]. intros j Hj. lia.
    + specialize (IH (Datatypes.S k)). destruct (where_eq_from (Datatypes.S k) d l) as [|i rest].
      * rewrite not_elem_of_cons. done.
      * destruct IH as (Hle & Hi & Hmin). split; [lia|].
        replace (i - k) with (Datatypes.S (i - Datatypes.S k)) by lia.
        split; [done|]. intros [|j] Hj; simpl; [congruence|]. apply Hmin. lia.
Qed.

Lemma np_where_eq_first (l : list Z) (d : Z) :
  d ∈ l ->
  exists i rest, np_where_eq l d = i :: rest /\ l !! i = Some d /\
                 forall j, j < i -> l !! j <> Some d.
Proof.
  intros Hin. unfold np_where_eq. pose proof (where_eq_from_spec d l 0) as Hs.
  destruct (where_eq_from 0 d l) as [|i rest]; [done|].
  rewrite Nat.sub_0_r in Hs. destruct Hs as (_ & Hi & Hmin). eauto.
Qed.

Lemma np_where_eq_absent (l : list Z) (d : Z) :
  d ∉ l -> np_where_eq l d = [].
Proof.
  intros Hin. unfold np_where_eq. pose proof (where_eq_from_spec d l 0) as Hs.
  destruct (where_eq_from 0 d l) as [|i rest]; [done|].
  destruct Hs as (_ & Hi & _). exfalso. apply Hin.
  by apply list_elem_of_lookup_2 in Hi.
Qed.

Section Endpoints.
Context `{Calendar}.

Lemma get_dates_run (nc_file : SrcFile) (time_name units : string) (raw : list Qc) :
  src_vars nc_file !! time_name = Some (of_vec raw) ->
  src_units nc_file !! time_name = Some units ->
  get_dates nc_file time_name = Ok (map (fun x => num2date x units) raw).
Proof.
  intros Hv Hu. unfold get_dates, get_time_array, src_var, dict_get.
  rewrite Hv. cbn [rbind]. unfold of_vec at 1. rewrite getitem_All_Arr. cbn [rbind].
  fold (of_vec raw). rewrite as_vec_of_vec. cbn [rbind]. rewrite Hu. done.
Qed.

(** C5. With both dates configured, [get_time_endpoints] returns for each the
  first index of the decoded time axis whose date equals it exactly, so the
  stored value at the returned index decodes to that date; when the start
  date (or, the start date being present, the end date) equals no decoded
  date it raises a [ValueError] that names the date and the path of the
  dataset.  The object is left as it is. *)
Theorem get_time_endpoints_exact (nc_file : SrcFile) (time_name units : string)
    (raw : list Qc) (sd ed : Z) (o : CiceBryHax) :
  src_vars nc_file !! time_name = Some (of_vec raw) ->
  src_units nc_file !! time_name = Some units ->
  start_date o = Some sd ->
  end_date o = Some ed ->
  let time := map (fun x => num2date x units) raw in
  (sd ∈ time -> ed ∈ time ->
     exists s e xs xe,
       get_time_endpoints nc_file time_name o = (Ok (s, e), o) /\
       raw !! s = Some xs /\ num2date xs units = sd /\
       raw !! e = Some xe /\ num2date xe units = ed /\
       (forall j, j < s -> time !! j <> Some sd) /\
       (forall j, j < e -> time !! j <> Some ed)) /\
  (sd ∉ time ->
     get_time_endpoints nc_file time_name o =
       (Raise (ValueError ("Start date " +:+ str_date sd +:+ " not in " +:+
                           src_path nc_file +:+ "!")), o)) /\
  (sd ∈ time -> ed ∉ time ->
     get_time_endpoints nc_file time_name o =
       (Raise (ValueError ("End date " +:+ str_date ed +:+ " not in " +:+
                           src_path nc_file +:+ "!")), o)).
Proof.
  intros Hv Hu Hsd Hed time.
  assert (Hrun : get_time_endpoints nc_file time_name o =
            match np_where_eq time sd with
            | [] => (Raise (ValueError ("Start date " +:+ str_date sd +:+
                       " not in " +:+ src_path nc_file +:+ "!")), o)
            | s0 :: _ =>
                match np_where_eq time ed with
                | [] => (Raise (ValueError ("End date " +:+ str_date ed +:+
                          " not in " +:+ src_path nc_file +:+ "!")), o)
                | e0 :: _ => (Ok (s0, e0), o)
                end
            end).
  { unfold get_time_endpoints, bind, get, lift. rewrite Hsd, Hed.
    rewrite (get_dates_run _ _ _ _ Hv Hu). fold time.
    destruct (np_where_eq time sd); [done|]. destruct (np_where_eq time ed); done. }
  split; [|split].
  - intros Hs He.
    destruct (np_where_eq_first _ _ Hs) as (s & rs & Es & Hsi & Hsm).
    destruct (np_where_eq_first _ _ He) as (e & re & Ee & Hei & Hem).
    rewrite Es, Ee in Hrun. unfold time in Hsi, Hei.
    rewrite list_lookup_fmap in Hsi, Hei.
    destruct (raw !! s) as [xs|] eqn:Hxs; [|done].
    destruct (raw !! e) as [xe|] eqn:Hxe; [|done].
    simplify_eq/=. exists s, e, xs, xe. done.
  - intros Hs. by rewrite (np_where_eq_absent _ _ Hs) in Hrun.
  - intros Hs He. destruct (np_where_eq_first _ _ Hs) as (s & rs & Es & _).
    by rewrite Es, (np_where_eq_absent _ _ He) in Hrun.
Qed.
End Endpoints.

Lemma get_time_endpoints_exact_witness :
  let time := map (fun x => @num2date day_calendar x
                              "days since 2008-01-01 00:00:00")
                  [Q2Qc 0; Q2Qc 1; Q2Qc 2] in
  (86400000000%Z ∈ time -> 172800000000%Z ∈ time ->
     exists s e xs xe,
       @get_time_endpoints day_calendar ex_clm "clim_time" ex_dated
         = (Ok (s, e), ex_dated) /\
       [Q2Qc 0; Q2Qc 1; Q2Qc 2] !! s = Some xs /\
       @num2date day_calendar xs "days since 2008-01-01 00:00:00"
         = 86400000000%Z /\
       [Q2Qc 0; Q2Qc 1; Q2Qc 2] !! e = Some xe /\
       @num2date day_calendar xe "days since 2008-01-01 00:00:00"
         = 172800000000%Z /\
       (forall j, j < s -> time !! j <> Some 86400000000%Z) /\
       (forall j, j < e -> time !! j <> Some 172800000000%Z)) /\
  (86400000000%Z ∉ time ->
     @get_time_endpoints day_calendar ex_clm "clim_time" ex_dated =
       (Raise (ValueError ("Start date " +:+ @str_date day_calendar 86400000000
                           +:+ " not in " +:+ src_path ex_clm +:+ "!")),
        ex_dated)) /\
  (86400000000%Z ∈ time -> 172800000000%Z ∉ time ->
     @get_time_endpoints day_calendar ex_clm "clim_time" ex_dated =
       (Raise (ValueError ("End date " +:+ @str_date day_calendar 172800000000
                           +:+ " not in " +:+ src_path ex_clm +:+ "!")),
        ex_dated)).
Proof.
  exact (@get_time_endpoints_exact day_calendar ex_clm "clim_time"
           "days since 2008-01-01 00:00:00" [Q2Qc 0; Q2Qc 1; Q2Qc 2]
           86400000000%Z 172800000000%Z ex_dated
           eq_refl eq_refl eq_refl eq_refl).
Defined.

(** ** Verifying the boundary file *)

Lemma first_absent_None names present :
  first_absent names present = None <-> forall n, n ∈ names -> n ∈ present.
Proof.
  induction names as [|n rest IH]; simpl.
  - split; [|done]. intros _ n Hn. by apply elem_of_nil in Hn.
  - case_decide as Hn.
    + rewrite IH. split.
      * intros Hall m [->|Hm]%elem_of_cons; auto.
      * intros Hall m Hm. apply Hall. by right.
    + split; [done|]. intros Hall. exfalso. apply Hn, Hall. by left.
Qed.

Lemma first_absent_Some names present n :
  first_absent names present = Some n -> n ∈ names /\ n ∉ present.
Proof.
  induction names as [|m rest IH]; simpl; [done|].
  case_decide as Hm.
  - intros [Hin Hout]%IH. split; [by right|done].
  - intros [= ->]. split; [by left|done].
Qed.

Lemma verify_missing_run (vars0 : list BryVar) (i : nat) (var : option nat)
    (o : CiceBryHax) (f : BryFile) :
  bry o = Some f ->
  verify_missing i vars0 var o =
    match first_absent (map name vars0) (f_vars f) with
    | Some v =>
        (Raise (ValueError ("Variable " +:+ v +:+ " not in file " +:+
                            bry_file o +:+ "!")), o)
    | None =>
        (Ok (match vars0 with [] => var | _ :: _ => Some (i + length vars0 - 1) end), o)
    end.
Proof.
  intros Hf. revert i var. induction vars0 as [|v rest IH]; intros i var; [reflexivity|].
  cbn [verify_missing map first_absent]. unfold bind at 1 2, get, get_bry. rewrite Hf.
  case_decide as Hv; [|done].
  rewrite IH. destruct (first_absent (map name rest) (f_vars f)); [done|].
  destruct rest; cbn [length]; do 3 f_equal; lia.
Qed.

Lemma rename_at_twice i k1 k2 o :
  rename_at i k2 (rename_at i k1 o) = rename_at i k2 o.
Proof.
  unfold rename_at, with_bry_vars. destruct o; simpl. f_equal.
  rewrite list_alter_alter_eq. by apply list_alter_ext.
Qed.

Lemma verify_extra_run (keys : list string) (i : nat) (nec : list string)
    (o : CiceBryHax) :
  verify_extra keys (Some i) nec o =
    match first_absent keys nec with
    | Some k =>
        (Raise (ValueError ("Variable " +:+ k +:+
                            " is not needed in CICE bry file!")),
         rename_at i k o)
    | None =>
        (Ok tt, match list.last keys with Some k => rename_at i k o | None => o end)
    end.
Proof.
  revert o. induction keys as [|k rest IH]; intros o; [reflexivity|].
  cbn [verify_extra first_absent]. unfold bind at 1, set_name_at.
  fold (set_name k). fold (rename_at i k o).
  case_decide as Hk; [|done].
  rewrite IH. destruct (first_absent rest nec).
  - by rewrite rename_at_twice.
  - f_equal. destruct rest as [|k' rest']; [done|].
    rewrite last_cons_cons.
    destruct (list.last (k' :: rest')) eqn:Hl; [by rewrite rename_at_twice|].
    by apply last_None in Hl.
Qed.

Lemma load_bry_vars_ok :
  exists vs, load_bry_vars = Ok vs /\ map name vs = catalog_names /\
             catalog_ok vs = true.
Proof.
  assert (Hn : match load_bry_vars with
               | Ok vs => bool_decide (map name vs = catalog_names) && catalog_ok vs
               | Raise _ => false
               end = true) by (vm_compute; reflexivity).
  destruct load_bry_vars as [vs|e]; [|discriminate].
  apply andb_true_iff in Hn as [Hn1 Hn2]. apply bool_decide_eq_true in Hn1.
  by exists vs.
Qed.

Opaque load_bry_vars.

Lemma verify_variables_run (o : CiceBryHax) (f : BryFile) :
  bry o = Some f ->
  bry_vars o <> [] ->
  verify_variables o =
    match first_absent (map name (bry_vars o)) (f_vars f) with
    | Some v =>
        (Raise (ValueError ("Variable " +:+ v +:+ " not in file " +:+
                            bry_file o +:+ "!")), o)
    | None =>
        let i := length (bry_vars o) - 1 in
        match first_absent (f_vars f) catalog_names with
        | Some k =>
            (Raise (ValueError ("Variable " +:+ k +:+
                                " is not needed in CICE bry file!")),
             rename_at i k o)
        | None =>
            (Ok true,
             match list.last (f_vars f) with
             | Some k => rename_at i k o
             | None => o
             end)
        end
    end.
Proof.
  intros Hf Hne. destruct load_bry_vars_ok as (vs & Hl & Hn & _).
  unfold verify_variables. rewrite Hl. clear Hl.
  unfold bind at 1, lift. unfold bind at 1, get. unfold bind at 1.
  rewrite (verify_missing_run _ _ _ _ f Hf).
  destruct (first_absent (map name (bry_vars o)) (f_vars f)); [reflexivity|].
  destruct (bry_vars o) as [|v0 rest] eqn:Hvars; [congruence|].
  unfold bind at 1, get_bry. rewrite Hf. unfold bind at 1.
  rewrite verify_extra_run. cbn [length]. rewrite Nat.add_0_l, Hn.
  destruct (first_absent (f_vars f) catalog_names); reflexivity.
Qed.

Lemma rename_at_same (i : nat) (k : string) (o : CiceBryHax) :
  name <$> bry_vars o !! i = Some k -> rename_at i k o = o.
Proof.
  intros Hk. unfold rename_at, with_bry_vars. destruct o as [? ? ? vars ? ? ? ? ? ? ? ? ? ? ? ? ?].
  simpl in *. f_equal. apply list_eq. intros j.
  destruct (decide (i = j)) as [->|Hne].
  - rewrite list_lookup_alter_eq. destruct (vars !! j) as [v|]; [|done].
    simpl in *. simplify_eq. by destruct v.
  - by rewrite list_lookup_alter_ne.
Qed.

Lemma verify_variables_cases (o : CiceBryHax) (f : BryFile) :
  bry o = Some f ->
  map name (bry_vars o) = catalog_names ->
  ((verify_variables o).1 = Ok true <->
     (forall n, n ∈ f_vars f <-> n ∈ catalog_names)) /\
  ((exists n, n ∈ catalog_names /\ n ∉ f_vars f) ->
     exists v, v ∈ catalog_names /\ (v ∉ f_vars f) /\
       (verify_variables o).1 =
         Raise (ValueError ("Variable " +:+ v +:+ " not in file " +:+
                            bry_file o +:+ "!"))) /\
  ((forall n, n ∈ catalog_names -> n ∈ f_vars f) ->
   (exists n, n ∈ f_vars f /\ n ∉ catalog_names) ->
     exists k, k ∈ f_vars f /\ (k ∉ catalog_names) /\
       (verify_variables o).1 =
         Raise (ValueError ("Variable " +:+ k +:+
                            " is not needed in CICE bry file!"))).
Proof.
  intros Hf Hnames.
  assert (Hne : bry_vars o <> []).
  { intros Hnil. rewrite Hnil in Hnames. discriminate. }
  rewrite (verify_variables_run o f Hf Hne). rewrite Hnames.
  destruct (first_absent catalog_names (f_vars f)) as [v|] eqn:Hmiss.
  - apply first_absent_Some in Hmiss as [Hv1 Hv2]. cbn [fst]. split; [|split].
    + split; [discriminate|]. intros Hall. exfalso. by apply Hv2, Hall.
    + intros _. exists v. auto.
    + intros Hall _. exfalso. by apply Hv2, Hall.
  - pose proof (proj1 (first_absent_None _ _) Hmiss) as Hall. cbv zeta.
    destruct (first_absent (f_vars f) catalog_names) as [k|] eqn:Hextra.
    + apply first_absent_Some in Hextra as [Hk1 Hk2]. cbn [fst]. split; [|split].
      * split; [discriminate|]. intros Heq. exfalso. by apply Hk2, Heq.
      * intros (n & Hn1 & Hn2). exfalso. by apply Hn2, Hall.
      * intros _ _. exists k. auto.
    + pose proof (proj1 (first_absent_None _ _) Hextra) as Hall2. cbn [fst].
      split; [|split].
      * split; [|done]. intros _ n. split; auto.
      * intros (n & Hn1 & Hn2). exfalso. by apply Hn2, Hall.
      * intros _ (n & Hn1 & Hn2). exfalso. by apply Hn2, Hall2.
Qed.


Lemma init_write_run (w : World) (bry_file0 fmt : string) :
  exists vs,
    map name vs = catalog_names /\ catalog_ok vs = true /\
    CiceBryHax_init w bry_file0 "w" fmt true blank =
      (Ok tt,
       mkObj "w" bry_file0 None vs None None None (Some empty_bry) None
             (Some None) None (Some None) None (Some None) None None None).
Proof.
  destruct load_bry_vars_ok as (vs & Hl & Hn & Hok). exists vs.
  split; [done|]. split; [done|].
  unfold CiceBryHax_init, CiceBry_init. rewrite Hl. clear Hl.
  rewrite !decide_False by discriminate. rewrite !decide_True by reflexivity.
  rewrite !andb_false_r. reflexivity.
Qed.

Lemma set_dims_five (nt nc nz nx ny : Z) (o : CiceBryHax) :
  set_dims false (five_dims nt nc nz nx ny) o =
    (Ok tt, with_dim_sizes o (Some (five_dims nt nc nz nx ny))).
Proof.
  unfold set_dims.
  assert (Hallowed : (map_to_list self_dims).*2 ≡ₚ dim_names).
  { vm_compute (map_to_list self_dims).*2. unfold dim_names.
    apply NoDup_Permutation.
    { apply (bool_decide_unpack _). by vm_compute. }
    { apply (bool_decide_unpack _). by vm_compute. }
    intros x. rewrite !elem_of_cons, !elem_of_nil. tauto. }
  destruct (list_find _ (map_to_list (five_dims nt nc nz nx ny))) as [[i kv]|] eqn:Hfind.
  - exfalso. apply list_find_Some in Hfind as (Hkv & Hbad & _).
    apply list_elem_of_lookup_2 in Hkv. destruct kv as [k v].
    apply elem_of_map_to_list in Hkv. apply Hbad. simpl. rewrite Hallowed.
    unfold five_dims in Hkv. unfold dim_names.
    rewrite !elem_of_cons.
    repeat (apply lookup_insert_Some in Hkv as [[<- _]|[_ Hkv]]; [tauto|]).
    apply lookup_singleton_Some in Hkv as [<- _]. tauto.
  - unfold bind, get, ret. cbv beta iota. cbn [with_dim_sizes dim_sizes default].
    match goal with |- context [forallb ?p ?l] =>
      replace (forallb p l) with true; [reflexivity|] end.
    symmetry. apply forallb_forall. intros dn Hdn.
    apply list_elem_of_In in Hdn. rewrite Hallowed in Hdn.
    apply bool_decide_eq_true. unfold dim_names in Hdn.
    rewrite !elem_of_cons, elem_of_nil in Hdn.
    destruct Hdn as [->|[->|[->|[->|[->|[]]]]]]; vm_compute; eauto.
Qed.

Lemma createDimension_loop (l : list (string * Z)) (o : CiceBryHax) (f : BryFile) :
  bry o = Some f ->
  NoDup l.*1 ->
  (forall k, k ∈ l.*1 -> f_dims f !! k = None) ->
  for_each l (fun kv => createDimension kv.1 kv.2) o =
    (Ok tt, with_bry o (Some (bry_set_dims f (list_to_map l ∪ f_dims f)))).
Proof.
  revert o f. induction l as [|[k v] l IH]; intros o f Hf Hnd Hfresh.
  - cbn [for_each]. rewrite list_to_map_nil, (left_id_L ∅ (∪)).
    unfold ret. f_equal. destruct o, f; simpl in *; by subst.
  - cbn [for_each]. apply list.NoDup_cons in Hnd as [Hk Hnd].
    unfold bind at 1, createDimension at 1. unfold bind at 1, get_bry. rewrite Hf.
    cbn [fst snd]. rewrite Hfresh by (simpl; set_solver).
    unfold put_bry at 1.
    rewrite (IH _ (bry_set_dims f (<[k:=v]> (f_dims f)))); [|reflexivity|done|].
    + f_equal. unfold with_bry; cbn. f_equal. f_equal. unfold bry_set_dims; cbn.
      f_equal. rewrite <- insert_union_r by by apply not_elem_of_list_to_map_1.
      by rewrite insert_union_l.
    + intros k' Hk'. cbn. rewrite lookup_insert_ne by (intros ->; done).
      apply Hfresh. simpl. set_solver.
Qed.

Lemma write_dims_run (o : CiceBryHax) (f : BryFile) (ds : gmap string Z) :
  bry o = Some f -> f_dims f = ∅ -> dim_sizes o = Some ds ->
  write_dims o = (Ok tt, with_bry o (Some (bry_set_dims f ds))).
Proof.
  intros Hf Hd Hds. unfold write_dims, bind, get. rewrite Hds.
  rewrite (createDimension_loop _ o f Hf).
  - by rewrite Hd, (right_id_L ∅ (∪)), list_to_map_to_list.
  - apply NoDup_fst_map_to_list.
  - intros k _. by rewrite Hd.
Qed.

Lemma createVariable_loop (vars0 : list BryVar) (o : CiceBryHax) (f : BryFile) :
  bry o = Some f ->
  NoDup (f_vars f ++ map name vars0) ->
  (forall v d, v ∈ vars0 -> d ∈ dims v -> is_Some (f_dims f !! d)) ->
  for_each vars0 (fun var => createVariable (name var) (dtype_ var) (dims var)) o =
    (Ok tt, with_bry o (Some (bry_set_vars f (f_vars f ++ map name vars0)))).
Proof.
  revert o f. induction vars0 as [|v rest IH]; intros o f Hf Hnd Hdims.
  - cbn [for_each map]. rewrite (right_id_L [] (++)).
    unfold ret. f_equal. destruct o, f; simpl in *; by subst.
  - cbn [for_each map]. unfold bind at 1, createVariable at 1.
    unfold bind at 1, get_bry. rewrite Hf.
    destruct (list_find _ (dims v)) as [[i d]|] eqn:Hfind.
    { exfalso. apply list_find_Some in Hfind as (Hd & Hbad & _).
      apply list_elem_of_lookup_2 in Hd.
      destruct (Hdims v d) as [x Hx]; [set_solver|done|]. congruence. }
    rewrite decide_False.
    2:{ intros Hin. apply list.NoDup_app in Hnd as (_ & Hdisj & _).
        apply (Hdisj _ Hin). set_solver. }
    unfold put_bry at 1.
    rewrite (IH _ (bry_set_vars f (f_vars f ++ [name v]))); [|reflexivity| |].
    + cbn. by rewrite <- (assoc_L (++)).
    + cbn. by rewrite <- (assoc_L (++)).
    + intros v' d' Hv' Hd'. cbn. apply (Hdims v' d'); [set_solver|done].
Qed.

Lemma write_vars_run (o : CiceBryHax) (f : BryFile) :
  bry o = Some f -> f_vars f = [] ->
  NoDup (map name (bry_vars o)) ->
  (forall v d, v ∈ bry_vars o -> d ∈ dims v -> is_Some (f_dims f !! d)) ->
  write_vars o =
    (Ok tt, with_bry o (Some (bry_set_vars f (map name (bry_vars o))))).
Proof.
  intros Hf Hv Hnd Hdims. unfold write_vars, bind, get.
  rewrite (createVariable_loop _ o f Hf); [by rewrite Hv| by rewrite Hv |done].
Qed.

Lemma write_var_attrs_run (o : CiceBryHax) (f : BryFile) :
  bry o = Some f ->
  (forall v, v ∈ bry_vars o -> name v ∈ f_vars f) ->
  (forall v k x, v ∈ bry_vars o -> attrs v !! k = Some x -> x <> PNone) ->
  exists o', write_var_attrs o = (Ok tt, o') /\ same_but_vattrs o o'.
Proof.
  intros Hf Hnames Hvals. unfold write_var_attrs, bind, get.
  apply (for_each_inv (same_but_vattrs o)).
  2:{ split; [done|]. split; [done|]. by exists f, f. }
  intros v o1 Hv Ho1.
  apply (for_each_inv (same_but_vattrs o)); [|done].
  intros [k x] o2 Hkx (Hvars2 & Hfile2 & f0 & f2 & Hf0 & Hf2 & Hfv).
  rewrite Hf in Hf0. injection Hf0 as <-.
  unfold var_setattr, bind, get_bry. rewrite Hf2. cbn [fst snd].
  rewrite decide_True by (rewrite Hfv; by apply Hnames).
  apply elem_of_map_to_list in Hkx. specialize (Hvals v k x Hv Hkx).
  eexists. split.
  - destruct x; [reflexivity|done|reflexivity].
  - split; [done|]. split; [done|]. exists f. eexists. split; [done|].
    split; [reflexivity|]. done.
Qed.

Lemma catalog_facts (vs : list BryVar) :
  catalog_ok vs = true ->
  NoDup (map name vs) /\
  (forall v d, v ∈ vs -> d ∈ dims v -> d ∈ dim_names) /\
  (forall v k x, v ∈ vs -> attrs v !! k = Some x -> x <> PNone).
Proof.
  intros Hc.
  unfold catalog_ok in Hc. apply andb_true_iff in Hc as [Hnd Hall].
  apply bool_decide_eq_true in Hnd. split; [done|].
  rewrite forallb_forall in Hall.
  split.
  - intros v d Hv Hd. apply list_elem_of_In in Hv.
    specialize (Hall v Hv). apply andb_true_iff in Hall as [Hdims _].
    rewrite forallb_forall in Hdims. apply list_elem_of_In in Hd.
    specialize (Hdims d Hd). by apply bool_decide_eq_true in Hdims.
  - intros v k x Hv Hk. apply list_elem_of_In in Hv.
    specialize (Hall v Hv). apply andb_true_iff in Hall as [_ Hvals].
    rewrite forallb_forall in Hvals.
    assert (Hx : is_text x = true).
    { apply Hvals. apply list_elem_of_In. apply list_elem_of_fmap.
      exists (k, x). split; [done|]. by apply elem_of_map_to_list. }
    by destruct x.
Qed.

Lemma five_dims_lookup (nt nc nz nx ny : Z) (d : string) :
  d ∈ dim_names -> is_Some (five_dims nt nc nz nx ny !! d).
Proof.
  unfold dim_names. rewrite !elem_of_cons, elem_of_nil.
  intros [->|[->|[->|[->|[->|[]]]]]]; vm_compute; eauto.
Qed.

(** Writing the dimensions, variables and attributes of the catalogue into a
    new file and verifying it succeeds, and the verification leaves the
    object as it is. *)
Lemma write_catalog_verifies (w : World) (bry_file0 fmt : string)
    (nt nc nz nx ny : Z) :
  exists o,
    write_catalog w bry_file0 fmt (five_dims nt nc nz nx ny) blank = (Ok tt, o) /\
    verify_variables o = (Ok true, o).
Proof.
  destruct (init_write_run w bry_file0 fmt) as (vs & Hnames & Hok & Hinit).
  destruct (catalog_facts vs Hok) as (Hnd & Hdims & Hvals).
  unfold write_catalog.
  rewrite (bind_ok _ _ _ _ _ Hinit).
  rewrite (bind_ok _ _ _ _ _ (set_dims_five nt nc nz nx ny _)).
  set (o1 := with_dim_sizes _ _).
  rewrite (bind_ok _ _ _ _ _ (write_dims_run o1 empty_bry _ eq_refl eq_refl eq_refl)).
  set (f2 := bry_set_dims empty_bry _). set (o2 := with_bry o1 (Some f2)).
  assert (Hwv : write_vars o2 =
            (Ok tt, with_bry o2 (Some (bry_set_vars f2 (map name vs))))).
  { apply (write_vars_run o2 f2); [reflexivity|reflexivity|done|].
    intros v d Hv Hd. apply five_dims_lookup. by apply (Hdims v d). }
  rewrite (bind_ok _ _ _ _ _ Hwv).
  set (f3 := bry_set_vars f2 _). set (o3 := with_bry o2 (Some f3)).
  destruct (write_var_attrs_run o3 f3) as (o4 & Hrun & Hvars4 & Hfile4 & f & f4 & Hf & Hf4 & Hfv);
    [reflexivity| | |].
  { intros v Hv. cbn. by apply list_elem_of_fmap_2. }
  { intros v k x Hv. by apply Hvals. }
  exists o4. split; [done|].
  injection Hf as <-. cbn in Hfv, Hvars4.
  assert (Hne : bry_vars o4 <> []).
  { rewrite Hvars4. intros ->. discriminate. }
  rewrite (verify_variables_run o4 f4 Hf4 Hne).
  rewrite Hfv, Hvars4, Hnames.
  replace (first_absent catalog_names catalog_names) with (@None string)
    by (symmetry; by apply first_absent_None).
  cbv zeta. f_equal.
  destruct (list.last catalog_names) as [k|] eqn:Hlast; [|done].
  apply rename_at_same. rewrite Hvars4.
  rewrite <- list_lookup_fmap, <- Hlast, last_lookup. change (fmap name vs) with (map name vs).
  rewrite Hnames. f_equal. rewrite <- Hnames, length_map. lia.
Qed.

(** C6. On an object whose catalogue carries the names of [load_bry_vars],
    [verify_variables] returns [True] exactly when the boundary file holds
    the catalogue's names and no others; when a catalogue variable is absent
    it raises a [ValueError] naming an absent catalogue variable, and when
    none is absent but the file holds a variable outside the catalogue it
    raises a [ValueError] naming such a variable.  After the dimensions,
    variables and attributes of the catalogue have been written into a new
    file, verification succeeds. *)
Theorem verify_variables_complete (o : CiceBryHax) (f : BryFile) :
  bry o = Some f ->
  map name (bry_vars o) = catalog_names ->
  ((verify_variables o).1 = Ok true <->
     (forall n, n ∈ f_vars f <-> n ∈ catalog_names)) /\
  ((exists n, n ∈ catalog_names /\ n ∉ f_vars f) ->
     exists v, v ∈ catalog_names /\ (v ∉ f_vars f) /\
       (verify_variables o).1 =
         Raise (ValueError ("Variable " +:+ v +:+ " not in file " +:+
                            bry_file o +:+ "!"))) /\
  ((forall n, n ∈ catalog_names -> n ∈ f_vars f) ->
   (exists n, n ∈ f_vars f /\ n ∉ catalog_names) ->
     exists k, k ∈ f_vars f /\ (k ∉ catalog_names) /\
       (verify_variables o).1 =
         Raise (ValueError ("Variable " +:+ k +:+
                            " is not needed in CICE bry file!"))) /\
  (forall (w : World) (bry_file0 fmt : string) (nt nc nz nx ny : Z),
     exists o1,
       write_catalog w bry_file0 fmt (five_dims nt nc nz nx ny) blank
         = (Ok tt, o1) /\
       verify_variables o1 = (Ok true, o1)).
Proof.
  intros Hf Hnames.
  destruct (verify_variables_cases o f Hf Hnames) as (H1 & H2 & H3).
  split; [exact H1|]. split; [exact H2|]. split; [exact H3|].
  intros w bry_file0 fmt nt nc nz nx ny. apply write_catalog_verifies.
Qed.

Lemma verify_variables_complete_witness :
  let o := with_bry
             (with_bry_vars blank
                (map (fun n => mkBryVar n py_float [] ∅) catalog_names))
             (Some (mkBry true ∅ catalog_names ∅ ∅ ∅)) in
  bry o = Some (mkBry true ∅ catalog_names ∅ ∅ ∅) /\
  map name (bry_vars o) = catalog_names /\
  ((verify_variables o).1 = Ok true <->
     (forall n, n ∈ catalog_names <-> n ∈ catalog_names)).
Proof.
  intros o.
  assert (H1 : bry o = Some (mkBry true ∅ catalog_names ∅ ∅ ∅)) by reflexivity.
  assert (H2 : map name (bry_vars o) = catalog_names) by reflexivity.
  split; [exact H1|]. split; [exact H2|].
  exact (proj1 (verify_variables_complete o _ H1 H2)).
Defined.

(** ** Verification renames the last catalogue entry *)

(** A boundary file that holds the catalogue's variables, [Time] having been
    created last. *)
Lemma init_read_run (w : World) (bry_file0 fmt : string) (f : BryFile) :
  bry_files w !! bry_file0 = Some f ->
  exists vs,
    map name vs = catalog_names /\
    CiceBryHax_init w bry_file0 "r" fmt true blank =
      (Ok tt,
       mkObj "r" bry_file0 None vs None None None (Some (bry_set_open f true))
             None (Some None) None (Some None) None (Some None) None None None).
Proof.
  intros Hf. destruct load_bry_vars_ok as (vs & Hl & Hn & _). exists vs.
  split; [done|].
  unfold CiceBryHax_init, CiceBry_init. rewrite Hl. clear Hl.
  rewrite !decide_True by reflexivity. rewrite Hf. reflexivity.
Qed.

(** C9 fails on the code: verifying a file that holds exactly the catalogue's
    variables, of which [Time] was created last, succeeds and leaves the last
    catalogue entry, [Sinz_N_bry], named [Time]. *)
Theorem verify_variables_renames_last :
  exists o o',
    CiceBryHax_init reordered_world "bry.nc" "r" "NETCDF4" true blank
      = (Ok tt, o) /\
    map name (bry_vars o) = catalog_names /\
    verify_variables o = (Ok true, o') /\
    map name (bry_vars o') = take 65 catalog_names ++ ["Time"] /\
    map name (bry_vars o') <> map name (bry_vars o).
Proof.
  destruct (init_read_run reordered_world "bry.nc" "NETCDF4" reordered_file)
    as (vs & Hn & Hinit); [reflexivity|].
  set (o := mkObj "r" "bry.nc" None vs None None None
              (Some (bry_set_open reordered_file true)) None (Some None)
              None (Some None) None (Some None) None None None) in *.
  assert (Hne : bry_vars o <> []) by (cbn; intros ->; discriminate).
  assert (Hlen : length vs = 66) by (by rewrite <- (length_map name), Hn).
  assert (Hmap : map name (bry_vars (rename_at (length vs - 1) "Time" o))
                 = take 65 catalog_names ++ ["Time"]).
  { unfold rename_at. cbn [bry_vars with_bry_vars o]. rewrite Hlen.
    change (66 - 1) with 65. rewrite <- Hn.
    apply list_eq. intros j. change (map name) with (fmap (M:=list) name).
    rewrite list_lookup_fmap. destruct (decide (j = 65)) as [->|Hj].
    - rewrite list_lookup_alter_eq.
      rewrite lookup_app_r by (rewrite length_take, length_fmap; lia).
      rewrite length_take, length_fmap, Hlen. change (65 - 65 `min` 66) with 0.
      destruct (vs !! 65) as [v|] eqn:Hv; [done|].
      apply lookup_ge_None in Hv. lia.
    - rewrite list_lookup_alter_ne by done.
      destruct (decide (j < 65)).
      + rewrite lookup_app_l by (rewrite length_take, length_fmap; lia).
        rewrite lookup_take_lt by done. by rewrite list_lookup_fmap.
      + rewrite !lookup_ge_None_2; [done| |lia].
        rewrite length_app, length_take, length_fmap, Hlen. simpl. lia. }
  exists o, (rename_at (length vs - 1) "Time" o).
  split; [exact Hinit|]. split; [exact Hn|].
  split; [|split; [exact Hmap|]].
  - rewrite (verify_variables_run o (bry_set_open reordered_file true) eq_refl Hne).
    cbn [bry_vars f_vars bry_set_open reordered_file o]. rewrite Hn.
    replace (first_absent catalog_names (tail catalog_names ++ ["Time"]))
      with (@None string) by (by vm_compute).
    cbv zeta.
    replace (first_absent (tail catalog_names ++ ["Time"]) catalog_names)
      with (@None string) by (by vm_compute).
    by rewrite last_snoc.
  - rewrite Hmap. cbn [bry_vars o]. rewrite Hn. discriminate.
Qed.

(** ** The sources must be attached *)

Section Sources.
Context `{Calendar}.

(** C7. When the grid, climatology or atmosphere source is not attached,
    [write_bry_data] raises an [AttributeError] whose message names a source
    that is not attached, and leaves the object, the boundary file included,
    as it was. *)
Theorem write_bry_data_needs_sources (o : CiceBryHax) :
  is_Some (grid o) -> is_Some (clm o) -> is_Some (atm o) ->
  grid o = Some None \/ clm o = Some None \/ atm o = Some None ->
  exists src,
    src ∈ ["grid"; "clm"; "atm"] /\
    source_attr src o = Some None /\
    write_bry_data o = (Raise (AttributeError (no_source_msg src)), o).
Proof.
  intros [g Hg] [c Hc] [a Ha] Hmiss. unfold write_bry_data, bind, get.
  rewrite Hg, Hc, Ha.
  destruct g as [g|].
  - destruct c as [c|].
    + destruct a as [a|].
      * exfalso. destruct Hmiss as [?|[?|?]]; congruence.
      * exists "atm". split; [set_unfold; tauto|]. split; [|reflexivity].
        unfold source_attr. by rewrite !decide_False, decide_True by done.
    + exists "clm". split; [set_unfold; tauto|]. split; [|reflexivity].
      unfold source_attr. by rewrite decide_False, decide_True by done.
  - exists "grid". split; [set_unfold; tauto|]. split; [|reflexivity].
    unfold source_attr. by rewrite decide_True by done.
Qed.
End Sources.


Lemma write_bry_data_needs_sources_witness :
  let o := with_atm (with_clm (with_grid blank None (Some None))
                              None (Some None)) None (Some None) in
  exists src,
    src ∈ ["grid"; "clm"; "atm"] /\
    source_attr src o = Some None /\
    @write_bry_data day_calendar o =
      (Raise (AttributeError (no_source_msg src)), o).
Proof.
  intros o.
  apply (@write_bry_data_needs_sources day_calendar o).
  - exists None. reflexivity.
  - exists None. reflexivity.
  - exists None. reflexivity.
  - left. reflexivity.
Defined.

(** ** Disposal *)

Lemma src_set_open_closed (f : SrcFile) :
  src_open f = false -> src_set_open f false = f.
Proof. destruct f; simpl; by intros ->. Qed.

Lemma bry_set_open_closed (f : BryFile) :
  f_open f = false -> bry_set_open f false = f.
Proof. destruct f; simpl; by intros ->. Qed.

Lemma close_if_open_closed (h : option (option SrcFile)) :
  close_if_open h = Ok (closed_src h).
Proof.
  destruct h as [[f|]|]; simpl; try done.
  unfold src_close. destruct (src_open f) eqn:Ho; simpl; [done|].
  by rewrite src_set_open_closed.
Qed.

Lemma CiceBry_del_run (o : CiceBryHax) :
  CiceBry_del o = (Ok tt, with_bry o (closed_bry (bry o))).
Proof.
  unfold CiceBry_del, bry_close. destruct (bry o) as [f|] eqn:Hb; simpl.
  - destruct (f_open f) eqn:Ho; [done|].
    rewrite bry_set_open_closed by done. destruct o; simpl in *; by subst.
  - destruct o; simpl in *; by subst.
Qed.

Lemma CiceBryHax_del_run (o : CiceBryHax) :
  CiceBryHax_del o = (Ok tt, disposed o).
Proof.
  unfold CiceBryHax_del, bind.
  rewrite close_if_open_closed. cbn [clm with_grid].
  rewrite close_if_open_closed. cbn [atm with_clm].
  rewrite close_if_open_closed, CiceBry_del_run. reflexivity.
Qed.

Lemma disposed_idem (o : CiceBryHax) : disposed (disposed o) = disposed o.
Proof.
  destruct o as [? ? ? ? ? ? ? b ? g ? c ? a ? ? ?].
  destruct b as [[]|], g as [[[]|]|], c as [[[]|]|], a as [[[]|]|]; reflexivity.
Qed.

Lemma disposed_closed (o : CiceBryHax) :
  nothing_open o -> disposed o = o.
Proof.
  destruct o as [? ? ? ? ? ? ? b ? g ? c ? a ? ? ?]. unfold nothing_open. simpl.
  intros (Hb & Hg & Hc & Ha). unfold disposed, with_bry, with_atm, with_clm, with_grid. simpl.
  f_equal.
  - destruct b as [f|]; [|done]. simpl. by rewrite bry_set_open_closed by by apply Hb.
  - destruct g as [[f|]|]; try done. simpl. by rewrite src_set_open_closed by by apply Hg.
  - destruct c as [[f|]|]; try done. simpl. by rewrite src_set_open_closed by by apply Hc.
  - destruct a as [[f|]|]; try done. simpl. by rewrite src_set_open_closed by by apply Ha.
Qed.

Lemma init_invalid_mode (w : World) (bry_file0 mode0 fmt : string)
    (overwrite : bool) :
  mode0 <> "r" -> mode0 <> "w" ->
  exists o,
    CiceBryHax_init w bry_file0 mode0 fmt overwrite blank =
      (Raise (ValueError ("Invalid value " +:+ mode0 +:+
                          " for keyword 'mode'")), o) /\
    bry o = None /\ grid o = None /\ clm o = None /\ atm o = None.
Proof.
  intros Hr Hw. destruct load_bry_vars_ok as (vs & Hl & _).
  unfold CiceBryHax_init, CiceBry_init. rewrite Hl. clear Hl.
  rewrite !decide_False by done.
  eexists. split; [reflexivity|]. cbn. done.
Qed.

(** C8. Disposal never raises and closes every handle that exists and is
    open; disposing a second time changes nothing, and neither does disposing
    an object none of whose handles is open.  In particular an object whose
    construction stopped at an invalid mode, before any handle was opened, is
    disposed of without error.  The same holds of the destructor of the base
    class. *)
Theorem disposal_idempotent (o : CiceBryHax) :
  CiceBryHax_del o = (Ok tt, disposed o) /\
  CiceBryHax_del (disposed o) = (Ok tt, disposed o) /\
  nothing_open (disposed o) /\
  (nothing_open o -> CiceBryHax_del o = (Ok tt, o)) /\
  CiceBry_del o = (Ok tt, with_bry o (closed_bry (bry o))) /\
  CiceBry_del (with_bry o (closed_bry (bry o)))
    = (Ok tt, with_bry o (closed_bry (bry o))) /\
  (forall (w : World) (bry_file0 mode0 fmt : string) (overwrite : bool),
     mode0 <> "r" -> mode0 <> "w" ->
     exists o1,
       CiceBryHax_init w bry_file0 mode0 fmt overwrite blank =
         (Raise (ValueError ("Invalid value " +:+ mode0 +:+
                             " for keyword 'mode'")), o1) /\
       bry o1 = None /\
       CiceBryHax_del o1 = (Ok tt, o1) /\
       CiceBry_del o1 = (Ok tt, o1)).
Proof.
  split; [apply CiceBryHax_del_run|].
  split; [by rewrite CiceBryHax_del_run, disposed_idem|].
  split.
  { destruct o as [? ? ? ? ? ? ? b ? g ? c ? a ? ? ?].
    unfold nothing_open, disposed. cbn.
    repeat split; intros f Hf.
    - destruct b; by simplify_eq/=.
    - destruct g as [[?|]|]; by simplify_eq/=.
    - destruct c as [[?|]|]; by simplify_eq/=.
    - destruct a as [[?|]|]; by simplify_eq/=. }
  split.
  { intros Hclosed. by rewrite CiceBryHax_del_run, disposed_closed. }
  split; [apply CiceBry_del_run|].
  split.
  { rewrite CiceBry_del_run. f_equal.
    destruct o as [? ? ? ? ? ? ? b ? g ? c ? a ? ? ?]. by destruct b. }
  intros w bry_file0 mode0 fmt overwrite Hr Hw.
  destruct (init_invalid_mode w bry_file0 mode0 fmt overwrite Hr Hw)
    as (o1 & Hinit & Hb & Hg & Hc & Ha).
  exists o1. split; [done|]. split; [done|].
  assert (Hno : nothing_open o1).
  { unfold nothing_open. rewrite Hb, Hg, Hc, Ha. by repeat split. }
  split.
  - by rewrite CiceBryHax_del_run, disposed_closed.
  - rewrite CiceBry_del_run, Hb. destruct o1; simpl in *; by subst.
Qed.

(** ** The restart source cannot be attached *)

Lemma contains_char_spec (c : ascii) (s : string) :
  PyStr.contains_char c s = true <-> c ∈ String.list_ascii_of_string s.
Proof.
  induction s as [|a s IH]; simpl.
  - split; [done|]. intros Hin. by apply elem_of_nil in Hin.
  - case_decide as Ha.
    + subst. split; [|done]. intros _. apply elem_of_cons. by left.
    + rewrite IH, elem_of_cons. split; [by right|]. intros [?|?]; [congruence|done].
Qed.

Lemma wildcard_test (s : string) :
  existsb (fun c => PyStr.contains_char c s) ["*"; "?"]%char = true <->
  has_wildcard s.
Proof.
  unfold has_wildcard. simpl. rewrite orb_false_r, orb_true_iff.
  by rewrite !contains_char_spec.
Qed.

(** C10. For every argument [set_cice_rst] raises a [NameError] and leaves
    [self.cice] as it was: with a wildcard in the argument the name is
    [glob] and the object is untouched; otherwise [self.cice_file] has been
    set and the name is [cice_files]. *)
Theorem set_cice_rst_always_fails (w : World) (cice_file0 : string)
    (o : CiceBryHax) :
  exists nm o',
    set_cice_rst w cice_file0 o = (Raise (NameError nm), o') /\
    cice o' = cice o /\
    (has_wildcard cice_file0 -> nm = "glob" /\ o' = o) /\
    (~ has_wildcard cice_file0 ->
       nm = "cice_files" /\ o' = with_cice_file o (Some [cice_file0])).
Proof.
  unfold set_cice_rst.
  destruct (existsb _ _) eqn:Hw.
  - apply wildcard_test in Hw. exists "glob", o.
    split; [reflexivity|]. split; [done|]. split; [done|]. done.
  - exists "cice_files", (with_cice_file o (Some [cice_file0])).
    split; [reflexivity|]. split; [done|]. split; [|done].
    intros Hyes. apply wildcard_test in Hyes. congruence.
Qed.


(* ===================================================================== *)
(** ** Setting up the object: dimensions, attributes, files *)
(* ===================================================================== *)

Lemma allowed_dims (k : string) :
  k ∈ (map_to_list self_dims).*2 <-> k ∈ dim_names.
Proof.
  vm_compute (map_to_list self_dims).*2. unfold dim_names.
  rewrite !elem_of_cons, !elem_of_nil. tauto.
Qed.

Lemma set_dims_names_ok (sizes : gmap string Z) :
  (forall k, is_Some (sizes !! k) -> k ∈ dim_names) ->
  list_find (fun kv : string * Z => kv.1 ∉ (map_to_list self_dims).*2)
            (map_to_list sizes) = None.
Proof.
  intros Hok. apply list_find_None, list.Forall_forall. intros [k v] Hkv Hbad.
  apply elem_of_map_to_list in Hkv. apply Hbad. cbn.
  apply allowed_dims, Hok. eauto.
Qed.

Lemma required_dims_test (ds : gmap string Z) :
  forallb (fun dn => bool_decide (is_Some (ds !! dn)))
          (map_to_list self_dims).*2 = true
  <-> forall d, d ∈ dim_names -> is_Some (ds !! d).
Proof.
  rewrite forallb_forall. split.
  - intros Hall d Hd. apply allowed_dims, list_elem_of_In in Hd.
    apply Hall in Hd. by apply bool_decide_eq_true in Hd.
  - intros Hall d Hd. apply bool_decide_eq_true, Hall, allowed_dims.
    by apply list_elem_of_In.
Qed.

(** X1. With [auto_time], valid names, both dates set and the four other
    dimensions given, [set_dims] stores the sizes with the time dimension
    set to the number of whole days from the start to the end date plus one,
    whatever size was passed for it. *)
Theorem set_dims_auto_time (sizes : gmap string Z) (sd ed : Z)
    (o : CiceBryHax) :
  (forall k, is_Some (sizes !! k) -> k ∈ dim_names) ->
  (forall d, d ∈ dim_names -> d <> "days" -> is_Some (sizes !! d)) ->
  start_date o = Some sd -> end_date o = Some ed ->
  set_dims true sizes o =
    (Ok tt,
     with_dim_sizes o
       (Some (<["days" := ((ed - sd) `div` 86400000000 + 1)%Z]> sizes))).
Proof.
  intros Hnames Hreq Hsd Hed. unfold set_dims.
  rewrite set_dims_names_ok by done.
  unfold bind, get, put, ret. cbn [start_date end_date with_dim_sizes].
  rewrite Hsd, Hed. cbn [dim_sizes with_dim_sizes default].
  match goal with |- context [forallb ?p ?l] =>
    replace (forallb p l) with true end.
  - destruct o; reflexivity.
  - symmetry. apply required_dims_test. intros d Hd. unfold id.
    destruct (decide (d = "days")) as [->|Hne].
    + rewrite lookup_insert_eq. eauto.
    + rewrite lookup_insert_ne by done. by apply Hreq.
Qed.

Lemma set_dims_auto_time_witness :
  set_dims true (five_dims 99 5 7 3 4) ex_dated =
    (Ok tt,
     with_dim_sizes ex_dated
       (Some (<["days" := ((172800000000 - 86400000000) `div` 86400000000 + 1)%Z]>
                (five_dims 99 5 7 3 4)))).
Proof.
  apply (set_dims_auto_time (five_dims 99 5 7 3 4) 86400000000 172800000000
           ex_dated).
  - intros k Hk. apply (bool_decide_unpack _).
    destruct Hk as [v Hk]. unfold five_dims in Hk.
    repeat (apply lookup_insert_Some in Hk as [[<- _]|[_ Hk]]; [by vm_compute|]).
    apply lookup_singleton_Some in Hk as [<- _]. by vm_compute.
  - intros d Hd _. unfold dim_names in Hd.
    rewrite !elem_of_cons, elem_of_nil in Hd.
    destruct Hd as [->|[->|[->|[->|[->|[]]]]]]; vm_compute; eauto.
  - reflexivity.
  - reflexivity.
Defined.

(** X2. A size passed under a name that is not one of the five dimensions makes
    [set_dims] raise a [ValueError] that names such a name, and the object is
    left as it was. *)
Theorem set_dims_invalid_name (auto_time : bool) (sizes : gmap string Z)
    (o : CiceBryHax) (k0 : string) :
  is_Some (sizes !! k0) -> k0 ∉ dim_names ->
  exists k,
    is_Some (sizes !! k) /\ (k ∉ dim_names) /\
    set_dims auto_time sizes o =
      (Raise (ValueError ("Invalid dimension " +:+ k +:+
         ". Must be dict_values(['days', 'ice_types', 'nkice', 'xi_t', 'eta_t'])!")),
       o).
Proof.
  intros [v0 Hk0] Hbad. unfold set_dims.
  destruct (list_find _ (map_to_list sizes)) as [[i [k v]]|] eqn:Hfind.
  - apply list_find_Some in Hfind as (Hkv & Hk & _).
    apply list_elem_of_lookup_2, elem_of_map_to_list in Hkv.
    exists k. split; [eauto|]. split; [|done].
    intros Hin. apply Hk. cbn. by apply allowed_dims.
  - exfalso. apply list_find_None in Hfind. rewrite list.Forall_forall in Hfind.
    apply (Hfind (k0, v0)).
    + by apply elem_of_map_to_list.
    + cbn. intros Hin. by apply Hbad, allowed_dims.
Qed.

Lemma set_dims_invalid_name_witness :
  exists k,
    is_Some (({[ "depth" := 3%Z ]} : gmap string Z) !! k) /\ (k ∉ dim_names) /\
    set_dims false {[ "depth" := 3%Z ]} blank =
      (Raise (ValueError ("Invalid dimension " +:+ k +:+
         ". Must be dict_values(['days', 'ice_types', 'nkice', 'xi_t', 'eta_t'])!")),
       blank).
Proof.
  apply (set_dims_invalid_name false {[ "depth" := 3%Z ]} blank "depth").
  - vm_compute. eauto.
  - apply (bool_decide_unpack _). by vm_compute.
Defined.

(** X3. The sizes are stored before the later checks: when the names are valid
    but a required dimension is missing, or when [auto_time] is asked for
    and a date is not set, [set_dims] raises a [ValueError] and the object
    nevertheless holds the sizes that were passed. *)
Theorem set_dims_stores_before_checks (sizes : gmap string Z)
    (o : CiceBryHax) :
  (forall k, is_Some (sizes !! k) -> k ∈ dim_names) ->
  ((exists d, d ∈ dim_names /\ sizes !! d = None) ->
   set_dims false sizes o =
     (Raise (ValueError
        "Required dimensions are dict_values(['days', 'ice_types', 'nkice', 'xi_t', 'eta_t'])!"),
      with_dim_sizes o (Some sizes))) /\
  (start_date o = None \/ end_date o = None ->
   set_dims true sizes o =
     (Raise (ValueError
        "Both self.start_date and self.end_date must be non-None!"),
      with_dim_sizes o (Some sizes))).
Proof.
  intros Hnames. unfold set_dims. rewrite set_dims_names_ok by done. split.
  - intros (d & Hd & Hnone).
    unfold bind, get, ret, raise. cbn [dim_sizes with_dim_sizes default].
    match goal with |- context [forallb ?p ?l] =>
      replace (forallb p l) with false end; [reflexivity|].
    symmetry. apply not_true_is_false. intros Hall. unfold id in Hall.
    destruct (proj1 (required_dims_test sizes) Hall d Hd) as [x Hx].
    congruence.
  - intros Hdate. unfold bind, get, raise.
    cbn [start_date end_date with_dim_sizes].
    destruct Hdate as [-> | Hed]; [reflexivity|].
    rewrite Hed. by destruct (start_date o).
Qed.

Lemma set_dims_stores_before_checks_witness :
  ((exists d, d ∈ dim_names /\ ({[ "nkice" := 7%Z ]} : gmap string Z) !! d = None) ->
   set_dims false {[ "nkice" := 7%Z ]} blank =
     (Raise (ValueError
        "Required dimensions are dict_values(['days', 'ice_types', 'nkice', 'xi_t', 'eta_t'])!"),
      with_dim_sizes blank (Some {[ "nkice" := 7%Z ]}))) /\
  (start_date blank = None \/ end_date blank = None ->
   set_dims true {[ "nkice" := 7%Z ]} blank =
     (Raise (ValueError
        "Both self.start_date and self.end_date must be non-None!"),
      with_dim_sizes blank (Some {[ "nkice" := 7%Z ]}))).
Proof.
  apply (set_dims_stores_before_checks {[ "nkice" := 7%Z ]} blank).
  intros k [v Hk]. apply lookup_singleton_Some in Hk as [<- _].
  apply (bool_decide_unpack _). by vm_compute.
Defined.

(** *** Attributes of the catalogue and of the file *)

Lemma with_bry_same (o : CiceBryHax) (f : BryFile) :
  bry o = Some f -> with_bry o (Some f) = o.
Proof. intros Hf. destruct o; simpl in *; by subst. Qed.

Lemma with_bry_twice (o : CiceBryHax) (h1 h2 : option BryFile) :
  with_bry (with_bry o h1) h2 = with_bry o h2.
Proof. by destruct o. Qed.

Lemma setattr_loop (nm : string) (l : list (string * pyval))
    (o : CiceBryHax) (f : BryFile) :
  bry o = Some f -> nm ∈ f_vars f ->
  (forall kv, kv ∈ l -> kv.2 <> PNone) ->
  for_each l (fun kv => var_setattr nm kv.1 kv.2) o =
    (Ok tt,
     with_bry o (Some (bry_set_vattrs f
       (foldl (fun m (kv : string * pyval) => <[(nm, kv.1) := kv.2]> m)
              (f_vattrs f) l)))).
Proof.
  revert o f. induction l as [|[k x] l IH]; intros o f Hf Hnm Hlegal.
  - cbn [for_each foldl]. unfold ret. f_equal. symmetry.
    rewrite <- (with_bry_same o f Hf) at 2. by destruct f.
  - cbn [for_each foldl]. unfold bind at 1, var_setattr at 1.
    unfold bind at 1, get_bry. rewrite Hf. cbn [fst snd].
    rewrite decide_True by done.
    assert (Hx : x <> PNone) by (apply (Hlegal (k, x)); by left).
    assert (Hstep : (match x with
                     | PNone => raise (TypeError "illegal data type for attribute")
                     | _ => put_bry (bry_set_vattrs f
                              (<[(nm, k) := x]> (f_vattrs f)))
                     end) o
                    = (Ok tt, with_bry o (Some (bry_set_vattrs f
                                (<[(nm, k) := x]> (f_vattrs f))))))
      by (by destruct x).
    rewrite Hstep.
    rewrite (IH _ (bry_set_vattrs f (<[(nm, k) := x]> (f_vattrs f))));
      [|reflexivity|done|].
    + by rewrite with_bry_twice.
    + intros kv Hkv. apply Hlegal. by right.
Qed.

Lemma setattrs_loop (vs : list BryVar) (o : CiceBryHax) (f : BryFile) :
  bry o = Some f ->
  (forall v, v ∈ vs -> name v ∈ f_vars f) ->
  (forall v, v ∈ vs -> legal_attrs v) ->
  for_each vs (fun var =>
    for_each (map_to_list (attrs var)) (fun kv =>
      var_setattr (name var) kv.1 kv.2)) o =
    (Ok tt,
     with_bry o (Some (bry_set_vattrs f (attrs_written vs (f_vattrs f))))).
Proof.
  revert o f. induction vs as [|v vs IH]; intros o f Hf Hnames Hlegal.
  - cbn [for_each]. unfold ret, attrs_written. cbn [foldl]. f_equal. symmetry.
    rewrite <- (with_bry_same o f Hf) at 2. by destruct f.
  - cbn [for_each]. unfold bind at 1.
    rewrite (setattr_loop (name v) _ o f Hf).
    + rewrite (IH _ (bry_set_vattrs f (setattrs v (f_vattrs f))));
        [|reflexivity| |].
      * by rewrite with_bry_twice.
      * intros w Hw. cbn. apply Hnames. by right.
      * intros w Hw. apply Hlegal. by right.
    + apply Hnames. by left.
    + intros [k x] Hkx. apply elem_of_map_to_list in Hkx.
      exact (Hlegal v ltac:(by left) k x Hkx).
Qed.

Lemma write_var_attrs_value (o : CiceBryHax) (f : BryFile) :
  bry o = Some f ->
  (forall v, v ∈ bry_vars o -> name v ∈ f_vars f) ->
  (forall v, v ∈ bry_vars o -> legal_attrs v) ->
  write_var_attrs o =
    (Ok tt,
     with_bry o (Some (bry_set_vattrs f
                         (attrs_written (bry_vars o) (f_vattrs f))))).
Proof.
  intros Hf Hnames Hlegal. unfold write_var_attrs, bind, get.
  by apply setattrs_loop.
Qed.

Lemma foldl_setattr_lookup (nm : string) (l : list (string * pyval))
    (m : gmap (string * string) pyval) (n k : string) :
  NoDup l.*1 ->
  foldl (fun m (kv : string * pyval) => <[(nm, kv.1) := kv.2]> m) m l
    !! (n, k)
  = if decide (n = nm)
    then match (list_to_map l : gmap string pyval) !! k with
         | Some x => Some x
         | None => m !! (n, k)
         end
    else m !! (n, k).
Proof.
  revert m. induction l as [|[k0 x0] l IH]; intros m Hnd.
  - cbn. by case_decide.
  - cbn [foldl]. apply list.NoDup_cons in Hnd as [Hk0 Hnd].
    rewrite IH by done. case_decide as Hn.
    + subst n. cbn [list_to_map foldr fst snd].
      destruct (decide (k = k0)) as [->|Hne].
      * rewrite (not_elem_of_list_to_map_1 _ _ Hk0).
        by rewrite !lookup_insert_eq.
      * rewrite !lookup_insert_ne by congruence. done.
    + rewrite lookup_insert_ne by congruence. done.
Qed.

Lemma setattrs_lookup (v : BryVar) (m : gmap (string * string) pyval)
    (n k : string) :
  setattrs v m !! (n, k)
  = if decide (n = name v)
    then match attrs v !! k with Some x => Some x | None => m !! (n, k) end
    else m !! (n, k).
Proof.
  unfold setattrs. rewrite foldl_setattr_lookup by apply NoDup_fst_map_to_list.
  by rewrite list_to_map_to_list.
Qed.

Lemma attrs_written_other (vs : list BryVar)
    (m : gmap (string * string) pyval) (n k : string) :
  (forall v, v ∈ vs -> name v = n -> attrs v !! k = None) ->
  attrs_written vs m !! (n, k) = m !! (n, k).
Proof.
  revert m. induction vs as [|v vs IH]; intros m Hnone; [done|].
  unfold attrs_written. cbn [foldl]. fold (attrs_written vs (setattrs v m)).
  rewrite IH by (intros w Hw; apply Hnone; by right).
  rewrite setattrs_lookup. case_decide as Hn; [|done].
  by rewrite (Hnone v ltac:(by left) (eq_sym Hn)).
Qed.

Lemma attrs_written_lookup (vs : list BryVar)
    (m : gmap (string * string) pyval) (v : BryVar) (k : string) (x : pyval) :
  NoDup (map name vs) -> v ∈ vs -> attrs v !! k = Some x ->
  attrs_written vs m !! (name v, k) = Some x.
Proof.
  revert m. induction vs as [|w vs IH]; intros m Hnd Hv Hk.
  - by apply elem_of_nil in Hv.
  - cbn [map] in Hnd. apply list.NoDup_cons in Hnd as [Hw Hnd].
    unfold attrs_written. cbn [foldl]. fold (attrs_written vs (setattrs w m)).
    apply elem_of_cons in Hv as [->|Hv].
    + rewrite attrs_written_other.
      * rewrite setattrs_lookup, decide_True by done. by rewrite Hk.
      * intros u Hu Hname. exfalso. apply Hw. rewrite <- Hname.
        change (map name vs) with (name <$> vs). by apply list_elem_of_fmap_2.
    + by apply IH.
Qed.

(** X4. When the names of the catalogue are distinct, its variables are in the
    file and its attribute values are text or numbers, [write_var_attrs]
    completes; afterwards every attribute of every catalogue entry is read
    back from the file, an attribute of the file that the catalogue does not
    have is kept, and the variables, dimensions and data of the file are as
    before. *)
Theorem write_var_attrs_read_back (o : CiceBryHax) (f : BryFile) :
  bry o = Some f ->
  NoDup (map name (bry_vars o)) ->
  (forall v, v ∈ bry_vars o -> name v ∈ f_vars f) ->
  (forall v, v ∈ bry_vars o -> legal_attrs v) ->
  exists f',
    write_var_attrs o = (Ok tt, with_bry o (Some f')) /\
    (forall v k x, v ∈ bry_vars o -> attrs v !! k = Some x ->
       f_vattrs f' !! (name v, k) = Some x) /\
    (forall n k,
       (forall v, v ∈ bry_vars o -> name v = n -> attrs v !! k = None) ->
       f_vattrs f' !! (n, k) = f_vattrs f !! (n, k)) /\
    f_vars f' = f_vars f /\ f_dims f' = f_dims f /\ f_data f' = f_data f /\
    f_gattrs f' = f_gattrs f /\ f_open f' = f_open f.
Proof.
  intros Hf Hnd Hnames Hlegal. eexists. split.
  - by apply write_var_attrs_value.
  - cbn. split; [|split; [|done]].
    + intros v k x Hv Hk. by apply attrs_written_lookup.
    + intros n k Hnone. by apply attrs_written_other.
Qed.

Lemma write_var_attrs_read_back_witness :
  let v := mkBryVar "Time" np_int16 ["days"] {[ "units" := PStr "days" ]} in
  let f := mkBry true ∅ ["Time"] ∅ {[ ("Time", "axis") := PStr "T" ]} ∅ in
  let o := with_bry_vars (with_bry blank (Some f)) [v] in
  exists f',
    write_var_attrs o = (Ok tt, with_bry o (Some f')) /\
    (forall v k x, v ∈ bry_vars o -> attrs v !! k = Some x ->
       f_vattrs f' !! (name v, k) = Some x) /\
    (forall n k,
       (forall v, v ∈ bry_vars o -> name v = n -> attrs v !! k = None) ->
       f_vattrs f' !! (n, k) = f_vattrs f !! (n, k)) /\
    f_vars f' = f_vars f /\ f_dims f' = f_dims f /\ f_data f' = f_data f /\
    f_gattrs f' = f_gattrs f /\ f_open f' = f_open f.
Proof.
  intros v f o.
  apply (write_var_attrs_read_back o f).
  - reflexivity.
  - apply (bool_decide_unpack _). by vm_compute.
  - intros w Hw. apply list_elem_of_singleton in Hw as ->. cbn. by left.
  - intros w Hw k x Hk. apply list_elem_of_singleton in Hw as ->.
    cbn in Hk. apply lookup_singleton_Some in Hk as [_ <-]. discriminate.
Defined.

(** X5. [write_var_attrs] looks a variable up in the file only when it has an
    attribute to write: entries without attributes are passed over, and the
    first entry with an attribute whose variable is not in the file ends the
    method with a [KeyError] for its name; the variables and the data of the
    file are as before. *)
Theorem write_var_attrs_missing_variable (o : CiceBryHax) (f : BryFile)
    (vs1 vs2 : list BryVar) (v : BryVar) :
  bry o = Some f ->
  bry_vars o = vs1 ++ v :: vs2 ->
  (forall w, w ∈ vs1 -> attrs w = ∅ \/ (name w ∈ f_vars f /\ legal_attrs w)) ->
  name v ∉ f_vars f -> attrs v <> ∅ ->
  exists f',
    write_var_attrs o = (Raise (KeyError (name v)), with_bry o (Some f')) /\
    f_vars f' = f_vars f /\ f_data f' = f_data f.
Proof.
  intros Hf Hvs Hpre Hv Hne. unfold write_var_attrs, bind at 1, get.
  rewrite Hvs. clear Hvs.
  assert (Hgen : forall o f, bry o = Some f ->
            (forall w, w ∈ vs1 ->
               attrs w = ∅ \/ (name w ∈ f_vars f /\ legal_attrs w)) ->
            name v ∉ f_vars f ->
            exists f',
              for_each (vs1 ++ v :: vs2) (fun var =>
                for_each (map_to_list (attrs var)) (fun kv =>
                  var_setattr (name var) kv.1 kv.2)) o
              = (Raise (KeyError (name v)), with_bry o (Some f')) /\
              f_vars f' = f_vars f /\ f_data f' = f_data f).
  { clear o f Hf Hpre Hv.
    induction vs1 as [|w vs1 IH]; intros o f Hf Hpre Hv.
    - exists f. cbn [app for_each]. split; [|done].
      destruct (map_to_list (attrs v)) as [|[k x] l] eqn:Hl.
      { by apply map_to_list_empty_iff in Hl. }
      assert (Hstep : var_setattr (name v) k x o
                      = (Raise (KeyError (name v)), o)).
      { unfold var_setattr, bind, get_bry. cbv beta. rewrite Hf.
        by rewrite decide_False by done. }
      cbn [for_each fst snd].
      rewrite (bind_raise _ _ _ _ _ (bind_raise _ _ _ _ _ Hstep)).
      by rewrite (with_bry_same o f Hf).
    - cbn [app for_each].
      destruct (Hpre w ltac:(by left)) as [Hempty|[Hw Hlegal]].
      + rewrite Hempty, map_to_list_empty. cbn [for_each].
        unfold bind at 1, ret.
        apply (IH o f Hf); [|done]. intros u Hu. apply Hpre. by right.
      + unfold bind at 1.
        rewrite (setattr_loop (name w) _ o f Hf Hw).
        2:{ intros [k x] Hkx. apply elem_of_map_to_list in Hkx.
            exact (Hlegal k x Hkx). }
        destruct (IH (with_bry o (Some (bry_set_vattrs f (setattrs w (f_vattrs f)))))
                     (bry_set_vattrs f (setattrs w (f_vattrs f))))
          as (f' & Hrun & Hv' & Hd'); [reflexivity| |done|].
        { intros u Hu. apply Hpre. by right. }
        exists f'. fold (setattrs w (f_vattrs f)).
        rewrite Hrun, with_bry_twice. done. }
  by apply Hgen.
Qed.

Lemma write_var_attrs_missing_variable_witness :
  let v := mkBryVar "Time" np_int16 ["days"] {[ "units" := PStr "days" ]} in
  let w := mkBryVar "Ice_layers" np_int16 ["nkice"] ∅ in
  let f := mkBry true ∅ [] ∅ ∅ ∅ in
  let o := with_bry_vars (with_bry blank (Some f)) [w; v] in
  exists f',
    write_var_attrs o = (Raise (KeyError (name v)), with_bry o (Some f')) /\
    f_vars f' = f_vars f /\ f_data f' = f_data f.
Proof.
  intros v w f o.
  apply (write_var_attrs_missing_variable o f [w] [] v).
  - reflexivity.
  - reflexivity.
  - intros u Hu. apply list_elem_of_singleton in Hu as ->. by left.
  - cbn. apply not_elem_of_nil.
  - cbn. intros Hbad. apply (f_equal (fun m => m !! "units")) in Hbad.
    by rewrite lookup_singleton_eq, lookup_empty in Hbad.
Defined.

Lemma index_of_first (var_name : string) (names : list string) (i : nat) :
  names !! i = Some var_name ->
  (forall j n, j < i -> names !! j = Some n -> n <> var_name) ->
  index_of var_name names = Ok i.
Proof.
  intros Hi Hfirst. unfold index_of.
  destruct (list_find _ names) as [[j n]|] eqn:Hfind.
  - apply list_find_Some in Hfind as (Hj & -> & Hbefore). f_equal.
    destruct (Nat.lt_trichotomy i j) as [Hlt|[->|Hgt]]; [|done|].
    + exfalso. by apply (Hbefore i var_name).
    + exfalso. by apply (Hfirst j var_name).
  - apply list_find_None in Hfind. rewrite list.Forall_forall in Hfind.
    exfalso. apply (Hfind var_name); [|done]. by eapply list_elem_of_lookup_2.
Qed.

Lemma index_of_absent (var_name : string) (names : list string) :
  var_name ∉ names ->
  index_of var_name names = Raise (ValueError (var_name +:+ " is not in list")).
Proof.
  intros Hnot. unfold index_of.
  destruct (list_find _ names) as [[j n]|] eqn:Hfind; [|done].
  apply list_find_Some in Hfind as (Hj & -> & _).
  exfalso. apply Hnot. by eapply list_elem_of_lookup_2.
Qed.

Lemma index_of_present (var_name : string) (names : list string) :
  var_name ∈ names ->
  exists i, index_of var_name names = Ok i /\ names !! i = Some var_name.
Proof.
  intros Hin. unfold index_of.
  destruct (list_find _ names) as [[j n]|] eqn:Hfind.
  - apply list_find_Some in Hfind as (Hj & -> & _). eauto.
  - apply list_find_None in Hfind. rewrite list.Forall_forall in Hfind.
    exfalso. by apply (Hfind var_name).
Qed.

Lemma map_name_alter (g : BryVar -> BryVar) (i : nat) (l : list BryVar) :
  (forall v, name (g v) = name v) ->
  map name (alter g i l) = map name l.
Proof.
  intros Hg. change (map name ?l) with (name <$> l).
  apply list_eq. intros j. rewrite !list_lookup_fmap.
  destruct (decide (i = j)) as [->|Hne].
  - rewrite list_lookup_alter_eq. destruct (l !! j); cbn; [|done].
    by rewrite Hg.
  - by rewrite list_lookup_alter_ne.
Qed.

(** X6. For a name that no catalogue entry has, [set_var_attr] raises a
    [ValueError] and changes neither the catalogue nor the file, whether the
    file was to be updated or not. *)
Theorem set_var_attr_unknown_variable (var_name attr_name : string)
    (attr_val : pyval) (update_file : bool) (o : CiceBryHax) :
  var_name ∉ map name (bry_vars o) ->
  exists msg,
    set_var_attr var_name attr_name attr_val update_file o
    = (Raise (ValueError msg), o).
Proof.
  intros Hnot. eexists. unfold set_var_attr, bind, get, lift. cbv beta.
  by rewrite (index_of_absent _ _ Hnot).
Qed.

Lemma set_var_attr_unknown_variable_witness :
  exists msg,
    set_var_attr "Tsfc" "units" (PStr "K") true ex_run_obj
    = (Raise (ValueError msg), ex_run_obj).
Proof.
  apply (set_var_attr_unknown_variable "Tsfc" "units" (PStr "K") true
           ex_run_obj).
  apply (bool_decide_unpack _). by vm_compute.
Defined.

(** X7. Without [update_file], [set_var_attr] sets the attribute on the first
    catalogue entry of the given name and on no other: the other entries,
    the other attributes of that entry, its name, type and dimensions, and
    everything else of the object, the file included, are as before. *)
Theorem set_var_attr_first_entry (var_name attr_name : string)
    (attr_val : pyval) (o : CiceBryHax) (i : nat) (v : BryVar) :
  bry_vars o !! i = Some v ->
  name v = var_name ->
  (forall j w, j < i -> bry_vars o !! j = Some w -> name w <> var_name) ->
  exists vs',
    set_var_attr var_name attr_name attr_val false o
    = (Ok tt, with_bry_vars o vs') /\
    length vs' = length (bry_vars o) /\
    (forall j, j <> i -> vs' !! j = bry_vars o !! j) /\
    exists v',
      vs' !! i = Some v' /\
      name v' = name v /\ dtype_ v' = dtype_ v /\ dims v' = dims v /\
      attrs v' !! attr_name = Some attr_val /\
      (forall k, k <> attr_name -> attrs v' !! k = attrs v !! k).
Proof.
  intros Hi Hname Hfirst. eexists. split; [|split; [|split]].
  - unfold set_var_attr, bind, get, lift, put, ret. cbv beta.
    rewrite (index_of_first var_name (map name (bry_vars o)) i).
    + reflexivity.
    + change (map name ?l) with (name <$> l).
      by rewrite list_lookup_fmap, Hi, <- Hname.
    + intros j n Hj Hn. change (map name ?l) with (name <$> l) in Hn.
      rewrite list_lookup_fmap in Hn.
      destruct (bry_vars o !! j) as [w|] eqn:Hw; [|done].
      injection Hn as <-. by apply (Hfirst j).
  - by rewrite length_alter.
  - intros j Hj. by rewrite list_lookup_alter_ne.
  - eexists. split.
    + by rewrite list_lookup_alter_eq, Hi.
    + cbn. repeat split; [by rewrite lookup_insert_eq|].
      intros k Hk. by rewrite lookup_insert_ne.
Qed.

Lemma set_var_attr_first_entry_witness :
  let v := mkBryVar "Time" np_int16 ["days"] ∅ in
  exists vs',
    set_var_attr "Time" "units" (PStr "hours") false ex_run_obj
    = (Ok tt, with_bry_vars ex_run_obj vs') /\
    length vs' = length (bry_vars ex_run_obj) /\
    (forall j, j <> 0 -> vs' !! j = bry_vars ex_run_obj !! j) /\
    exists v',
      vs' !! 0 = Some v' /\
      name v' = name v /\ dtype_ v' = dtype_ v /\ dims v' = dims v /\
      attrs v' !! "units" = Some (PStr "hours") /\
      (forall k, k <> "units" -> attrs v' !! k = attrs v !! k).
Proof.
  intros v.
  apply (set_var_attr_first_entry "Time" "units" (PStr "hours") ex_run_obj 0 v).
  - reflexivity.
  - reflexivity.
  - intros j w Hj. lia.
Defined.

(** X8. With [update_file], distinct catalogue names, the catalogue's variables
    in the file and attribute values that are text or numbers,
    [set_var_attr] completes; the new value is then held both by the
    catalogue entry and by the file, and the names of the catalogue and the
    variables and data of the file are as before. *)
Theorem set_var_attr_updates_file (var_name attr_name : string)
    (attr_val : pyval) (o : CiceBryHax) (f : BryFile) :
  bry o = Some f ->
  NoDup (map name (bry_vars o)) ->
  (forall v, v ∈ bry_vars o -> name v ∈ f_vars f) ->
  (forall v, v ∈ bry_vars o -> legal_attrs v) ->
  attr_val <> PNone ->
  var_name ∈ map name (bry_vars o) ->
  exists o' f' v',
    set_var_attr var_name attr_name attr_val true o = (Ok tt, o') /\
    bry o' = Some f' /\
    f_vattrs f' !! (var_name, attr_name) = Some attr_val /\
    v' ∈ bry_vars o' /\ name v' = var_name /\
    attrs v' !! attr_name = Some attr_val /\
    map name (bry_vars o') = map name (bry_vars o) /\
    f_vars f' = f_vars f /\ f_data f' = f_data f.
Proof.
  intros Hf Hnd Hnames Hlegal Hval Hin.
  destruct (index_of_present _ _ Hin) as (i & Hidx & Hi).
  change (map name ?l) with (name <$> l) in Hi.
  rewrite list_lookup_fmap in Hi.
  destruct (bry_vars o !! i) as [v|] eqn:Hv; [|done]. injection Hi as Hname.
  set (vs' := alter (fun v => mkBryVar (name v) (dtype_ v) (dims v)
                                (<[attr_name := attr_val]> (attrs v)))
                    i (bry_vars o)).
  assert (Hnames' : map name vs' = map name (bry_vars o)).
  { unfold vs'. by apply map_name_alter. }
  assert (Hsub : forall w, w ∈ vs' -> name w ∈ map name (bry_vars o)).
  { intros w Hw. rewrite <- Hnames'. change (map name ?l) with (name <$> l).
    by apply list_elem_of_fmap_2. }
  assert (Hin' : set_attr attr_name attr_val v ∈ vs').
  { apply (list_elem_of_lookup_2 _ i). unfold vs'.
    by rewrite list_lookup_alter_eq, Hv. }
  assert (Hrun : set_var_attr var_name attr_name attr_val true o
                 = write_var_attrs (with_bry_vars o vs')).
  { unfold set_var_attr, bind at 1, get. unfold bind at 1, lift.
    rewrite Hidx. reflexivity. }
  rewrite Hrun.
  rewrite (write_var_attrs_value (with_bry_vars o vs') f Hf).
  - do 3 eexists. split; [reflexivity|]. cbn.
    split; [reflexivity|]. cbn.
    split.
    { rewrite <- Hname at 1.
      apply (attrs_written_lookup vs' _ (set_attr attr_name attr_val v));
        [by rewrite Hnames'|done|].
      cbn. by rewrite lookup_insert_eq. }
    split; [exact Hin'|]. split; [done|].
    split; [cbn; by rewrite lookup_insert_eq|]. done.
  - cbn. intros w Hw. apply Hsub in Hw.
    change (map name ?l) with (name <$> l) in Hw.
    apply list_elem_of_fmap in Hw as (u & -> & Hu). by apply Hnames.
  - cbn. intros w Hw. unfold vs' in Hw.
    apply list_elem_of_lookup in Hw as [j Hj].
    destruct (decide (j = i)) as [->|Hne].
    + rewrite list_lookup_alter_eq, Hv in Hj. injection Hj as <-.
      intros k x Hk. cbn in Hk.
      apply lookup_insert_Some in Hk as [[_ <-]|[_ Hk]]; [done|].
      apply (Hlegal v (list_elem_of_lookup_2 _ _ _ Hv) k x Hk).
    + rewrite list_lookup_alter_ne in Hj by done.
      apply (Hlegal w (list_elem_of_lookup_2 _ _ _ Hj)).
Qed.

Lemma set_var_attr_updates_file_witness :
  exists o' f' v',
    set_var_attr "Time" "units" (PStr "hours") true ex_run_obj = (Ok tt, o') /\
    bry o' = Some f' /\
    f_vattrs f' !! ("Time", "units") = Some (PStr "hours") /\
    v' ∈ bry_vars o' /\ name v' = "Time" /\
    attrs v' !! "units" = Some (PStr "hours") /\
    map name (bry_vars o') = map name (bry_vars ex_run_obj) /\
    f_vars f' = f_vars ex_run_file /\ f_data f' = f_data ex_run_file.
Proof.
  apply (set_var_attr_updates_file "Time" "units" (PStr "hours")
           ex_run_obj ex_run_file).
  - reflexivity.
  - apply (bool_decide_unpack _). by vm_compute.
  - intros v Hv. apply list_elem_of_singleton in Hv as ->.
    apply (bool_decide_unpack _). by vm_compute.
  - intros v Hv k x Hk. apply list_elem_of_singleton in Hv as ->.
    cbn in Hk. by rewrite lookup_empty in Hk.
  - discriminate.
  - apply (bool_decide_unpack _). by vm_compute.
Defined.

(** *** Global attributes, construction, sources *)



(** X10. Construction in write mode: when the file exists and [overwrite] is
    off, the constructor raises an [IOError] that names the file and no
    handle is attached, the catalogue having been loaded before; in every
    other case it attaches a new, open, empty file, whatever the file on
    disk holds, with no dates, no dimension sizes and no sources. *)
Theorem init_write_mode (w : World) (bry_file0 fmt : string)
    (overwrite : bool) :
  exists o,
    map name (bry_vars o) = catalog_names /\
    mode o = "w" /\ bry_file o = bry_file0 /\
    dim_sizes o = None /\ start_date o = None /\ end_date o = None /\
    if bool_decide (is_Some (bry_files w !! bry_file0)) && negb overwrite
    then
      CiceBryHax_init w bry_file0 "w" fmt overwrite blank =
        (Raise (IOError ("File " +:+ bry_file0 +:+
                         " exists! Change <bry_file>, <mode> or <overwrite>")),
         o) /\
      bry o = None /\ grid o = None /\ clm o = None /\ atm o = None
    else
      CiceBryHax_init w bry_file0 "w" fmt overwrite blank = (Ok tt, o) /\
      bry o = Some empty_bry /\
      grid o = Some None /\ clm o = Some None /\ atm o = Some None.
Proof.
  destruct load_bry_vars_ok as (vs & Hl & Hn & _).
  unfold CiceBryHax_init, CiceBry_init. rewrite Hl. clear Hl.
  rewrite !decide_False by discriminate. rewrite !decide_True by reflexivity.
  destruct (bool_decide (is_Some (bry_files w !! bry_file0)) && negb overwrite).
  - eexists. repeat split; [exact Hn|..]; reflexivity.
  - eexists. repeat split; [exact Hn|..]; reflexivity.
Qed.

(** X11. The setters of the sources record the file name before they open the
    file: for a path at which there is no file they raise an [IOError], the
    new name is stored, and the handle is the one attached before. *)
Theorem set_source_missing_file (w : World) (fn : string) (o : CiceBryHax) :
  src_files w !! fn = None ->
  exists msg,
    set_grid w fn o
      = (Raise (IOError msg), with_grid o (Some fn) (grid o)) /\
    set_clm w fn o
      = (Raise (IOError msg), with_clm o (Some fn) (clm o)) /\
    set_atm w fn o
      = (Raise (IOError msg), with_atm o (Some fn) (atm o)).
Proof.
  intros Hnone. eexists.
  unfold set_grid, set_clm, set_atm, bind, lift, open_src. cbv beta.
  rewrite Hnone. done.
Qed.

Lemma set_source_missing_file_witness :
  exists msg,
    set_grid reordered_world "grid.nc" ex_run_obj
      = (Raise (IOError msg),
         with_grid ex_run_obj (Some "grid.nc") (grid ex_run_obj)) /\
    set_clm reordered_world "grid.nc" ex_run_obj
      = (Raise (IOError msg),
         with_clm ex_run_obj (Some "grid.nc") (clm ex_run_obj)) /\
    set_atm reordered_world "grid.nc" ex_run_obj
      = (Raise (IOError msg),
         with_atm ex_run_obj (Some "grid.nc") (atm ex_run_obj)).
Proof.
  apply (set_source_missing_file reordered_world "grid.nc" ex_run_obj).
  reflexivity.
Defined.

(* ===================================================================== *)
(** ** Index tuples of the boundaries *)
(* ===================================================================== *)

Lemma py_index_0 {A} (l : list A) : py_index l 0 = head l.
Proof.
  unfold py_index. rewrite decide_True by lia. by destruct l.
Qed.

Lemma py_index_last {A} (l : list A) : py_index l (-1) = list.last l.
Proof.
  unfold py_index. rewrite decide_False by lia.
  destruct l as [|x l]; [by rewrite decide_False by (cbn; lia)|].
  rewrite decide_True by (cbn [length]; lia).
  rewrite last_lookup. f_equal. cbn [length]. lia.
Qed.

Lemma py_index_nat {A} (l : list A) (i : nat) :
  py_index l (Z.of_nat i) = l !! i.
Proof. unfold py_index. rewrite decide_True by lia. by rewrite Nat2Z.id. Qed.

Lemma head_map {A B} (g : A -> B) (l : list A) : head (map g l) = g <$> head l.
Proof. by destruct l. Qed.

Lemma last_map {A B} (g : A -> B) (l : list A) :
  list.last (map g l) = g <$> list.last l.
Proof. change (map g l) with (g <$> l). apply fmap_last. Qed.

(** Reading one column. *)
Lemma read_column (pick : forall A, list A -> option A) (i : Z)
    (m : list (list Qc)) (v : list Qc) :
  (forall A (l : list A), py_index l i = pick A l) ->
  (forall A B (g : A -> B) l, pick B (map g l) = g <$> pick A l) ->
  mapM (pick Qc) m = Some v ->
  read1 (of_mat m) [All; I i] = Ok v.
Proof.
  intros Hpick Hmap Hv. unfold read1, of_mat.
  change (getitem [All; I i] (Arr (map of_vec m)))
    with (rbind (rmapM (getitem [I i]) (map of_vec m))
                (fun l' => Ok (Arr l'))).
  assert (Hone : forall row x, pick Qc row = Some x ->
            getitem [I i] (of_vec row) = Ok (Num x)).
  { intros row x Hx. unfold of_vec. cbn [getitem].
    by rewrite Hpick, Hmap, Hx. }
  assert (Hrows : rmapM (getitem [I i]) (map of_vec m) = Ok (map Num v)).
  { revert v Hv. induction m as [|row m IH]; intros v Hv.
    - cbn in Hv. injection Hv as <-. done.
    - cbn in Hv. destruct (pick Qc row) as [x|] eqn:Hx; [|done].
      cbn in Hv. destruct (mapM (pick Qc) m) as [v'|] eqn:Hm; [|done].
      cbn in Hv. injection Hv as <-.
      cbn [map rmapM]. rewrite (Hone row x Hx). cbn [rbind].
      by rewrite (IH v' eq_refl). }
  rewrite Hrows. cbn [rbind]. apply as_vec_of_vec.
Qed.

(** Reading one row. *)
Lemma read_row (pick : forall A, list A -> option A) (i : Z)
    (m : list (list Qc)) (v : list Qc) :
  (forall A (l : list A), py_index l i = pick A l) ->
  (forall A B (g : A -> B) l, pick B (map g l) = g <$> pick A l) ->
  pick _ m = Some v ->
  read1 (of_mat m) [I i; All] = Ok v.
Proof.
  intros Hpick Hmap Hv. unfold read1, of_mat.
  change (getitem [I i; All] (Arr (map of_vec m)))
    with (match py_index (map of_vec m) i with
          | Some x => getitem [All] x
          | None => Raise (IndexError "index out of bounds")
          end).
  rewrite Hpick, Hmap, Hv. cbn [fmap option_fmap option_map].
  unfold of_vec at 1. rewrite getitem_All_Arr. cbn [rbind]. apply as_vec_of_vec.
Qed.

Lemma read_edge (b : boundary) (m : list (list Qc)) (v : list Qc) :
  edge b m = Some v -> read1 (of_mat m) (grid_slice_2d b) = Ok v.
Proof.
  destruct b; cbn [edge grid_slice_2d]; intros Hv.
  - apply (read_column (@head) 0 m v); [apply @py_index_0|apply @head_map|done].
  - apply (read_row (@head) 0 m v); [apply @py_index_0|apply @head_map|done].
  - apply (read_column (@list.last) (-1) m v);
      [apply @py_index_last|apply @last_map|done].
  - apply (read_row (@list.last) (-1) m v);
      [apply @py_index_last|apply @last_map|done].
Qed.

Lemma mapM_pick_rect (pick : list Qc -> option Qc) (eta xi : nat)
    (m : list (list Qc)) :
  (forall row, length row = xi -> is_Some (pick row)) ->
  rect eta xi m ->
  exists v, mapM pick m = Some v /\ length v = eta.
Proof.
  intros Hpick [Hlen Hrows]. subst eta.
  induction m as [|row m IH]; [by exists []|].
  destruct (Hpick row) as [x Hx]; [apply Hrows; by left|].
  destruct IH as (v & Hv & Hl); [intros r Hr; apply Hrows; by right|].
  exists (x :: v). cbn. rewrite Hx. cbn. rewrite Hv. cbn. by rewrite Hl.
Qed.

Lemma edge_rect (b : boundary) (eta xi : nat) (m : list (list Qc)) :
  0 < eta -> 0 < xi -> rect eta xi m ->
  exists v, edge b m = Some v /\ length v = edge_length b eta xi.
Proof.
  intros Heta Hxi Hrect.
  destruct b; cbn [edge edge_length].
  - apply (mapM_pick_rect head eta xi); [|done].
    intros [|x row] Hrow; [cbn in Hrow; lia|by eexists].
  - destruct Hrect as [Hlen Hrows]. destruct m as [|row m]; [cbn in Hlen; lia|].
    exists row. split; [done|]. apply Hrows. by left.
  - apply (mapM_pick_rect list.last eta xi); [|done].
    intros row Hrow. rewrite last_lookup. apply lookup_lt_is_Some_2. lia.
  - destruct Hrect as [Hlen Hrows].
    destruct (list.last m) as [row|] eqn:Hlast.
    + exists row. split; [done|]. apply Hrows.
      rewrite last_lookup in Hlast. by eapply list_elem_of_lookup_2.
    + apply last_None in Hlast. subst m. cbn in Hlen. lia.
Qed.

(** X12. On a field of [eta] rows and [xi] columns, none of them empty, the
    index tuple of [grid_2d] reads the edge of the field on the given side:
    the first or last column in the west and east, the first or last row in
    the south and north.  The transect has as many points as the dimension
    that [omnibry_var] gives the variables of that boundary: [eta_t] in the
    west and east, [xi_t] in the south and north. *)
Theorem grid_slice_reads_edge (b : boundary) (eta xi : nat)
    (m : list (list Qc)) (nt nc nz : Z) :
  0 < eta -> 0 < xi -> rect eta xi m ->
  exists ix v,
    _get_bry_slice "grid_2d" (mkKw None (Some b) None) = Ok ix /\
    read1 (of_mat m) ix = Ok v /\
    edge b m = Some v /\
    five_dims nt nc nz (Z.of_nat xi) (Z.of_nat eta) !! bry_to_coor b
    = Some (Z.of_nat (length v)).
Proof.
  intros Heta Hxi Hrect.
  destruct (edge_rect b eta xi m Heta Hxi Hrect) as (v & Hv & Hlen).
  exists (grid_slice_2d b), v. split; [reflexivity|].
  split; [by apply read_edge|]. split; [done|].
  rewrite Hlen. by destruct b.
Qed.

Lemma grid_slice_reads_edge_witness :
  let m := [[Q2Qc 1; Q2Qc 2; Q2Qc 3]; [Q2Qc 4; Q2Qc 5; Q2Qc 6]] in
  exists ix v,
    _get_bry_slice "grid_2d" (mkKw None (Some East) None) = Ok ix /\
    read1 (of_mat m) ix = Ok v /\
    edge East m = Some v /\
    five_dims 1 5 7 (Z.of_nat 3) (Z.of_nat 2) !! bry_to_coor East
    = Some (Z.of_nat (length v)).
Proof.
  intros m.
  apply (grid_slice_reads_edge East 2 3 m 1 5 7); [lia|lia|].
  split; [reflexivity|].
  intros row Hrow. unfold m in Hrow.
  apply elem_of_cons in Hrow as [->|Hrow]; [reflexivity|].
  apply list_elem_of_singleton in Hrow as ->. reflexivity.
Defined.

(** X13. The index tuples for the variables with a time axis select the time
    index (and, with four dimensions, the level) and then read as the index
    tuple of the grid does: the transect of a three-dimensional variable at
    time [t] is the edge of its field at [t], that of a four-dimensional
    variable at level [-1] is the edge of the last level at [t], and the
    land mask, read at the tail of the three-dimensional index tuple, is
    read at the same points. *)
Theorem clm_slices_select_field (b : boundary) (t : nat)
    (fs : list (list (list Qc))) (ls : list (list (list (list Qc))))
    (m : list (list Qc)) (levels : list (list (list Qc))) :
  fs !! t = Some m ->
  ls !! t = Some levels -> list.last levels = Some m ->
  exists ix3 ix4,
    _get_bry_slice "clm_3d" (mkKw (Some (Z.of_nat t)) (Some b) None) = Ok ix3 /\
    _get_bry_slice "clm_4d" (mkKw (Some (Z.of_nat t)) (Some b) (Some (-1)%Z))
      = Ok ix4 /\
    tail ix3 = grid_slice_2d b /\
    read1 (of_fields fs) ix3 = read1 (of_mat m) (grid_slice_2d b) /\
    read1 (of_levels ls) ix4 = read1 (of_mat m) (grid_slice_2d b).
Proof.
  intros Hm Hl Hlast.
  exists (clm_slice_3d (Z.of_nat t) b), (clm_slice_4d (Z.of_nat t) b (-1)).
  split; [reflexivity|]. split; [reflexivity|].
  split; [by destruct b|].
  assert (H3 : forall ix, getitem (I (Z.of_nat t) :: ix) (of_fields fs)
                          = getitem ix (of_mat m)).
  { intros ix. unfold of_fields. cbn [getitem].
    rewrite py_index_nat. change (map of_mat fs) with (of_mat <$> fs).
    by rewrite list_lookup_fmap, Hm. }
  assert (H4 : forall ix, getitem (I (Z.of_nat t) :: I (-1) :: ix) (of_levels ls)
                          = getitem ix (of_mat m)).
  { intros ix. unfold of_levels. cbn [getitem].
    rewrite py_index_nat. change (map of_fields ls) with (of_fields <$> ls).
    rewrite list_lookup_fmap, Hl. cbn [fmap option_fmap option_map].
    unfold of_fields at 1. rewrite py_index_last, last_map, Hlast. done. }
  unfold read1. split.
  - destruct b; cbn [clm_slice_3d grid_slice_2d]; by rewrite H3.
  - destruct b; cbn [clm_slice_4d grid_slice_2d]; by rewrite H4.
Qed.

Lemma clm_slices_select_field_witness :
  let m := [[Q2Qc 1; Q2Qc 2]; [Q2Qc 3; Q2Qc 4]] in
  let m0 := [[Q2Qc 0; Q2Qc 0]; [Q2Qc 0; Q2Qc 0]] in
  exists ix3 ix4,
    _get_bry_slice "clm_3d" (mkKw (Some (Z.of_nat 1)) (Some North) None)
      = Ok ix3 /\
    _get_bry_slice "clm_4d" (mkKw (Some (Z.of_nat 1)) (Some North) (Some (-1)%Z))
      = Ok ix4 /\
    tail ix3 = grid_slice_2d North /\
    read1 (of_fields [m0; m]) ix3 = read1 (of_mat m) (grid_slice_2d North) /\
    read1 (of_levels [[m0]; [m0; m]]) ix4
    = read1 (of_mat m) (grid_slice_2d North).
Proof.
  intros m m0.
  apply (clm_slices_select_field North 1 [m0; m] [[m0]; [m0; m]] m [m0; m]);
    reflexivity.
Defined.

(* ===================================================================== *)
(** ** The time axis *)
(* ===================================================================== *)

Section TimeAxis.
Context `{Calendar}.

Lemma get_time_endpoints_found (nc_file : SrcFile) (time_name : string)
    (o : CiceBryHax) (sd ed : Z) (time : list Z) (s e : nat)
    (rs re : list nat) :
  start_date o = Some sd -> end_date o = Some ed ->
  get_dates nc_file time_name = Ok time ->
  np_where_eq time sd = s :: rs -> np_where_eq time ed = e :: re ->
  get_time_endpoints nc_file time_name o = (Ok (s, e), o).
Proof.
  intros Hsd Hed Ht Hs He. unfold get_time_endpoints, bind, get, lift.
  cbv beta. by rewrite Hsd, Hed, Ht, Hs, He.
Qed.

(** X14. With the dates and the units set and both dates on the decoded time
    axis of the file, [compute_bry_time] returns the stored times from the
    index of the start date to that of the end date, both included, each
    decoded with the units of the file and encoded again with the units of
    the object; the two indices are those of [get_time_endpoints].  Where
    encoding undoes decoding the result is that part of the stored array.
    When the end date comes before the start date the result is empty. *)
Theorem compute_bry_time_slice (nc_file : SrcFile)
    (time_name file_units units : string) (raw : list Qc) (sd ed : Z)
    (o : CiceBryHax) :
  src_vars nc_file !! time_name = Some (of_vec raw) ->
  src_units nc_file !! time_name = Some file_units ->
  start_date o = Some sd -> end_date o = Some ed ->
  time_units o = Some units ->
  sd ∈ map (fun x => num2date x file_units) raw ->
  ed ∈ map (fun x => num2date x file_units) raw ->
  exists (s e : nat) (bry_time : list Qc),
    get_time_endpoints nc_file time_name o = (Ok (s, e), o) /\
    compute_bry_time nc_file time_name o = (Ok bry_time, o) /\
    length bry_time = Datatypes.S e - s /\
    (forall k x, k < Datatypes.S e - s -> raw !! (s + k) = Some x ->
       bry_time !! k = Some (date2num (num2date x file_units) units)) /\
    ((forall x, x ∈ raw -> date2num (num2date x file_units) units = x) ->
     bry_time = take (Datatypes.S e - s) (drop s raw)).
Proof.
  intros Hv Hu Hsd Hed Hunits Hs He.
  set (time := map (fun x => num2date x file_units) raw) in *.
  pose proof (get_dates_run nc_file time_name file_units raw Hv Hu) as Hdates.
  fold time in Hdates.
  destruct (np_where_eq_first _ _ Hs) as (s & rs & Es & Hsi & _).
  destruct (np_where_eq_first _ _ He) as (e & re & Ee & Hei & _).
  pose proof (get_time_endpoints_found nc_file time_name o sd ed time s e rs re
                Hsd Hed Hdates Es Ee) as Hend.
  exists s, e, (take (Datatypes.S e - s)
                  (drop s (map (fun d => date2num d units) time))).
  split; [done|]. split.
  { unfold compute_bry_time. unfold bind at 1, lift. rewrite Hdates.
    unfold bind at 1. rewrite Hend. unfold bind, get. cbv beta.
    by rewrite Hunits. }
  assert (He_lt : e < length raw).
  { apply lookup_lt_Some in Hei. unfold time in Hei.
    by rewrite length_map in Hei. }
  split.
  { rewrite length_take, length_drop, length_map. unfold time.
    rewrite length_map. lia. }
  split.
  { intros k x Hk Hx. rewrite lookup_take_lt by done. rewrite lookup_drop.
    unfold time. change (map ?g ?l) with (g <$> l).
    by rewrite !list_lookup_fmap, Hx. }
  intros Hround. f_equal. f_equal. unfold time.
  rewrite map_map. rewrite <- (map_id raw) at 2.
  apply map_ext_in. intros x Hx. apply Hround. by apply list_elem_of_In.
Qed.

End TimeAxis.

Lemma compute_bry_time_slice_witness :
  let o := with_dates blank (Some 86400000000%Z) (Some 172800000000%Z)
                      (Some "days since 2008-01-01 00:00:00") in
  exists (s e : nat) (bry_time : list Qc),
    @get_time_endpoints day_calendar ex_clm "clim_time" o = (Ok (s, e), o) /\
    @compute_bry_time day_calendar ex_clm "clim_time" o = (Ok bry_time, o) /\
    length bry_time = Datatypes.S e - s /\
    (forall k x, k < Datatypes.S e - s ->
       [Q2Qc 0; Q2Qc 1; Q2Qc 2] !! (s + k) = Some x ->
       bry_time !! k
       = Some (@date2num day_calendar
                 (@num2date day_calendar x "days since 2008-01-01 00:00:00")
                 "days since 2008-01-01 00:00:00")) /\
    ((forall x, x ∈ [Q2Qc 0; Q2Qc 1; Q2Qc 2] ->
        @date2num day_calendar
          (@num2date day_calendar x "days since 2008-01-01 00:00:00")
          "days since 2008-01-01 00:00:00" = x) ->
     bry_time = take (Datatypes.S e - s) (drop s [Q2Qc 0; Q2Qc 1; Q2Qc 2])).
Proof.
  intros o.
  apply (@compute_bry_time_slice day_calendar ex_clm "clim_time"
           "days since 2008-01-01 00:00:00" "days since 2008-01-01 00:00:00"
           [Q2Qc 0; Q2Qc 1; Q2Qc 2] 86400000000 172800000000 o).
  - reflexivity.
  - reflexivity.
  - reflexivity.
  - reflexivity.
  - reflexivity.
  - apply (bool_decide_unpack _). by vm_compute.
  - apply (bool_decide_unpack _). by vm_compute.
Defined.

(** *** The nearest atmosphere time *)

Lemma argmin_from_spec (pre l : list Z) (best : Z) (besti : nat) :
  pre !! besti = Some best ->
  (forall j x, pre !! j = Some x -> (best <= x)%Z) ->
  (forall j x, j < besti -> pre !! j = Some x -> (best < x)%Z) ->
  exists m,
    (pre ++ l) !! argmin_from best besti (length pre) l = Some m /\
    (forall j x, (pre ++ l) !! j = Some x -> (m <= x)%Z) /\
    (forall j x, j < argmin_from best besti (length pre) l ->
       (pre ++ l) !! j = Some x -> (m < x)%Z).
Proof.
  revert pre best besti. induction l as [|x l IH]; intros pre best besti Hb Hle Hlt.
  - cbn [argmin_from]. rewrite (right_id_L [] (++)). eauto.
  - cbn [argmin_from].
    replace (pre ++ x :: l) with ((pre ++ [x]) ++ l)
      by (by rewrite <- (assoc_L (++))).
    replace (Datatypes.S (length pre)) with (length (pre ++ [x]))
      by (rewrite length_app; cbn; lia).
    case_decide as Hx.
    + apply IH.
      * rewrite lookup_app_r by lia. by rewrite Nat.sub_diag.
      * intros j y Hj. apply lookup_app_Some in Hj as [Hj|[_ Hj]].
        -- specialize (Hle j y Hj). lia.
        -- apply list_lookup_singleton_Some in Hj as [_ <-]. lia.
      * intros j y Hj Hy. rewrite lookup_app_l in Hy by done.
        specialize (Hle j y Hy). lia.
    + apply IH.
      * rewrite lookup_app_l; [done|]. by eapply lookup_lt_Some.
      * intros j y Hj. apply lookup_app_Some in Hj as [Hj|[_ Hj]].
        -- by apply (Hle j).
        -- apply list_lookup_singleton_Some in Hj as [_ <-]. lia.
      * intros j y Hj Hy. apply lookup_lt_Some in Hb.
        rewrite lookup_app_l in Hy by lia. by apply (Hlt j).
Qed.

Lemma np_argmin_spec (l : list Z) (i : nat) :
  np_argmin l = Ok i ->
  exists m,
    l !! i = Some m /\
    (forall j x, l !! j = Some x -> (m <= x)%Z) /\
    (forall j x, j < i -> l !! j = Some x -> (m < x)%Z).
Proof.
  destruct l as [|x l]; [done|]. cbn [np_argmin]. intros [= <-].
  apply (argmin_from_spec [x] l x 0).
  - done.
  - intros j y Hj. apply list_lookup_singleton_Some in Hj as [_ <-]. lia.
  - intros j y Hj. lia.
Qed.

(** X15. The atmosphere time index that [write_bry_data] pairs with a day is
    that of the atmosphere date nearest to the day, the first such in case
    of a tie; it exists however far the day lies from the atmosphere dates,
    and only an empty atmosphere time axis makes the search raise. *)
Theorem nearest_atmosphere_time (atm_dates : list Z) (today : Z) :
  match np_argmin (map (fun d => Z.abs (d - today)) atm_dates) with
  | Ok i =>
      exists d,
        atm_dates !! i = Some d /\
        (forall j d', atm_dates !! j = Some d' ->
           (Z.abs (d - today) <= Z.abs (d' - today))%Z) /\
        (forall j d', j < i -> atm_dates !! j = Some d' ->
           (Z.abs (d - today) < Z.abs (d' - today))%Z)
  | Raise e =>
      atm_dates = [] /\
      e = ValueError "attempt to get argmin of an empty sequence"
  end.
Proof.
  destruct (np_argmin _) as [i|e] eqn:Harg.
  - destruct (np_argmin_spec _ _ Harg) as (m & Hi & Hle & Hlt).
    change (map ?g ?l) with (g <$> l) in Hi, Hle, Hlt.
    rewrite list_lookup_fmap in Hi.
    destruct (atm_dates !! i) as [d|] eqn:Hd; [|done].
    injection Hi as <-. exists d. split; [done|]. split.
    + intros j d' Hj. apply (Hle j). by rewrite list_lookup_fmap, Hj.
    + intros j d' Hlt' Hj. apply (Hlt j); [done|].
      by rewrite list_lookup_fmap, Hj.
  - destruct atm_dates; [|done]. cbn in Harg. by injection Harg as <-.
Qed.

(* ===================================================================== *)
(** ** The names of the expanded variables *)
(* ===================================================================== *)

Lemma replace_go_absent old new s :
  old <> [] -> ~ occurs old s -> replace_go old new 0 s = s.
Proof.
  intros Hne. induction s as [|c s IH]; intros Hno; [done|].
  destruct (starts_with old (c :: s)) eqn:Hs.
  - exfalso. apply Hno. destruct (starts_with_inv _ _ Hs) as [rest ->].
    by exists [], rest.
  - rewrite replace_go_keep by done. f_equal. apply IH.
    intros (p & q & ->). apply Hno. by exists (c :: p), q.
Qed.

Lemma replace_go_distinct old (a b : ascii) s :
  old <> [] -> a <> b -> occurs old s ->
  replace_go old [a] 0 s <> replace_go old [b] 0 s.
Proof.
  intros Hne Hab. induction s as [|c s IH]; intros (p & q & Hocc).
  - destruct p, old; done.
  - destruct (starts_with old (c :: s)) eqn:Hs.
    + destruct (starts_with_inv _ _ Hs) as [rest ->].
      rewrite !replace_go_hit by done. cbn. congruence.
    + rewrite !replace_go_keep by done. intros [= Heq]. revert Heq. apply IH.
      destruct p as [|x p].
      * exfalso. cbn in Hocc. rewrite Hocc, starts_with_app in Hs. done.
      * injection Hocc as _ ->. by exists p, q.
Qed.

Lemma list_ascii_of_string_nonempty (s : string) :
  s <> "" -> String.list_ascii_of_string s <> [].
Proof. by destruct s. Qed.

Lemma replace_absent (tok new s : string) :
  tok <> "" -> ~ str_occurs tok s -> PyStr.replace tok new s = s.
Proof.
  intros Hne Hno. unfold PyStr.replace, replace_l.
  pose proof (list_ascii_of_string_nonempty _ Hne) as Hne'.
  destruct (String.list_ascii_of_string tok) as [|c old] eqn:Ho; [done|].
  rewrite <- Ho, replace_go_absent; [|by rewrite Ho|done].
  apply String.string_of_list_ascii_of_string.
Qed.

Lemma replace_distinct (tok s : string) (b1 b2 : boundary) :
  tok <> "" -> str_occurs tok s -> b1 <> b2 ->
  PyStr.replace tok (bry_letter b1) s <> PyStr.replace tok (bry_letter b2) s.
Proof.
  intros Hne Hocc Hb Heq. unfold PyStr.replace, replace_l in Heq.
  pose proof (list_ascii_of_string_nonempty _ Hne) as Hne'.
  destruct (String.list_ascii_of_string tok) as [|c old] eqn:Ho; [done|].
  rewrite <- Ho in Heq.
  apply (f_equal String.list_ascii_of_string) in Heq.
  rewrite !String.list_ascii_of_string_of_list_ascii in Heq.
  unfold str_occurs in Hocc.
  destruct b1, b2; try done; cbn in Heq;
    (revert Heq; apply replace_go_distinct; [by rewrite Ho|done|done]).
Qed.

(** X16. For a template with textual attribute values and a non-empty token:
    when the token occurs in the template name the four variables of
    [omnibry_var] have four different names, and when it does not occur all
    four have the name of the template. *)
Theorem omnibry_var_names (name0 : string) (dt : dtype) (dims0 : list string)
    (attrs0 : gmap string pyval) (tok : string) :
  tok <> "" -> all_text attrs0 ->
  exists vs,
    omnibry_var name0 dt dims0 attrs0 tok = Ok vs /\ length vs = 4 /\
    (str_occurs tok name0 -> NoDup (map name vs)) /\
    (~ str_occurs tok name0 -> forall v, v ∈ vs -> name v = name0).
Proof.
  intros Hne Hall. unfold omnibry_var, bry_order. cbn [omnibry_loop].
  rewrite !omnibry_one_text by done. cbn [app].
  eexists. split; [reflexivity|]. split; [reflexivity|]. split.
  - intros Hocc. cbn [map name].
    assert (Hd : forall b1 b2, b1 <> b2 ->
              PyStr.replace tok (bry_letter b1) name0
              <> PyStr.replace tok (bry_letter b2) name0)
      by (intros b1 b2; by apply replace_distinct).
    repeat (apply list.NoDup_cons; split;
            [rewrite ?elem_of_cons, elem_of_nil;
             intros Hin; repeat (destruct Hin as [Hin|Hin]; [by apply Hd in Hin|]);
             done|]).
    apply NoDup_nil_2.
  - intros Hno v Hv. rewrite !elem_of_cons, elem_of_nil in Hv.
    destruct Hv as [->|[->|[->|[->|[]]]]]; cbn; by apply replace_absent.
Qed.

Lemma omnibry_var_names_witness :
  exists vs,
    omnibry_var "TLON_BRY" py_float ["BRY"]
      {[ "units" := PStr "degrees_east" ]} "BRY" = Ok vs /\
    length vs = 4 /\
    (str_occurs "BRY" "TLON_BRY" -> NoDup (map name vs)) /\
    (~ str_occurs "BRY" "TLON_BRY" -> forall v, v ∈ vs -> name v = "TLON_BRY").
Proof.
  apply (omnibry_var_names "TLON_BRY" py_float ["BRY"]
           {[ "units" := PStr "degrees_east" ]} "BRY").
  - discriminate.
  - intros k v Hk. apply lookup_singleton_Some in Hk as [_ <-]. by eexists.
Defined.

Lemma replace_attrs_fold_not_text (old new : string)
    (m init : gmap string pyval) :
  let r := map_fold
             (fun key val (acc : result (gmap string pyval)) =>
                match acc with
                | Ok actual =>
                    match val_replace old new val with
                    | Ok v' => Ok (<[key := v']> actual)
                    | Raise e => Raise e
                    end
                | Raise e => Raise e
                end)
             (Ok init) m in
  (forall e, r = Raise e -> exists msg, e = AttributeError msg) /\
  ((exists k v, m !! k = Some v /\ not_text v) -> exists e, r = Raise e).
Proof.
  cbv zeta.
  apply (map_fold_weak_ind
           (fun (r : result (gmap string pyval)) (m : gmap string pyval) =>
              (forall e, r = Raise e -> exists msg, e = AttributeError msg) /\
              ((exists k v, m !! k = Some v /\ not_text v) ->
               exists e, r = Raise e))).
  - split; [done|]. intros (k & v & Hk & _). by rewrite lookup_empty in Hk.
  - intros k v m' r Hk [IH1 IH2]. split.
    + intros e He. destruct r as [actual|e']; [|injection He as <-; by apply IH1].
      destruct v; cbn in He; [done|injection He as <-..]; by eexists.
    + intros (k' & v' & Hk' & Hv').
      destruct r as [actual|e']; [|by eexists].
      destruct (decide (k' = k)) as [->|Hne].
      * rewrite lookup_insert_eq in Hk'. injection Hk' as <-.
        destruct v; [done|by eexists..].
      * rewrite lookup_insert_ne in Hk' by done.
        destruct IH2 as [e He]; [by exists k', v'|]. done.
Qed.

Lemma replace_attrs_not_text (old new : string) (attrs0 : gmap string pyval) :
  (exists k v, attrs0 !! k = Some v /\ not_text v) ->
  exists msg, replace_attrs old new attrs0 = Raise (AttributeError msg).
Proof.
  intros Hex. unfold replace_attrs.
  destruct (replace_attrs_fold_not_text old new attrs0 attrs0) as [H1 H2].
  destruct (H2 Hex) as [e He]. destruct (H1 e He) as [msg ->]. by exists msg.
Qed.

(** X17. An attribute value of the template that is not text has no [replace]
    method: [omnibry_var] then raises an [AttributeError] and returns no
    variable at all. *)
Theorem omnibry_var_needs_text (name0 : string) (dt : dtype)
    (dims0 : list string) (attrs0 : gmap string pyval) (tok : string)
    (k : string) (v : pyval) :
  attrs0 !! k = Some v -> not_text v ->
  exists msg,
    omnibry_var name0 dt dims0 attrs0 tok = Raise (AttributeError msg).
Proof.
  intros Hk Hv.
  destruct (replace_attrs_not_text tok (bry_letter West) attrs0) as [msg Hr];
    [by exists k, v|].
  exists msg. unfold omnibry_var, bry_order. cbn [omnibry_loop].
  unfold omnibry_one. by rewrite Hr.
Qed.

Lemma omnibry_var_needs_text_witness :
  exists msg,
    omnibry_var "TLON_BRY" py_float ["BRY"]
      {[ "long_name" := PStr "longitude"; "valid_max" := PNum (Q2Qc 360) ]}
      "BRY" = Raise (AttributeError msg).
Proof.
  apply (omnibry_var_needs_text "TLON_BRY" py_float ["BRY"]
           {[ "long_name" := PStr "longitude"; "valid_max" := PNum (Q2Qc 360) ]}
           "BRY" "valid_max" (PNum (Q2Qc 360))).
  - reflexivity.
  - exact Logic.I.
Defined.

(* ===================================================================== *)
(** ** What the methods leave as it is *)
(* ===================================================================== *)

Section Preserves.
Context {X : Type} (proj : CiceBryHax -> X).

Lemma preserves_ret {A} (a : A) : preserves proj (ret a).
Proof. by intros o r o' [= <- <-]. Qed.

Lemma preserves_raise {A} (e : exn) : preserves proj (@raise A e).
Proof. by intros o r o' [= <- <-]. Qed.

Lemma preserves_lift {A} (x : result A) : preserves proj (lift x).
Proof. by intros o r o' [= <- <-]. Qed.

Lemma preserves_get : preserves proj get.
Proof. by intros o r o' [= <- <-]. Qed.

Lemma preserves_bind {A B} (m : M A) (k : A -> M B) :
  preserves proj m -> (forall a, preserves proj (k a)) ->
  preserves proj (bind m k).
Proof.
  intros Hm Hk o r o' Hrun. unfold bind in Hrun.
  destruct (m o) as [[a|e] o1] eqn:Hmo.
  - rewrite (Hk a _ _ _ Hrun). by eapply Hm.
  - injection Hrun as <- <-. by eapply Hm.
Qed.

Lemma preserves_for_each {A} (l : list A) (body : A -> M unit) :
  (forall x, x ∈ l -> preserves proj (body x)) ->
  preserves proj (for_each l body).
Proof.
  induction l as [|x l IH]; intros Hbody; cbn [for_each].
  - apply preserves_ret.
  - apply preserves_bind; [apply Hbody; by left|]. intros _. apply IH.
    intros y Hy. apply Hbody. by right.
Qed.

Lemma preserves_get_bry : preserves proj get_bry.
Proof.
  intros o r o' Hrun. unfold get_bry in Hrun.
  by destruct (bry o); injection Hrun as <- <-.
Qed.

Lemma preserves_getitem (v : string) (ix : list idx) :
  preserves proj (bry_getitem v ix).
Proof.
  unfold bry_getitem. apply preserves_bind; [apply preserves_get_bry|].
  intros f. case_decide; [|apply preserves_raise].
  destruct (f_data f !! (v, ix)); [apply preserves_ret|apply preserves_raise].
Qed.

Lemma preserves_get_nz : preserves proj get_nz.
Proof.
  unfold get_nz. apply preserves_bind; [apply preserves_get|]. intros o.
  apply preserves_bind; [apply preserves_lift|]. intros z.
  destruct (dim_sizes o); [apply preserves_lift|apply preserves_raise].
Qed.

Lemma preserves_linspace_z (start stop : list Qc) :
  preserves proj (linspace_z start stop).
Proof.
  unfold linspace_z. apply preserves_bind; [apply preserves_get_nz|].
  intros nz. case_decide; [apply preserves_raise|apply preserves_lift].
Qed.

Context `{Calendar}.

Lemma preserves_get_time_endpoints (nc_file : SrcFile) (time_name : string) :
  preserves proj (get_time_endpoints nc_file time_name).
Proof.
  intros o r o' Hrun. unfold get_time_endpoints, bind, get, lift in Hrun.
  destruct (start_date o), (end_date o);
    try (by injection Hrun as <- <-).
  destruct (get_dates nc_file time_name) as [time|e];
    [|by injection Hrun as <- <-].
  by destruct (np_where_eq time z), (np_where_eq time z0);
    injection Hrun as <- <-.
Qed.

Lemma preserves_compute_bry_time (nc_file : SrcFile) (time_name : string) :
  preserves proj (compute_bry_time nc_file time_name).
Proof.
  unfold compute_bry_time.
  apply preserves_bind; [apply preserves_lift|]. intros input_time.
  apply preserves_bind; [apply preserves_get_time_endpoints|]. intros se.
  intros o r o' Hrun. unfold bind, get in Hrun.
  by destruct (time_units o); injection Hrun as <- <-.
Qed.

End Preserves.


Lemma config_with_data (o : CiceBryHax) (f : BryFile)
    (d : gmap (string * list idx) nd) :
  bry o = Some f ->
  config_of (with_bry o (Some (bry_set_data f d))) = config_of o.
Proof. intros Hf. unfold config_of. cbn. by rewrite Hf. Qed.

Lemma config_with_vattrs (o : CiceBryHax) (f : BryFile)
    (m : gmap (string * string) pyval) :
  bry o = Some f ->
  config_of (with_bry o (Some (bry_set_vattrs f m))) = config_of o.
Proof. intros Hf. unfold config_of. cbn. by rewrite Hf. Qed.

Lemma preserves_setitem (v : string) (ix : list idx) (x : nd) :
  preserves config_of (bry_setitem v ix x).
Proof.
  intros o r o' Hrun. unfold bry_setitem, bind, get_bry in Hrun.
  destruct (bry o) as [f|] eqn:Hf; [|by injection Hrun as <- <-].
  case_decide; injection Hrun as <- <-; [|done].
  by apply config_with_data.
Qed.

Lemma preserves_var_setattr (vname attr_name : string) (attr_val : pyval) :
  preserves config_of (var_setattr vname attr_name attr_val).
Proof.
  intros o r o' Hrun. unfold var_setattr, bind, get_bry in Hrun.
  destruct (bry o) as [f|] eqn:Hf; [|by injection Hrun as <- <-].
  case_decide; [|by injection Hrun as <- <-].
  destruct attr_val; injection Hrun as <- <-; try done;
    by apply config_with_vattrs.
Qed.

Lemma preserves_write_var_attrs : preserves config_of write_var_attrs.
Proof.
  unfold write_var_attrs. apply preserves_bind; [apply preserves_get|].
  intros o. apply preserves_for_each. intros var _.
  apply preserves_for_each. intros kv _. apply preserves_var_setattr.
Qed.

Lemma preserves_set_var_attr (var_name attr_name : string) (attr_val : pyval)
    (update_file : bool) :
  preserves config_of (set_var_attr var_name attr_name attr_val update_file).
Proof.
  intros o r o' Hrun. unfold set_var_attr in Hrun.
  unfold bind at 1, get in Hrun. unfold bind at 1, lift in Hrun.
  destruct (index_of var_name (map name (bry_vars o))) as [i|e];
    [|by injection Hrun as <- <-].
  unfold bind at 1, put in Hrun.
  transitivity (config_of
    (with_bry_vars o
       (alter (fun v => mkBryVar (name v) (dtype_ v) (dims v)
                          (<[attr_name := attr_val]> (attrs v)))
              i (bry_vars o)))).
  - destruct update_file.
    + eapply preserves_write_var_attrs, Hrun.
    + eapply (preserves_ret config_of), Hrun.
  - unfold config_of. cbn. by rewrite map_name_alter.
Qed.

Ltac preserves_steps :=
  repeat first
    [ apply preserves_lift | apply preserves_ret | apply preserves_raise
    | apply preserves_get | apply preserves_get_bry | apply preserves_getitem
    | apply preserves_get_nz | apply preserves_linspace_z
    | apply preserves_setitem
    | apply preserves_for_each; intros ? ?
    | apply preserves_bind; [|intros ?] ].

Lemma preserves_transect (aice hice tair toce salt land_mask : nd)
    (clm_idx atm_idx bry_idx n : nat) (b : boundary) :
  preserves config_of
    (write_bry_transect aice hice tair toce salt land_mask
                        clm_idx atm_idx bry_idx n b).
Proof. unfold write_bry_transect. cbv zeta. preserves_steps. Qed.

Section PreservesRun.
Context `{Calendar}.

Lemma preserves_day (aice hice tair toce salt land_mask : nd)
    (bry_time : list Qc) (clm_dates atm_dates : list Z) (t0c_idx clm_idx : nat) :
  preserves config_of
    (write_bry_day aice hice tair toce salt land_mask bry_time
                   clm_dates atm_dates t0c_idx clm_idx).
Proof.
  unfold write_bry_day. cbv zeta.
  apply preserves_bind; [apply preserves_lift|]. intros today.
  apply preserves_bind; [apply preserves_lift|]. intros atm_idx.
  apply preserves_bind; [apply preserves_lift|]. intros now.
  apply preserves_bind; [apply preserves_setitem|]. intros _.
  apply preserves_for_each. intros n _.
  apply preserves_for_each. intros b _. apply preserves_transect.
Qed.

Lemma preserves_write_bry_data : preserves config_of write_bry_data.
Proof.
  intros o r o' Hrun. unfold write_bry_data in Hrun.
  unfold bind at 1, get in Hrun.
  destruct (grid o) as [[g|]|]; [|by injection Hrun as <- <-..].
  destruct (clm o) as [[c|]|]; [|by injection Hrun as <- <-..].
  destruct (atm o) as [[a|]|]; [|by injection Hrun as <- <-..].
  set (u := match time_units o with Some u => PStr u | None => PNone end)
    in Hrun.
  clearbody u.
  refine (preserves_bind config_of _ _ _ _ o r o' Hrun).
  { apply preserves_set_var_attr. }
  intros _.
  apply preserves_bind; [apply preserves_compute_bry_time|]. intros bry_time.
  apply preserves_bind; [apply preserves_lift|]. intros clm_dates.
  apply preserves_bind; [apply preserves_lift|]. intros atm_dates.
  apply preserves_bind; [apply preserves_get_time_endpoints|]. intros t01.
  do 7 (apply preserves_bind; [apply preserves_lift|]; intros ?).
  apply preserves_bind; [apply preserves_get_nz|]. intros nz.
  apply preserves_bind; [apply preserves_setitem|]. intros _.
  apply preserves_bind.
  { apply preserves_for_each. intros b _. preserves_steps. }
  intros _. apply preserves_for_each. intros clm_idx _. apply preserves_day.
Qed.

End PreservesRun.

(* ===================================================================== *)
(** ** The other variables [write_bry_data] writes *)
(* ===================================================================== *)

Section TransectKeys.
Context (d : gmap (string * list idx) nd) (b : boundary).
Context (bry_idx n nz : nat) (lo hi : Qc).
Context (hice_c aice_c land tair_a salt_c toce_c : list Qc).




Lemma zero_fold_lookup (bslice : list idx) (vars0 : list string)
    (d0 : gmap (string * list idx) nd) (var : string) :
  var ∈ vars0 \/
  d0 !! (PyStr.replace "BRY" (bry_letter b) var, bslice) = Some (Num 0) ->
  foldl (fun d var =>
           <[(PyStr.replace "BRY" (bry_letter b) var, bslice) := Num 0]> d)
        d0 vars0
    !! (PyStr.replace "BRY" (bry_letter b) var, bslice) = Some (Num 0).
Proof.
  revert d0. induction vars0 as [|v0 rest IH]; intros d0 Hin.
  - destruct Hin as [Hin|Hin]; [by apply elem_of_nil in Hin|done].
  - cbn [foldl]. apply IH.
    destruct (decide (var = v0)) as [->|Hne].
    + right. apply lookup_insert_eq.
    + destruct Hin as [Hin|Hin].
      * apply elem_of_cons in Hin as [->|Hin]; [done|by left].
      * right.
        destruct (decide (PyStr.replace "BRY" (bry_letter b) v0
                          = PyStr.replace "BRY" (bry_letter b) var)) as [Heq|Hd].
        -- rewrite Heq. apply lookup_insert_eq.
        -- rewrite lookup_insert_ne by congruence. done.
Qed.

Lemma transect_lookup_zero (var : string) :
  var ∈ zero_vars_3d ->
  transect_data d b bry_idx n nz lo hi
                hice_c aice_c land tair_a salt_c toce_c
    !! (PyStr.replace "BRY" (bry_letter b) var,
        [I (Z.of_nat bry_idx); I (Z.of_nat n); All])
  = Some (Num 0).
Proof.
  intros Hvar. unfold transect_data, zero_data. cbv zeta.
  apply zero_fold_lookup. by left.
Qed.

End TransectKeys.

Lemma owned_zero (bry_idx n : nat) (b : boundary) (var : string) :
  var ∈ zero_vars_3d ->
  owned bry_idx n b
        (PyStr.replace "BRY" (bry_letter b) var,
         [I (Z.of_nat bry_idx); I (Z.of_nat n); All]).
Proof.
  intros Hvar. split; [|by left]. cbn [fst]. unfold transect_vars.
  apply elem_of_app. right. change (map ?g ?l) with (g <$> l).
  by apply list_elem_of_fmap_2.
Qed.

Section DayLoopKeys.
Context `{Calendar}.
Context (aice hice tair toce salt land_mask : nd).
Context (bry_time : list Qc) (clm_dates atm_dates : list Z) (t0c_idx : nat).
Context (o_pre o_end : CiceBryHax) (f_pre : BryFile) (ds : gmap string Z).
Context (nz len : nat).
Context (Hrun : for_each (seq t0c_idx len)
                  (write_bry_day aice hice tair toce salt land_mask bry_time
                                 clm_dates atm_dates t0c_idx) o_pre
                = (Ok tt, o_end)).
Context (Hf_pre : bry o_pre = Some f_pre).
Context (Hvars_pre : forall b v, v ∈ transect_vars b -> v ∈ f_vars f_pre).
Context (Hds_pre : dim_sizes o_pre = Some ds).
Context (Hnz_pre : ds !! "nkice" = Some (Z.of_nat nz)).

Context (clm_idx atm_idx n : nat) (b : boundary) (today : Z).
Context (hice_c aice_c land tair_a salt_c toce_c : list Qc) (lo hi : Qc).
Context (Hrange : t0c_idx <= clm_idx < t0c_idx + len).
Context (Htoday : clm_dates !! clm_idx = Some today).
Context (Hargmin : np_argmin (map (fun d => Z.abs (d - today)) atm_dates)
                   = Ok atm_idx).
Context (Hhice : read1 hice (clm_slice_3d (Z.of_nat clm_idx) b) = Ok hice_c).
Context (Haice : read1 aice (clm_slice_3d (Z.of_nat clm_idx) b) = Ok aice_c).
Context (Hland : read1 land_mask (tail (clm_slice_3d (Z.of_nat clm_idx) b))
                 = Ok land).
Context (Htair : read1 tair (clm_slice_3d (Z.of_nat atm_idx) b) = Ok tair_a).
Context (Hsalt : read1 salt (clm_slice_4d (Z.of_nat clm_idx) b (-1)) = Ok salt_c).
Context (Htoce : read1 toce (clm_slice_4d (Z.of_nat clm_idx) b (-1)) = Ok toce_c).
Context (Hlen_a : length aice_c = length hice_c).
Context (Hlen_l : length land = length hice_c).
Context (Hlen_t : length tair_a = length hice_c).
Context (Hlen_s : length salt_c = length hice_c).
Context (Hlen_o : length toce_c = length hice_c).
Context (Hlo : cat_lims !! n = Some lo).
Context (Hhi : cat_lims !! Datatypes.S n = Some hi).


(** The data of the file when the loop over the days has completed are, at
    every key of the turn for [clm_idx], [n] and [b], those the turn has
    left. *)
Lemma day_loop_owned :
  let bry_idx := clm_idx - t0c_idx in
  exists f_end d,
    bry o_end = Some f_end /\
    forall K, owned bry_idx n b K ->
      f_data f_end !! K
      = transect_data d b bry_idx n nz lo hi
                      hice_c aice_c land tair_a salt_c toce_c !! K.
Proof.
  intros bry_idx.
  assert (Hn : n < 5).
  { apply lookup_lt_Some in Hhi. cbn in Hhi. lia. }
  (* the day *)
  assert (Hin_day : clm_idx ∈ seq t0c_idx len) by (apply elem_of_seq; lia).
  destruct (for_each_reach (fun t => owned_day (t - t0c_idx)) _ _ _ _ clm_idx
              (NoDup_seq _ _) Hin_day
              (framed_day aice hice tair toce salt land_mask bry_time
                          clm_dates atm_dates t0c_idx) Hrun)
    as (oa & ob & F1 & Hday & F2).
  unfold write_bry_day in Hday. cbv zeta in Hday. fold bry_idx in Hday.
  apply bind_inv in Hday as (today' & ? & [Ht ->]%lift_inv & Hday).
  apply bind_inv in Hday as (atm_idx' & ? & [Ha ->]%lift_inv & Hday).
  apply bind_inv in Hday as (now & ? & [_ ->]%lift_inv & Hday).
  apply bind_inv in Hday as ([] & oa1 & Hset & Hcats).
  assert (today' = today) as ->.
  { unfold list_get, py_index in Ht. rewrite decide_True in Ht by lia.
    rewrite Nat2Z.id, Htoday in Ht. by injection Ht. }
  assert (atm_idx' = atm_idx) as -> by congruence.
  assert (F1' : same_frame (fun _ => True) oa oa1).
  { exact (framed_setitem (fun _ => True) _ _ _ Logic.I _ _ _ Hset). }
  (* the category *)
  change (length (tail cat_lims)) with 5 in Hcats.
  assert (Hin_cat : n ∈ seq 0 5) by (apply elem_of_seq; lia).
  assert (Hfr_cat : forall n',
            framed (fun K => exists b', owned bry_idx n' b' K)
              (for_each bry_order (fun b' =>
                 write_bry_transect aice hice tair toce salt land_mask
                                    clm_idx atm_idx bry_idx n' b'))).
  { intros n'. apply framed_for_each. intros b' _.
    eapply framed_mono; [|apply framed_transect].
    intros K HK. by exists b'. }
  destruct (for_each_reach (fun n' K => exists b', owned bry_idx n' b' K)
              _ _ _ _ n (NoDup_seq _ _) Hin_cat Hfr_cat Hcats)
    as (oa2 & ob2 & F3 & Hbs & F4).
  (* the boundary *)
  assert (Hb : b ∈ bry_order).
  { unfold bry_order. rewrite !elem_of_cons. destruct b; tauto. }
  assert (Hnd : NoDup bry_order) by (apply (bool_decide_unpack _); by vm_compute).
  destruct (for_each_reach (fun b' => owned bry_idx n b') _ _ _ _ b Hnd Hb
              (fun b' => framed_transect aice hice tair toce salt land_mask
                           clm_idx atm_idx bry_idx n b') Hbs)
    as (oa3 & ob3 & F5 & Htr & F6).
  (* the file at the start of the turn *)
  destruct (same_frame_file _ _ _ _ F1 Hf_pre) as (fa & Hfa & Hva & Hda).
  destruct (same_frame_file _ _ _ _ F1' Hfa) as (fa1 & Hfa1 & Hva1 & Hda1).
  destruct (same_frame_file _ _ _ _ F3 Hfa1) as (fa2 & Hfa2 & Hva2 & Hda2).
  destruct (same_frame_file _ _ _ _ F5 Hfa2) as (fa3 & Hfa3 & Hva3 & Hda3).
  assert (Hds3 : dim_sizes oa3 = Some ds) by congruence.
  assert (Hvars3 : forall v, v ∈ transect_vars b -> v ∈ f_vars fa3).
  { intros v Hv. rewrite Hva3, Hva2, Hva1, Hva. by apply (Hvars_pre b). }
  rewrite (write_bry_transect_run aice hice tair toce salt land_mask
             clm_idx atm_idx bry_idx n b
             hice_c aice_c land tair_a salt_c toce_c oa3 fa3 ds nz lo hi
             Hhice Haice Hland Htair Hsalt Htoce Hlen_a Hlen_l Hlen_t Hlen_s
             Hlen_o Hlo Hhi Hds3 Hnz_pre Hfa3 Hvars3) in Htr.
  injection Htr as <-.
  set (fb3 := bry_set_data fa3 _) in *.
  (* what the later turns leave *)
  assert (Hkeep : forall K, owned bry_idx n b K ->
            exists f_end, bry o_end = Some f_end /\
                          f_data f_end !! K = f_data fb3 !! K).
  { intros K HK.
    destruct (same_frame_kept _ _ _ fb3 K F6 eq_refl) as (f6 & Hf6 & _ & Hk6).
    { intros (b' & _ & Hne & HK'). apply Hne.
      by destruct (owned_disjoint _ _ _ _ _ _ _ HK' HK) as (_ & _ & ->). }
    destruct (same_frame_kept _ _ _ f6 K F4 Hf6) as (f4 & Hf4 & _ & Hk4).
    { intros (n' & _ & Hne & b' & HK'). apply Hne.
      by destruct (owned_disjoint _ _ _ _ _ _ _ HK' HK) as (_ & -> & _). }
    destruct (same_frame_kept _ _ _ f4 K F2 Hf4) as (f2 & Hf2 & _ & Hk2).
    { intros (t' & Ht' & Hne & [HT|(n' & b' & HK')]).
      - destruct HK as [HK _]. rewrite HT in HK. cbn in HK.
        by apply Time_not_transect in HK.
      - apply Hne. apply elem_of_seq in Ht'.
        destruct (owned_disjoint _ _ _ _ _ _ _ HK' HK) as (Hbi & _ & _).
        unfold bry_idx in Hbi. lia. }
    exists f2. split; [done|]. congruence. }
  destruct (Hkeep _ (owned_key bry_idx n b "vicen"
                       ltac:(rewrite !elem_of_cons; tauto)))
    as (f_end & Hf_end & _).
  exists f_end, (f_data fa3). split; [done|].
  intros K HK. destruct (Hkeep K HK) as (f_end' & Hf_end' & HK').
  rewrite Hf_end in Hf_end'. injection Hf_end' as <-.
  rewrite HK'. unfold fb3. reflexivity.
Qed.

End DayLoopKeys.






Section RunKeys.
Context `{Calendar}.
Context (o : CiceBryHax) (g c a : SrcFile) (f : BryFile).
Context (ds : gmap string Z) (nz : nat).
Context (Hg : grid o = Some (Some g)).
Context (Hc : clm o = Some (Some c)).
Context (Ha : atm o = Some (Some a)).
Context (Hf : bry o = Some f).
Context (Hcat : forall v, v ∈ catalog_names -> v ∈ f_vars f).
Context (Hds : dim_sizes o = Some ds).
Context (Hnz : ds !! "nkice" = Some (Z.of_nat nz)).
Context (Hrun : (write_bry_data o).1 = Ok tt).

(** What the file holds, when the run has completed, at every key of one
    turn of the innermost loop. *)
Lemma write_bry_data_owned :
  exists (f' : BryFile) (S : sources) (t0 t1 : nat),
    bry (write_bry_data o).2 = Some f' /\
    sources_of g c a S /\
    (get_time_endpoints c "clim_time" o).1 = Ok (t0, t1) /\
    forall (clm_idx n : nat) (b : boundary) (T : transects) (lo hi : Qc),
      t0 <= clm_idx <= t1 ->
      cat_lims !! n = Some lo -> cat_lims !! Datatypes.S n = Some hi ->
      day_transects S clm_idx b T ->
      exists d,
        forall K, owned (clm_idx - t0) n b K ->
          f_data f' !! K
          = transect_data d b (clm_idx - t0) n nz lo hi
              (tr_hice T) (tr_aice T) (tr_land T) (tr_tair T) (tr_salt T)
              (tr_toce T) !! K.
Proof.
  destruct (write_bry_data_inv o g c a f ds Hg Hc Ha Hf Hds Hrun)
    as (S & t0 & t1 & bry_time & o_pre & f_pre & HS & Ht & Hf_pre & Hv_pre &
        Hd_pre & Hloop).
  assert (Hvars : forall b v, v ∈ transect_vars b -> v ∈ f_vars f_pre).
  { intros b v Hv. rewrite Hv_pre. eapply Hcat, transect_vars_catalog, Hv. }
  assert (Fl : same_frame (fun _ => True) o_pre (write_bry_data o).2).
  { revert Hloop. apply framed_for_each. intros t _.
    eapply framed_mono; [|apply framed_day]. done. }
  destruct (same_frame_file _ _ _ _ Fl Hf_pre) as (f' & Hf' & _ & _).
  exists f', S, t0, t1. split; [done|]. split; [done|]. split; [done|].
  intros clm_idx n b T lo hi Hrange Hlo Hhi
    (today & atm_idx & Htoday & Hargmin & Hhice & Haice & Hland & Htair &
     Hsalt & Htoce & Hla & Hll & Hlt & Hls & Hlo').
  assert (Hrange' : t0 <= clm_idx < t0 + (Datatypes.S t1 - t0)) by lia.
  destruct (day_loop_owned _ _ _ _ _ _ _ _ _ _ _ _ _ _ _ _ Hloop Hf_pre
              Hvars Hd_pre Hnz _ _ _ _ _ _ _ _ _ _ _ _ _ Hrange' Htoday
              Hargmin Hhice Haice Hland Htair Hsalt Htoce Hla Hll Hlt Hls Hlo'
              Hlo Hhi) as (f_end & d & Hf_end & Hkeys).
  rewrite Hf' in Hf_end. injection Hf_end as <-. by exists d.
Qed.

End RunKeys.

Section RunFields.
Context `{Calendar}.
Context (o : CiceBryHax) (g c a : SrcFile) (f : BryFile).
Context (ds : gmap string Z) (nz : nat).
Context (Hg : grid o = Some (Some g)).
Context (Hc : clm o = Some (Some c)).
Context (Ha : atm o = Some (Some a)).
Context (Hf : bry o = Some f).
Context (Hcat : forall v, v ∈ catalog_names -> v ∈ f_vars f).
Context (Hds : dim_sizes o = Some ds).
Context (Hnz : ds !! "nkice" = Some (Z.of_nat nz)).
Context (Hrun : (write_bry_data o).1 = Ok tt).



(** X20. When [write_bry_data] has completed, each of the eight variables for
    which there are no data (ice age, the three melt pond variables, the two
    brine variables and the two level ice variables) holds, for every time
    index between the endpoints, every category and every boundary, the
    number 0. *)
Theorem zero_variables_written :
  exists (f' : BryFile) (S : sources) (t0 t1 : nat),
    bry (write_bry_data o).2 = Some f' /\
    sources_of g c a S /\
    (get_time_endpoints c "clim_time" o).1 = Ok (t0, t1) /\
    forall (clm_idx n : nat) (b : boundary) (T : transects) (var : string),
      t0 <= clm_idx <= t1 -> n < 5 -> day_transects S clm_idx b T ->
      var ∈ zero_vars_3d ->
      f_data f' !! (PyStr.replace "BRY" (bry_letter b) var,
                    [I (Z.of_nat (clm_idx - t0)); I (Z.of_nat n); All])
      = Some (Num 0).
Proof.
  destruct (write_bry_data_owned o g c a f ds nz Hg Hc Ha Hf Hcat Hds Hnz Hrun)
    as (f' & S & t0 & t1 & Hf' & HS & Ht & Hkeys).
  exists f', S, t0, t1. split; [done|]. split; [done|]. split; [done|].
  intros clm_idx n b T var Hrange Hn HT Hvar.
  destruct (cat_lims_lookup n Hn) as (lo & hi & Hlo & Hhi).
  destruct (Hkeys clm_idx n b T lo hi Hrange Hlo Hhi HT) as (d & Hd).
  rewrite Hd by (by apply owned_zero).
  by apply transect_lookup_zero.
Qed.

End RunFields.



Lemma zero_variables_written_witness :
  exists (f' : BryFile) (S : sources) (t0 t1 : nat),
    bry (@write_bry_data day_calendar ex_run_obj).2 = Some f' /\
    @sources_of day_calendar ex_run_grid ex_run_clm ex_run_atm S /\
    (@get_time_endpoints day_calendar ex_run_clm "clim_time" ex_run_obj).1 = Ok (t0, t1) /\
    forall (clm_idx n : nat) (b : boundary) (T : transects) (var : string),
      t0 <= clm_idx <= t1 -> n < 5 -> day_transects S clm_idx b T ->
      var ∈ zero_vars_3d ->
      f_data f' !! (PyStr.replace "BRY" (bry_letter b) var,
                    [I (Z.of_nat (clm_idx - t0)); I (Z.of_nat n); All])
      = Some (Num 0).
Proof.
  exact (@zero_variables_written day_calendar
           ex_run_obj ex_run_grid ex_run_clm ex_run_atm ex_run_file
           (five_dims 1 5 3 2 2) 3
           eq_refl eq_refl eq_refl eq_refl (fun v Hv => Hv) eq_refl eq_refl
           ex_run_completes).
Defined.

(* ===================================================================== *)
(** ** The categories do not overlap *)
(* ===================================================================== *)

Lemma cat_mask_at (hice_c : list Qc) (n i : nat) (h lo hi : Qc)
    (m : list bool) :
  cat_lims !! n = Some lo -> cat_lims !! Datatypes.S n = Some hi ->
  hice_c !! i = Some h ->
  cat_mask_of hice_c n = Ok m ->
  m !! i = Some (bool_decide (lo < h)%Qc && bool_decide (h < hi)%Qc).
Proof.
  intros Hlo Hhi Hh Hm. rewrite (cat_mask_of_run _ _ lo hi Hlo Hhi) in Hm.
  injection Hm as <-. change (map ?g ?l) with (g <$> l).
  by rewrite list_lookup_fmap, Hh.
Qed.

Lemma cat_lims_sorted (n1 n2 : nat) (hi1 lo2 : Qc) :
  n1 < n2 ->
  cat_lims !! Datatypes.S n1 = Some hi1 -> cat_lims !! n2 = Some lo2 ->
  (hi1 <= lo2)%Qc.
Proof.
  intros Hlt H1 H2.
  assert (Hn2 : n2 < 6) by (apply lookup_lt_Some in H2; cbn in H2; lia).
  do 5 (destruct n1 as [|n1];
        [do 6 (destruct n2 as [|n2]; [try lia; cbn in H1, H2;
               injection H1 as <-; injection H2 as <-;
               apply Qcle_alt; by vm_compute|]); lia|]).
  lia.
Qed.

Lemma cat_lims_bounds (n : nat) (x : Qc) :
  cat_lims !! n = Some x -> (0 <= x)%Qc /\ (x <= Q2Qc 1e8)%Qc.
Proof.
  intros Hx.
  do 6 (destruct n as [|n];
        [cbn in Hx; injection Hx as <-; split; apply Qcle_alt; by vm_compute|]).
  done.
Qed.

(** X21. The category masks of [write_bry_data] never overlap: at a boundary
    point at most one of the five categories has a true mask.  A thickness
    strictly between 0 and 1e8 that is none of the limits lies in exactly
    one category; a thickness that is not positive, as on open water, or not
    below 1e8 lies in none. *)
Theorem cat_masks_partition (hice_c : list Qc) (i : nat) (h : Qc) :
  hice_c !! i = Some h ->
  (forall n1 n2 m1 m2,
     cat_mask_of hice_c n1 = Ok m1 -> cat_mask_of hice_c n2 = Ok m2 ->
     n1 < 5 -> n2 < 5 ->
     m1 !! i = Some true -> m2 !! i = Some true -> n1 = n2) /\
  ((0 < h)%Qc -> (h < Q2Qc 1e8)%Qc -> h ∉ cat_lims ->
   exists n m, n < 5 /\ cat_mask_of hice_c n = Ok m /\ m !! i = Some true) /\
  ((h <= 0)%Qc \/ (Q2Qc 1e8 <= h)%Qc ->
   forall n m, n < 5 -> cat_mask_of hice_c n = Ok m -> m !! i = Some false).
Proof.
  intros Hh. split; [|split].
  - assert (Hord : forall n1 n2 m1 m2,
              cat_mask_of hice_c n1 = Ok m1 -> cat_mask_of hice_c n2 = Ok m2 ->
              n1 < 5 -> n2 < 5 ->
              m1 !! i = Some true -> m2 !! i = Some true -> ~ n1 < n2).
    { intros n1 n2 m1 m2 Hm1 Hm2 Hn1 Hn2 Ht1 Ht2 Hlt.
      destruct (cat_lims_lookup n1 Hn1) as (lo1 & hi1 & Hlo1 & Hhi1).
      destruct (cat_lims_lookup n2 Hn2) as (lo2 & hi2 & Hlo2 & Hhi2).
      rewrite (cat_mask_at _ _ _ _ _ _ _ Hlo1 Hhi1 Hh Hm1) in Ht1.
      rewrite (cat_mask_at _ _ _ _ _ _ _ Hlo2 Hhi2 Hh Hm2) in Ht2.
      injection Ht1 as Ht1. injection Ht2 as Ht2.
      apply andb_true_iff in Ht1 as [_ Hb1]. apply andb_true_iff in Ht2 as [Hb2 _].
      apply bool_decide_eq_true in Hb1, Hb2.
      pose proof (cat_lims_sorted n1 n2 hi1 lo2 Hlt Hhi1 Hlo2) as Hle.
      apply (Qcle_not_lt _ _ Hle). by apply (Qclt_trans _ h). }
    intros n1 n2 m1 m2 Hm1 Hm2 Hn1 Hn2 Ht1 Ht2.
    destruct (Nat.lt_trichotomy n1 n2) as [Hlt|[Heq|Hgt]]; [|done|].
    + exfalso. by eapply (Hord n1 n2).
    + exfalso. by eapply (Hord n2 n1).
  - intros Hpos Hbig Hnot.
    assert (Hstep : forall n lo hi,
              cat_lims !! n = Some lo -> cat_lims !! Datatypes.S n = Some hi ->
              (lo < h)%Qc ->
              (exists m, cat_mask_of hice_c n = Ok m /\ m !! i = Some true) \/
              (hi < h)%Qc).
    { intros n lo hi Hlo Hhi Hlt.
      destruct (Qclt_le_dec h hi) as [Hin|Hout].
      - left. eexists. split; [by apply cat_mask_of_run|].
        change (map ?g ?l) with (g <$> l). rewrite list_lookup_fmap, Hh. cbn.
        f_equal. apply andb_true_iff. by rewrite !bool_decide_eq_true.
      - right. apply Qcle_lt_or_eq in Hout as [Hout|Hout]; [done|].
        exfalso. apply Hnot. subst. by eapply list_elem_of_lookup_2. }
    destruct (Hstep 0 _ _ eq_refl eq_refl Hpos) as [[m Hm]|H1]; [by exists 0, m; split; [lia|]|].
    destruct (Hstep 1 _ _ eq_refl eq_refl H1) as [[m Hm]|H2]; [by exists 1, m; split; [lia|]|].
    destruct (Hstep 2 _ _ eq_refl eq_refl H2) as [[m Hm]|H3]; [by exists 2, m; split; [lia|]|].
    destruct (Hstep 3 _ _ eq_refl eq_refl H3) as [[m Hm]|H4]; [by exists 3, m; split; [lia|]|].
    destruct (Hstep 4 _ _ eq_refl eq_refl H4) as [[m Hm]|H5]; [by exists 4, m; split; [lia|]|].
    exfalso. apply (Qclt_not_le _ _ Hbig). by apply Qclt_le_weak.
  - intros Hout n m Hn Hm.
    destruct (cat_lims_lookup n Hn) as (lo & hi & Hlo & Hhi).
    rewrite (cat_mask_at _ _ _ _ _ _ _ Hlo Hhi Hh Hm). f_equal.
    apply andb_false_iff. rewrite !bool_decide_eq_false.
    destruct (cat_lims_bounds _ _ Hlo) as [Hlo0 _].
    destruct (cat_lims_bounds _ _ Hhi) as [_ Hhi8].
    destruct Hout as [Hneg|Hbig].
    + left. apply Qcle_not_lt. by eapply Qcle_trans.
    + right. apply Qcle_not_lt. by eapply Qcle_trans.
Qed.

Lemma cat_masks_partition_witness :
  let hice_c := [Q2Qc 0; Q2Qc 2] in
  (forall n1 n2 m1 m2,
     cat_mask_of hice_c n1 = Ok m1 -> cat_mask_of hice_c n2 = Ok m2 ->
     n1 < 5 -> n2 < 5 ->
     m1 !! 1 = Some true -> m2 !! 1 = Some true -> n1 = n2) /\
  ((0 < Q2Qc 2)%Qc -> (Q2Qc 2 < Q2Qc 1e8)%Qc -> Q2Qc 2 ∉ cat_lims ->
   exists n m, n < 5 /\ cat_mask_of hice_c n = Ok m /\ m !! 1 = Some true) /\
  ((Q2Qc 2 <= 0)%Qc \/ (Q2Qc 1e8 <= Q2Qc 2)%Qc ->
   forall n m, n < 5 -> cat_mask_of hice_c n = Ok m -> m !! 1 = Some false).
Proof.
  intros hice_c.
  apply (cat_masks_partition hice_c 1 (Q2Qc 2)). reflexivity.
Defined.

(* ===================================================================== *)
(** ** The time variable and the variables without a time axis *)
(* ===================================================================== *)



Section DayLoopTime.
Context `{Calendar}.
Context (aice hice tair toce salt land_mask : nd).
Context (bry_time : list Qc) (clm_dates atm_dates : list Z) (t0c_idx : nat).
Context (o_pre o_end : CiceBryHax) (f_pre : BryFile) (len : nat).
Context (Hrun : for_each (seq t0c_idx len)
                  (write_bry_day aice hice tair toce salt land_mask bry_time
                                 clm_dates atm_dates t0c_idx) o_pre
                = (Ok tt, o_end)).
Context (Hf_pre : bry o_pre = Some f_pre).



End DayLoopTime.

Section TimeOfDates.
Context `{Calendar}.


End TimeOfDates.




Section RunStatic.
Context `{Calendar}.
Context (o : CiceBryHax) (g c a : SrcFile).
Context (ds : gmap string Z) (nz : nat).
Context (Hg : grid o = Some (Some g)).
Context (Hc : clm o = Some (Some c)).
Context (Ha : atm o = Some (Some a)).
Context (Hds : dim_sizes o = Some ds).
Context (Hnz : ds !! "nkice" = Some (Z.of_nat nz)).
Context (Hrun : (write_bry_data o).1 = Ok tt).


End RunStatic.

Section RunStaticFacts.
Context `{Calendar}.
Context (o : CiceBryHax) (g c a : SrcFile).
Context (ds : gmap string Z) (nz : nat).
Context (Hg : grid o = Some (Some g)).
Context (Hc : clm o = Some (Some c)).
Context (Ha : atm o = Some (Some a)).
Context (Hds : dim_sizes o = Some ds).
Context (Hnz : ds !! "nkice" = Some (Z.of_nat nz)).
Context (Hrun : (write_bry_data o).1 = Ok tt).



End RunStaticFacts.



Section RunFrame.
Context `{Calendar}.

(** X24. Whether it completes or raises, [write_bry_data] changes of the object
    only the attributes of the catalogue entries and, of the boundary file,
    the variable attributes and the data: the mode and path, the dimension
    sizes, the dates and units and the three sources are as before, the
    catalogue has the same names, and the file has the same dimensions,
    variables and global attributes and is open or closed as before. *)
Theorem write_bry_data_changes_data_only (o : CiceBryHax) :
  let o' := (write_bry_data o).2 in
  mode o' = mode o /\ bry_file o' = bry_file o /\
  dim_sizes o' = dim_sizes o /\
  start_date o' = start_date o /\ end_date o' = end_date o /\
  time_units o' = time_units o /\
  grid o' = grid o /\ clm o' = clm o /\ atm o' = atm o /\
  map name (bry_vars o') = map name (bry_vars o) /\
  match bry o, bry o' with
  | Some f, Some f' =>
      f_open f' = f_open f /\ f_dims f' = f_dims f /\
      f_vars f' = f_vars f /\ f_gattrs f' = f_gattrs f
  | None, None => True
  | _, _ => False
  end.
Proof.
  cbv zeta.
  pose proof (preserves_write_bry_data o (write_bry_data o).1
                (write_bry_data o).2 (surjective_pairing _)) as Hc.
  unfold config_of in Hc.
  injection Hc as Hmode Hfile Hdims Hsd Hed Hu _ Hgrid _ Hclm _ Hatm _ _ _
    Hnames Hbry.
  repeat (split; [done|]).
  destruct (bry o), (bry (write_bry_data o).2); cbn in Hbry; try done.
  injection Hbry as -> -> -> ->. done.
Qed.

End RunFrame.

(* ===================================================================== *)
(** ** A start date that the climatology does not have *)
(* ===================================================================== *)

Section RunDates.
Context `{Calendar}.

Lemma same_frame_all_data (o o' : CiceBryHax) (f f' : BryFile) :
  same_frame (fun _ => False) o o' -> bry o = Some f -> bry o' = Some f' ->
  f_vars f' = f_vars f /\ f_data f' = f_data f.
Proof.
  intros (_ & _ & _ & Hb) Hf Hf'. rewrite Hf, Hf' in Hb.
  destruct Hb as [Hv Hk]. split; [done|]. apply map_eq. intros K.
  apply Hk. tauto.
Qed.

(** X25. With the three sources attached and the time units written, a start
    date that is not among the decoded dates of the climatology makes
    [write_bry_data] raise the [ValueError] of [get_time_endpoints], which
    names the date and the climatology file.  The variable attributes have
    been written by then, the data of the file are still as before. *)
Theorem write_bry_data_start_date_absent (o o1 : CiceBryHax)
    (g c a : SrcFile) (u : string) (time : list Z) (sd ed : Z) :
  grid o = Some (Some g) -> clm o = Some (Some c) -> atm o = Some (Some a) ->
  time_units o = Some u ->
  start_date o = Some sd -> end_date o = Some ed ->
  set_var_attr "Time" "units" (PStr u) true o = (Ok tt, o1) ->
  get_dates c "clim_time" = Ok time ->
  sd ∉ time ->
  write_bry_data o =
    (Raise (ValueError ("Start date " +:+ str_date sd +:+ " not in " +:+
                        src_path c +:+ "!")), o1) /\
  forall f f1, bry o = Some f -> bry o1 = Some f1 ->
    f_vars f1 = f_vars f /\ f_data f1 = f_data f.
Proof.
  intros Hg Hc Ha Hu Hsd Hed Hset Hdates Hnot. split.
  - pose proof (preserves_set_var_attr _ _ _ _ _ _ _ Hset) as C1.
    unfold config_of in C1.
    injection C1 as _ _ _ Hsd1 Hed1 _ _ _ _ _ _ _ _ _ _ _ _.
    unfold write_bry_data. unfold bind at 1, get. rewrite Hg, Hc, Ha, Hu.
    rewrite (bind_ok _ _ _ _ _ Hset).
    apply bind_raise. unfold compute_bry_time.
    unfold bind at 1, lift. rewrite Hdates.
    apply bind_raise. unfold get_time_endpoints, bind, get, lift, raise.
    cbv beta. rewrite Hsd1, Hed1, Hsd, Hed, Hdates.
    by rewrite (np_where_eq_absent _ _ Hnot).
  - intros f f1 Hf Hf1.
    apply (same_frame_all_data o o1 f f1); [|done|done].
    exact (framed_set_var_attr _ _ _ _ _ _ _ _ Hset).
Qed.

End RunDates.

Lemma write_bry_data_start_date_absent_witness :
  let o := with_dates ex_run_obj (Some 432000000000%Z) (Some 86400000000%Z)
                      (Some "days") in
  @write_bry_data day_calendar o =
    (Raise (ValueError ("Start date " +:+ @str_date day_calendar 432000000000
                        +:+ " not in " +:+ src_path ex_run_clm +:+ "!")),
     (set_var_attr "Time" "units" (PStr "days") true o).2) /\
  forall f f1, bry o = Some f ->
    bry (set_var_attr "Time" "units" (PStr "days") true o).2 = Some f1 ->
    f_vars f1 = f_vars f /\ f_data f1 = f_data f.
Proof.
  intros o.
  apply (@write_bry_data_start_date_absent day_calendar o
           (set_var_attr "Time" "units" (PStr "days") true o).2
           ex_run_grid ex_run_clm ex_run_atm "days"
           [0; 86400000000; 172800000000]%Z 432000000000 86400000000).
  - reflexivity.
  - reflexivity.
  - reflexivity.
  - reflexivity.
  - reflexivity.
  - reflexivity.
  - vm_compute. reflexivity.
  - vm_compute. reflexivity.
  - apply (bool_decide_unpack _). by vm_compute.
Defined.

(* ===================================================================== *)
(** ** Verification after the data have been written *)
(* ===================================================================== *)

Section VerifyAfterWrite.
Context `{Calendar}.

(** X26. Writing the data does not change what verification finds: on an
    object with a boundary file and a catalogue that is not empty,
    [verify_variables] returns or raises after [write_bry_data], whether
    that completed or raised, exactly as it would have before. *)
Theorem verify_variables_after_write (o : CiceBryHax) (f : BryFile) :
  bry o = Some f -> bry_vars o <> [] ->
  (verify_variables (write_bry_data o).2).1 = (verify_variables o).1.
Proof.
  intros Hf Hne.
  pose proof (preserves_write_bry_data o (write_bry_data o).1
                (write_bry_data o).2 (surjective_pairing _)) as Hc.
  unfold config_of in Hc.
  injection Hc as _ Hfile _ _ _ _ _ _ _ _ _ _ _ _ _ Hnames Hbry.
  set (o' := (write_bry_data o).2) in *.
  rewrite Hf in Hbry. destruct (bry o') as [f'|] eqn:Hf'; [|done].
  cbn in Hbry. injection Hbry as _ _ Hvars _.
  assert (Hne' : bry_vars o' <> []).
  { intros Hnil. rewrite Hnil in Hnames. by destruct (bry_vars o). }
  rewrite (verify_variables_run o' f' Hf' Hne').
  rewrite (verify_variables_run o f Hf Hne).
  rewrite Hnames, Hvars, Hfile.
  destruct (first_absent (map name (bry_vars o)) (f_vars f)); [done|].
  cbv zeta. by destruct (first_absent (f_vars f) catalog_names).
Qed.

End VerifyAfterWrite.

Lemma verify_variables_after_write_witness :
  (verify_variables (@write_bry_data day_calendar ex_run_obj).2).1
  = (verify_variables ex_run_obj).1.
Proof.
  apply (@verify_variables_after_write day_calendar ex_run_obj ex_run_file).
  - reflexivity.
  - discriminate.
Defined.
